(** * droid-import: compatibility analysis, tool mapping, normalizer and
      command converter

    Shallow embedding of the analyzer ([src/analyzer.ts]), of the
    normalizer ([normalizeText] and its helpers, which [converters/command.ts]
    and the installer import from [./normalizer]) and of the command converter
    ([convertCommand], in its two revisions); of the skill converter
    ([convertSkillFile]), of [toArray] of the agent converter, of the
    installer ([executeInstallPlan]) and of the pass over an installation
    ([normalizeInstalled]).

    Conventions of the embedding.
    - A JavaScript string is a [string]; every character stands for one
      UTF-16 code unit below 256, so the texts covered are the Latin-1 ones.
    - A regular expression literal is a [RegExp]: a syntax tree and the [i]
      and [m] flags, run by a backtracking matcher that follows the
      ECMAScript semantics (greedy quantifiers, leftmost alternative first).
    - The parsed metadata block is a [JsValue]; its numbers are the integers
      that JavaScript prints in plain decimal (magnitude below 10^21), and
      its objects are the ones [String] prints as [[object Object]]: an
      object with a member named [toString] is outside the embedding
      ([String] throws on it).
    - [matter] (gray-matter), [readFileSync] and [httpGet] are collaborators
      outside the analysis: they are section variables, and an [Outcome] says
      whether the call at hand returned or threw. gray-matter keeps the texts
      it is given in a cache, so a later call on the same text can be
      answered differently: a text whose metadata block made the parser
      throw is answered, from then on, with empty metadata and the whole
      text as content.
    - Code that writes files runs in a world, the state of the file system,
      which the calls of [fs] read and change; the world is a type variable,
      so what is proved holds whatever the file system does. *)

From Stdlib Require Import String Ascii List Bool Arith ZArith Lia.
From Stdlib Require Import DecimalString.
Import ListNotations.
Open Scope string_scope.
Open Scope nat_scope.

Set Implicit Arguments.
Set Warnings "-register-all".

(* ================================================================= *)
(** ** Characters and strings as JavaScript sees them *)

Module Js.

Definition code (c : ascii) : nat := nat_of_ascii c.

Definition between (lo hi : nat) (c : ascii) : bool :=
  (lo <=? code c) && (code c <=? hi).

Definition isLower (c : ascii) : bool := between 97 122 c.
Definition isUpper (c : ascii) : bool := between 65 90 c.
Definition isDigit (c : ascii) : bool := between 48 57 c.

(** [\w]: the characters that count for [\b]. *)
Definition isWordChar (c : ascii) : bool :=
  isLower c || isUpper c || isDigit c || (code c =? 95).

(** LineTerminator: LF and CR (U+2028 and U+2029 are not below 256). *)
Definition isLineTerminator (c : ascii) : bool :=
  (code c =? 10) || (code c =? 13).

(** [\s] and [trim]: TAB, LF, VT, FF, CR, SP and NBSP. *)
Definition isSpace (c : ascii) : bool :=
  between 9 13 c || (code c =? 32) || (code c =? 160).

Definition lowerChar (c : ascii) : ascii :=
  if isUpper c || (between 192 222 c && negb (code c =? 215))
  then ascii_of_nat (code c + 32) else c.

Definition upperAscii (c : ascii) : ascii :=
  if isLower c then ascii_of_nat (code c - 32) else c.

Definition lowerAscii (c : ascii) : ascii :=
  if isUpper c then ascii_of_nat (code c + 32) else c.

Definition LF : ascii := ascii_of_nat 10.
Definition dquote : ascii := ascii_of_nat 34.
Definition backslash : ascii := ascii_of_nat 92.

Definition chr (c : ascii) : string := String c EmptyString.

Fixpoint toLowerCase (s : string) : string :=
  match s with
  | EmptyString => EmptyString
  | String c t => String (lowerChar c) (toLowerCase t)
  end.

Fixpoint trimStart (s : string) : string :=
  match s with
  | String c t => if isSpace c then trimStart t else s
  | EmptyString => EmptyString
  end.

Fixpoint rev (s acc : string) : string :=
  match s with
  | EmptyString => acc
  | String c t => rev t (String c acc)
  end.

Definition trimEnd (s : string) : string :=
  rev (trimStart (rev s "")) "".

Definition trim (s : string) : string := trimEnd (trimStart s).

(** [s.split(sep)] for a one-character separator. *)
Fixpoint splitOn (sep : ascii) (s cur : string) : list string :=
  match s with
  | EmptyString => [rev cur ""]
  | String c t =>
      if Ascii.eqb c sep then rev cur "" :: splitOn sep t ""
      else splitOn sep t (String c cur)
  end.

Definition split (sep : ascii) (s : string) : list string := splitOn sep s "".

(** [xs.join(sep)] on strings. *)
Fixpoint join (sep : string) (xs : list string) : string :=
  match xs with
  | [] => ""
  | [x] => x
  | x :: rest => x ++ sep ++ join sep rest
  end.

(** [xs.includes(x)] on strings. *)
Definition includes (xs : list string) (x : string) : bool :=
  existsb (String.eqb x) xs.

(** [[...new Set(xs)]]: insertion order, first occurrence kept. *)
Section Uniq.
Variable A : Type.
Variable eqbA : A -> A -> bool.

Fixpoint uniqFrom (seen xs : list A) : list A :=
  match xs with
  | [] => []
  | x :: rest =>
      if existsb (eqbA x) seen then uniqFrom seen rest
      else x :: uniqFrom (x :: seen) rest
  end.

Definition uniq (xs : list A) : list A := uniqFrom [] xs.
End Uniq.

Definition uniqStrings : list string -> list string := uniq String.eqb.

End Js.

(* ================================================================= *)
(** ** Regular expressions *)

Module Re.

Inductive regex : Type :=
| Eps                                   (* empty pattern *)
| Chr (p : ascii -> bool)               (* one character out of a set *)
| Seq (r1 r2 : regex)                   (* r1 r2 *)
| Alt (r1 r2 : regex)                   (* r1 | r2 *)
| Star (r : regex)                      (* r*, greedy *)
| Group (i : nat) (r : regex)           (* i-th capturing group *)
| Bol                                   (* ^ *)
| Eol                                   (* $ *)
| WordB.                                (* \b *)

Record RegExp : Type := mkRegExp {
  pattern : regex;
  ignoreCase : bool;
  multiline : bool
}.

Definition Plus (r : regex) : regex := Seq r (Star r).   (* r+ *)
Definition Opt (r : regex) : regex := Alt r Eps.         (* r? *)

(** Character sets. *)
Definition lit (c : ascii) : regex := Chr (Ascii.eqb c).
Definition oneOf (cs : string) : regex :=
  Chr (fun c => existsb (Ascii.eqb c) (list_ascii_of_string cs)).
Definition space : regex := Chr Js.isSpace.                          (* \s *)
Definition nonSpace : regex := Chr (fun c => negb (Js.isSpace c)).   (* \S, [^\s] *)
Definition dot : regex := Chr (fun c => negb (Js.isLineTerminator c)).

(** A run of literal characters. *)
Fixpoint str (s : string) : regex :=
  match s with
  | EmptyString => Eps
  | String c EmptyString => lit c
  | String c t => Seq (lit c) (str t)
  end.

Fixpoint seqs (rs : list regex) : regex :=
  match rs with
  | [] => Eps
  | [r] => r
  | r :: rest => Seq r (seqs rest)
  end.

Definition Captures : Type := list (nat * string).

Fixpoint capture (i : nat) (cs : Captures) : option string :=
  match cs with
  | [] => None
  | (j, s) :: rest => if Nat.eqb i j then Some s else capture i rest
  end.

(** Text of capture [i], the empty string when the group did not take part
    (what a replace callback sees after [|| ""], and what [String] gives). *)
Definition captured (i : nat) (cs : Captures) : string :=
  match capture i cs with Some s => s | None => "" end.

(** Matcher state: the character before the current position (needed by
    [^], [\b]), the input left, and the captures so far. *)
Record State : Type := mkState {
  prev : option ascii;
  rest : string;
  caps : Captures
}.

Definition wordBefore (st : State) : bool :=
  match prev st with Some c => Js.isWordChar c | None => false end.

Definition wordAfter (st : State) : bool :=
  match rest st with String c _ => Js.isWordChar c | EmptyString => false end.

Section Matcher.
Variable icase : bool.
Variable mline : bool.

(** Under the [i] flag a character matches a set when one of its case
    variants is in the set (only ASCII letters have variants among the
    patterns' characters). *)
Definition accepts (p : ascii -> bool) (c : ascii) : bool :=
  if icase then p c || p (Js.upperAscii c) || p (Js.lowerAscii c) else p c.

Definition atBol (st : State) : bool :=
  match prev st with
  | None => true
  | Some c => mline && Js.isLineTerminator c
  end.

Definition atEol (st : State) : bool :=
  match rest st with
  | EmptyString => true
  | String c _ => mline && Js.isLineTerminator c
  end.

(** The loop of a greedy [r*]: [m] matches [r] once; an iteration has to
    consume input, and what follows the star ([k]) is tried after the
    longest run of iterations first, then after shorter ones. *)
Fixpoint iterate (m : State -> (State -> option State) -> option State)
    (k : State -> option State) (fuel : nat) (st0 : State) : option State :=
  match fuel with
  | O => k st0
  | S fuel' =>
      match m st0 (fun st1 =>
              if String.length (rest st1) <? String.length (rest st0)
              then iterate m k fuel' st1
              else None) with
      | Some res => Some res
      | None => k st0
      end
  end.

(** Backtracking matcher in continuation-passing style: [k] is the rest of
    the pattern; the first success is the match. *)
Fixpoint run (r : regex) (st : State) (k : State -> option State)
    : option State :=
  match r with
  | Eps => k st
  | Chr p =>
      match rest st with
      | String c t =>
          if accepts p c then k (mkState (Some c) t (caps st)) else None
      | EmptyString => None
      end
  | Seq r1 r2 => run r1 st (fun st1 => run r2 st1 k)
  | Alt r1 r2 =>
      match run r1 st k with
      | Some res => Some res
      | None => run r2 st k
      end
  | Star r1 => iterate (run r1) k (String.length (rest st)) st
  | Group i r1 =>
      run r1 st (fun st1 =>
        let n := String.length (rest st) - String.length (rest st1) in
        k (mkState (prev st1) (rest st1)
             ((i, substring 0 n (rest st)) :: caps st1)))
  | Bol => if atBol st then k st else None
  | Eol => if atEol st then k st else None
  | WordB => if xorb (wordBefore st) (wordAfter st) then k st else None
  end.
End Matcher.

(** One match attempt at the current position. *)
Definition matchHere (re : RegExp) (p : option ascii) (s : string)
  : option State :=
  run (ignoreCase re) (multiline re) (pattern re) (mkState p s []) Some.

(** Leftmost match at or after the current position: the text skipped, and
    the state at the end of the match. *)
Fixpoint search (re : RegExp) (p : option ascii) (s : string)
  : option (string * State) :=
  match matchHere re p s with
  | Some st => Some ("", st)
  | None =>
      match s with
      | EmptyString => None
      | String c t =>
          match search re (Some c) t with
          | Some (skipped, st) => Some (String c skipped, st)
          | None => None
          end
      end
  end.

(** [re.exec(s)] for a regular expression without the [g] flag. *)
Definition exec (re : RegExp) (s : string) : option Captures :=
  match search re None s with
  | Some (_, st) => Some (caps st)
  | None => None
  end.

(** [re.test(s)] for a regular expression without the [g] flag. *)
Definition test (re : RegExp) (s : string) : bool :=
  match search re None s with Some _ => true | None => false end.

(** [s.replace(re, f)] for a [g]-flagged [re]: the matches are found left to
    right in the original text and [f] is called once per match, in order,
    with the whole match and its captures; what [f] pushes to the arrays it
    closes over is the state [acc]. An empty match moves on by one
    character. *)
Fixpoint replaceFrom (St : Type) (re : RegExp)
    (f : string -> Captures -> St -> string * St)
    (fuel : nat) (p : option ascii) (s : string) (acc : St) : string * St :=
  match fuel with
  | O => (s, acc)
  | S fuel' =>
      match matchHere re p s with
      | Some st =>
          let n := String.length s - String.length (rest st) in
          let '(out, acc1) := f (substring 0 n s) (caps st) acc in
          match n, s with
          | O, String c t =>
              let '(more, acc2) := replaceFrom re f fuel' (Some c) t acc1 in
              (out ++ String c more, acc2)
          | O, EmptyString => (out, acc1)
          | _, _ =>
              let '(more, acc2) :=
                replaceFrom re f fuel' (prev st) (rest st) acc1 in
              (out ++ more, acc2)
          end
      | None =>
          match s with
          | EmptyString => ("", acc)
          | String c t =>
              let '(more, acc1) := replaceFrom re f fuel' (Some c) t acc in
              (String c more, acc1)
          end
      end
  end.

Definition replaceAllWith (St : Type) (re : RegExp)
    (f : string -> Captures -> St -> string * St) (s : string) (acc : St)
  : string * St :=
  replaceFrom re f (S (String.length s)) None s acc.

(** [s.replace(re, by_)] for a [g]-flagged [re] and a replacement text
    without [$] patterns. *)
Definition replaceAll (re : RegExp) (by_ : string) (s : string) : string :=
  fst (replaceAllWith re (fun _ _ (u : unit) => (by_, u)) s tt).

(** *** Vocabulary of the statements *)

(** The character before the position reached after [s]. *)
Fixpoint lastChar (p : option ascii) (s : string) : option ascii :=
  match s with
  | EmptyString => p
  | String c t => lastChar (Some c) t
  end.

(** No match of [re] starts at a position inside [s], in the text [s]
    followed by [suffix]; [p] is the character before [s]. *)
Fixpoint matchesNowhereIn (re : RegExp) (p : option ascii) (s suffix : string)
  : bool :=
  match s with
  | EmptyString => true
  | String c t =>
      match matchHere re p (s ++ suffix) with
      | Some _ => false
      | None => matchesNowhereIn re (Some c) t suffix
      end
  end.



(** [before] is empty or ends with a line terminator: what follows it
    starts a line. *)
Definition startsLine (before : string) : bool :=
  match lastChar None before with
  | None => true
  | Some c => Js.isLineTerminator c
  end.

(** [after] is empty or starts with a line terminator: what precedes it
    ends a line. *)
Definition endsLine (after : string) : bool :=
  match after with
  | EmptyString => true
  | String c _ => Js.isLineTerminator c
  end.

(** Every character of [w] is in the set [p]; the first character of
    [tail], if any, is not. *)
Definition allAccepted (icase : bool) (p : ascii -> bool) (w : string) : bool :=
  forallb (accepts icase p) (list_ascii_of_string w).

Definition headRejected (icase : bool) (p : ascii -> bool) (tail : string) : bool :=
  match tail with
  | EmptyString => true
  | String c _ => negb (accepts icase p c)
  end.

End Re.

(* ================================================================= *)
(** ** JavaScript values of a parsed metadata block *)

Inductive JsValue : Type :=
| JUndefined
| JNull
| JBool (b : bool)
| JNum (z : Z)
| JStr (s : string)
| JArr (items : list JsValue)
| JObj (fields : list (string * JsValue)).

Module Value.

Definition decimal (z : Z) : string := NilZero.string_of_int (Z.to_int z).

(** [String(v)], for the values of the embedding: integers printed in
    plain decimal, objects without a member named [toString]. *)
Fixpoint toStr (v : JsValue) : string :=
  match v with
  | JUndefined => "undefined"
  | JNull => "null"
  | JBool true => "true"
  | JBool false => "false"
  | JNum z => decimal z
  | JStr s => s
  | JArr items =>
      Js.join ","
        (map (fun x => match x with
                       | JUndefined | JNull => ""
                       | _ => toStr x
                       end) items)
  | JObj _ => "[object Object]"
  end.

(** Truthiness: what [!v], [v || w] and [if (v)] look at. *)
Definition truthy (v : JsValue) : bool :=
  match v with
  | JUndefined | JNull => false
  | JBool b => b
  | JNum z => negb (Z.eqb z 0)
  | JStr s => negb (String.eqb s "")
  | JArr _ | JObj _ => true
  end.

Fixpoint assoc (A : Type) (k : string) (kvs : list (string * A)) : option A :=
  match kvs with
  | [] => None
  | (k', v) :: rest => if String.eqb k k' then Some v else assoc k rest
  end.

(** [v[k]] for the keys the program reads ([name], [description], [tools],
    [allowed-tools], [argument-hint]): none of them exists on a prototype,
    so only own properties of an object answer. *)
Definition get (k : string) (v : JsValue) : JsValue :=
  match v with
  | JObj fields =>
      match assoc k fields with Some x => x | None => JUndefined end
  | _ => JUndefined
  end.

(** [Object.keys(v)]. *)
Definition keys (v : JsValue) : list string :=
  match v with
  | JObj fields => map fst fields
  | JArr items => map (fun i => decimal (Z.of_nat i)) (seq 0 (List.length items))
  | JStr s => map (fun i => decimal (Z.of_nat i)) (seq 0 (String.length s))
  | _ => []
  end.

End Value.

(** Outcome of a call that may throw. *)
Inductive Outcome (A : Type) : Type :=
| Returned (a : A)
| Threw (message : string).
Arguments Returned {A} a.
Arguments Threw {A} message.

(** What [matter(text)] of gray-matter returns. *)
Record GrayMatterFile : Type := mkGrayMatterFile {
  gm_data : JsValue;      (* .data *)
  gm_content : string     (* .content *)
}.

(* ================================================================= *)
(** ** src/types.ts *)

Inductive SrcType : Type := local | remote.

Record DiscoveredFile : Type := mkDiscoveredFile {
  file_name : string;
  file_srcType : SrcType;
  file_src : string
}.

Record SkillFile : Type := mkSkillFile {
  relativePath : string;
  skillfile_src : string;
  skillfile_srcType : SrcType
}.

Record DiscoveredSkill : Type := mkDiscoveredSkill {
  skill_name : string;
  skill_srcType : SrcType;
  srcDir : string;
  files : list SkillFile
}.

(* ================================================================= *)
(** ** src/analyzer.ts: catalogs *)

Module Analyzer.
Import Re.

Definition FACTORY_TOOLS : list string :=
  [ "Read"; "LS"; "Grep"; "Glob";
    "Create"; "Edit"; "ApplyPatch"; "MultiEdit";
    "Execute";
    "WebSearch"; "FetchUrl";
    "TodoWrite"; "Task"; "Skill";
    "read-only"; "edit"; "execute"; "web"; "mcp" ].

(** Own properties of the [TOOL_MAPPING] object literal; [None] is [null]. *)
Definition TOOL_MAPPING : list (string * option string) :=
  [ ("Read", Some "Read");
    ("Write", Some "Create");
    ("Edit", Some "Edit");
    ("MultiEdit", Some "MultiEdit");
    ("Bash", Some "Execute");
    ("Execute", Some "Execute");
    ("Glob", Some "Glob");
    ("Grep", Some "Grep");
    ("LS", Some "LS");
    ("WebSearch", Some "WebSearch");
    ("FetchUrl", Some "FetchUrl");
    ("TodoWrite", Some "TodoWrite");
    ("Task", Some "Task");
    ("Create", Some "Create");
    ("ApplyPatch", Some "ApplyPatch");
    ("Skill", Some "Skill");
    ("NotebookEdit", None);
    ("BrowseURL", None);
    ("WebFetch", Some "FetchUrl");
    ("AskUserQuestion", None) ].

(** [TOOL_MAPPING] is an object literal, so a property read that finds no
    own property goes on to [Object.prototype]; these are its keys, and
    every one of them holds a function or an object. *)
Definition OBJECT_PROTOTYPE_KEYS : list string :=
  [ "constructor"; "hasOwnProperty"; "isPrototypeOf"; "propertyIsEnumerable";
    "toLocaleString"; "toString"; "valueOf"; "__proto__";
    "__defineGetter__"; "__defineSetter__";
    "__lookupGetter__"; "__lookupSetter__" ].

(** The value of the expression [TOOL_MAPPING[tool]]. *)
Inductive Mapping : Type :=
| Own (target : option string)   (* own property: a tool name, or null *)
| Inherited (key : string)       (* the member of Object.prototype at key *)
| Missing.                       (* undefined *)

Definition lookupMapping (tool : string) : Mapping :=
  match Value.assoc tool TOOL_MAPPING with
  | Some target => Own target
  | None =>
      if Js.includes OBJECT_PROTOTYPE_KEYS tool then Inherited tool
      else Missing
  end.

(** An element of a [mapped] array: a tool name, or (through an inherited
    property) a member of [Object.prototype]. *)
Inductive ToolRef : Type :=
| Named (name : string)
| ProtoMember (key : string).

Definition ToolRef_eqb (a b : ToolRef) : bool :=
  match a, b with
  | Named x, Named y => String.eqb x y
  | ProtoMember x, ProtoMember y => String.eqb x y
  | _, _ => false
  end.

(** [[a-zA-Z0-9_-]] *)
Definition nameChar (c : ascii) : bool :=
  Js.isLower c || Js.isUpper c || Js.isDigit c
  || (Js.code c =? 95) || (Js.code c =? 45).

(** [/^mcp__([a-zA-Z0-9_-]+)(?:__(.+))?$/] *)
Definition MCP_TOOL_PATTERN : RegExp :=
  mkRegExp
    (seqs [Bol; str "mcp__"; Group 1 (Plus (Chr nameChar));
           Opt (Seq (str "__") (Group 2 (Plus dot))); Eol])
    false false.

(** [/^(Bash|Execute)\(.+\)$/] *)
Definition BASH_RESTRICTION_PATTERN : RegExp :=
  mkRegExp
    (seqs [Bol; Group 1 (Alt (str "Bash") (str "Execute"));
           lit "("; Plus dot; lit ")"; Eol])
    false false.

(** Each pattern with its [source] text. *)
Definition CLAUDE_SPECIFIC_PATTERNS : list (RegExp * string) :=
  [ (mkRegExp (seqs [str "/claude"; Plus space]) true false,
     "\/claude\s+");
    (mkRegExp (seqs [str "claude"; Plus space; str "code"; Plus space;
                     str "specific"]) true false,
     "claude\s+code\s+specific");
    (mkRegExp (str "NotebookEdit") false false, "NotebookEdit");
    (mkRegExp (str "@claude") true false, "@claude") ].

Record LegacyPatternRule : Type := mkRule {
  re : RegExp;
  warning : string;
  suggestion : option string
}.

Definition LEGACY_RUNTIME_PATTERNS : list LegacyPatternRule :=
  [ mkRule (mkRegExp (seqs [WordB; str "AskUserQuestion"; WordB]) false false)
      "References AskUserQuestion (not available in Factory) - should ask questions in normal chat"
      (Some "Replace 'AskUserQuestion' references with plain-language prompts to ask the user");
    mkRule (mkRegExp (seqs [Bol; Star space; str "agent"; Plus space;
                            Plus nonSpace]) false true)
      "Contains 'agent <name>' invocations - Factory uses the Task tool + subagent_type"
      (Some "Replace 'agent <name>' with guidance to use the Task tool (subagent_type: <name>)");
    mkRule (mkRegExp (seqs [Bol; Star space; str "skill"; Plus space;
                            Plus nonSpace]) false true)
      "Contains 'skill <name>' invocations - Factory uses the Skill tool"
      (Some "Replace 'skill <name>' with guidance to use the Skill tool");
    mkRule (mkRegExp (seqs [WordB; str ".claude/"]) false false)
      "References .claude/ paths - Factory uses .factory/ for most local automation/config"
      (Some "If this is a Factory workflow, update paths to .factory/ equivalents") ].

Record AnalysisResult : Type := mkAnalysisResult {
  compatible : bool;
  score : Z;
  issues : list string;
  warnings : list string;
  mappedTools : list ToolRef;
  unmappedTools : list string;
  requiredMcps : list string;
  suggestions : list string
}.

(** [parseTools] *)
Definition parseTools (toolsValue : JsValue) : list string :=
  if negb (Value.truthy toolsValue) then []
  else
    match toolsValue with
    | JArr items => map Value.toStr items
    | JStr s =>
        filter (fun t => negb (String.eqb t ""))
          (map Js.trim (Js.split "," s))
    | _ => []
    end.

(** The arrays [analyzeTools] fills while it walks the token list. *)
Record ToolAnalysis : Type := mkToolAnalysis {
  mapped : list ToolRef;
  unmapped : list string;
  ta_requiredMcps : list string;
  ta_issues : list string;
  ta_warnings : list string;
  ta_suggestions : list string
}.

Definition noTools : ToolAnalysis := mkToolAnalysis [] [] [] [] [] [].

Definition pushMapped (x : ToolRef) (a : ToolAnalysis) : ToolAnalysis :=
  mkToolAnalysis (mapped a ++ [x])%list (unmapped a) (ta_requiredMcps a)
    (ta_issues a) (ta_warnings a) (ta_suggestions a).

Definition pushUnmapped (x : string) (a : ToolAnalysis) : ToolAnalysis :=
  mkToolAnalysis (mapped a) (unmapped a ++ [x])%list (ta_requiredMcps a)
    (ta_issues a) (ta_warnings a) (ta_suggestions a).

Definition pushMcp (x : string) (a : ToolAnalysis) : ToolAnalysis :=
  mkToolAnalysis (mapped a) (unmapped a) (ta_requiredMcps a ++ [x])%list
    (ta_issues a) (ta_warnings a) (ta_suggestions a).

Definition pushIssue (x : string) (a : ToolAnalysis) : ToolAnalysis :=
  mkToolAnalysis (mapped a) (unmapped a) (ta_requiredMcps a)
    (ta_issues a ++ [x])%list (ta_warnings a) (ta_suggestions a).

Definition pushWarning (x : string) (a : ToolAnalysis) : ToolAnalysis :=
  mkToolAnalysis (mapped a) (unmapped a) (ta_requiredMcps a)
    (ta_issues a) (ta_warnings a ++ [x])%list (ta_suggestions a).

Definition pushSuggestion (x : string) (a : ToolAnalysis) : ToolAnalysis :=
  mkToolAnalysis (mapped a) (unmapped a) (ta_requiredMcps a)
    (ta_issues a) (ta_warnings a) (ta_suggestions a ++ [x])%list.

Definition ASK_WARNING : string :=
  "AskUserQuestion not available - agent will use conversation flow for clarification".
Definition ASK_SUGGESTION : string :=
  "Consider adding 'Ask clarifying questions before proceeding' to the prompt".

(** Body of the [for (const tool of tools)] loop of [analyzeTools]. *)
Definition analyzeTool (a : ToolAnalysis) (tool : string) : ToolAnalysis :=
  if Js.includes FACTORY_TOOLS tool then pushMapped (Named tool) a
  else
    match exec MCP_TOOL_PATTERN tool with
    | Some mcpMatch =>
        let mcpServer := captured 1 mcpMatch in
        let a1 := if negb (Js.includes (ta_requiredMcps a) mcpServer)
                  then pushMcp mcpServer a else a in
        pushMapped (Named tool) a1
    | None =>
        if test BASH_RESTRICTION_PATTERN tool
        then pushMapped (Named "Execute") a
        else
          match lookupMapping tool with
          | Own (Some target) =>
              if negb (String.eqb target "")
              then pushMapped (Named target) a
              else pushIssue ("Unknown tool '" ++ tool ++ "' - may be Claude-specific")
                     (pushUnmapped tool a)
          | Inherited key => pushMapped (ProtoMember key) a
          | Own None =>
              let a1 := pushUnmapped tool a in
              if String.eqb tool "AskUserQuestion"
              then pushSuggestion ASK_SUGGESTION (pushWarning ASK_WARNING a1)
              else pushIssue ("Tool '" ++ tool ++ "' has no Factory equivalent") a1
          | Missing =>
              pushIssue ("Unknown tool '" ++ tool ++ "' - may be Claude-specific")
                (pushUnmapped tool a)
          end
    end.

Definition mcpWarning (servers : list string) : string :=
  "Requires MCP servers: " ++ Js.join ", " servers.

(** [analyzeTools] *)
Definition analyzeTools (tools : list string) : ToolAnalysis :=
  let a := fold_left analyzeTool tools noTools in
  let a1 := if 0 <? List.length (ta_requiredMcps a)
            then pushWarning (mcpWarning (ta_requiredMcps a)) a else a in
  mkToolAnalysis (Js.uniq ToolRef_eqb (mapped a1)) (unmapped a1)
    (ta_requiredMcps a1) (ta_issues a1) (ta_warnings a1) (ta_suggestions a1).

(** [checkClaudeSpecificContent] *)
Definition checkClaudeSpecificContent (content : string) : list string :=
  flat_map (fun p : RegExp * string =>
              if test (fst p) content
              then ["Contains Claude-specific reference: " ++ snd p]
              else [])
    CLAUDE_SPECIFIC_PATTERNS.

(** [checkLegacyRuntimeContent]: warnings and suggestions. *)
Definition checkLegacyRuntimeContent (content : string)
  : list string * list string :=
  let hits := filter (fun r => test (re r) content) LEGACY_RUNTIME_PATTERNS in
  (Js.uniqStrings (map warning hits),
   Js.uniqStrings
     (flat_map (fun r => match suggestion r with
                         | Some s => if String.eqb s "" then [] else [s]
                         | None => []
                         end) hits)).

(** The scoring lines shared by the three analyses:
    [score = 100; score -= issues.length * 20; score -= warnings.length * 5;
     score = Math.max(0, Math.min(100, score))]. *)
Definition computeScore (issues warnings : list string) : Z :=
  let score := 100%Z in
  let score := (score - Z.of_nat (List.length issues) * 20)%Z in
  let score := (score - Z.of_nat (List.length warnings) * 5)%Z in
  Z.max 0 (Z.min 100 score).

(** [unmapped.filter(t => t !== "AskUserQuestion").length === 0] *)
Definition onlyAskUserUnmapped (unmapped : list string) : bool :=
  let nonAskUserUnmapped :=
    filter (fun t => negb (String.eqb t "AskUserQuestion")) unmapped in
  List.length nonAskUserUnmapped =? 0.

Definition fetchFailure (message : string) : AnalysisResult :=
  mkAnalysisResult false 0 ["Failed to fetch content: " ++ message]
    [] [] [] [] [].

(** [/^[a-z0-9_-]+$/i] *)
Definition NAME_PATTERN : RegExp :=
  mkRegExp
    (seqs [Bol;
           Plus (Chr (fun c => Js.isLower c || Js.isDigit c
                               || (Js.code c =? 95) || (Js.code c =? 45)));
           Eol])
    true false.

Section Analyses.
(** The environment: the file system, the network and gray-matter. *)
Variable readFileSync : string -> Outcome string.
Variable httpGet : string -> Outcome string.
Variable matter : string -> Outcome GrayMatterFile.

(** [fetchContent] *)
Definition fetchContent (src : string) (srcType : SrcType) : Outcome string :=
  match srcType with
  | local => readFileSync src
  | remote => httpGet src
  end.

(** The [try { matter(content) } catch { warnings.push(...) }] block of
    the three analyses: frontmatter, body, and what the catch pushes. *)
Definition splitFrontmatter (content : string)
  : JsValue * string * list string :=
  match matter content with
  | Returned parsed =>
      (if Value.truthy (gm_data parsed) then gm_data parsed else JObj [],
       gm_content parsed,
       [])
  | Threw _ => (JObj [], "", ["Failed to parse YAML frontmatter"])
  end.

(** [analyzeAgent] *)
Definition analyzeAgent (agent : DiscoveredFile) : AnalysisResult :=
  match fetchContent (file_src agent) (file_srcType agent) with
  | Threw message => fetchFailure message
  | Returned content =>
      let '(frontmatter, body, warnings) := splitFrontmatter content in
      let issues : list string := [] in
      let suggestions : list string := [] in
      (* Check name *)
      let name := if Value.truthy (Value.get "name" frontmatter)
                  then Value.get "name" frontmatter
                  else JStr (file_name agent) in
      let issues := if negb (Value.truthy name)
                    then (issues ++ ["Missing required 'name' field"])%list
                    else issues in
      let warnings := if Value.truthy name
                         && negb (test NAME_PATTERN (Value.toStr name))
                      then (warnings ++ ["Name should be lowercase with hyphens/underscores only"])%list
                      else warnings in
      (* Check tools *)
      let tools := parseTools (Value.get "tools" frontmatter) in
      let toolAnalysis := analyzeTools tools in
      let issues := (issues ++ ta_issues toolAnalysis)%list in
      let warnings := (warnings ++ ta_warnings toolAnalysis)%list in
      let suggestions := (suggestions ++ ta_suggestions toolAnalysis)%list in
      let suggestions :=
        if 0 <? List.length (unmapped toolAnalysis)
        then (suggestions ++ [("Consider removing or replacing: "
                               ++ Js.join ", " (unmapped toolAnalysis))%string])%list
        else suggestions in
      (* Check for Claude-specific content *)
      let warnings := (warnings ++ checkClaudeSpecificContent body)%list in
      (* Check for legacy runtime patterns *)
      let legacy := checkLegacyRuntimeContent body in
      let warnings := (warnings ++ fst legacy)%list in
      let suggestions := (suggestions ++ snd legacy)%list in
      (* Check description *)
      let warnings := if negb (Value.truthy (Value.get "description" frontmatter))
                      then (warnings ++ ["Missing 'description' field (recommended)"])%list
                      else warnings in
      mkAnalysisResult
        (onlyAskUserUnmapped (unmapped toolAnalysis))
        (computeScore issues warnings)
        issues warnings
        (mapped toolAnalysis) (unmapped toolAnalysis)
        (ta_requiredMcps toolAnalysis)
        suggestions
  end.

(** [analyzeCommand] *)
Definition analyzeCommand (command : DiscoveredFile) : AnalysisResult :=
  match fetchContent (file_src command) (file_srcType command) with
  | Threw message => fetchFailure message
  | Returned content =>
      let '(frontmatter, body, warnings) := splitFrontmatter content in
      let issues : list string := [] in
      let suggestions : list string := [] in
      (* Check allowed-tools *)
      let tools := parseTools (Value.get "allowed-tools" frontmatter) in
      let toolAnalysis := analyzeTools tools in
      let issues := (issues ++ ta_issues toolAnalysis)%list in
      let warnings := (warnings ++ ta_warnings toolAnalysis)%list in
      let suggestions := (suggestions ++ ta_suggestions toolAnalysis)%list in
      (* Check for Claude-specific content *)
      let warnings := (warnings ++ checkClaudeSpecificContent body)%list in
      let legacy := checkLegacyRuntimeContent body in
      let warnings := (warnings ++ fst legacy)%list in
      let suggestions := (suggestions ++ snd legacy)%list in
      mkAnalysisResult
        (onlyAskUserUnmapped (unmapped toolAnalysis))
        (computeScore issues warnings)
        issues warnings
        (mapped toolAnalysis) (unmapped toolAnalysis)
        (ta_requiredMcps toolAnalysis)
        suggestions
  end.

(** The callback of [skill.files.find] in [analyzeSkill]. *)
Definition isMainSkillFile (f : SkillFile) : bool :=
  String.eqb (Js.toLowerCase (relativePath f)) "skill.md"
  || String.eqb (Js.toLowerCase (relativePath f)) "skill.mdx".

Definition missingSkillFile : AnalysisResult :=
  mkAnalysisResult false 0 ["Missing SKILL.md file"] [] [] [] [] [].

(** [analyzeSkill] *)
Definition analyzeSkill (skill : DiscoveredSkill) : AnalysisResult :=
  match find isMainSkillFile (files skill) with
  | None => missingSkillFile
  | Some skillFile =>
      match fetchContent (skillfile_src skillFile)
              (skillfile_srcType skillFile) with
      | Threw message => fetchFailure message
      | Returned content =>
          let '(frontmatter, body, warnings) := splitFrontmatter content in
          let issues : list string := [] in
          let suggestions : list string := [] in
          (* Check required fields *)
          let issues := if negb (Value.truthy (Value.get "name" frontmatter))
                        then (issues ++ ["Missing required 'name' field"])%list
                        else issues in
          let warnings :=
            if negb (Value.truthy (Value.get "description" frontmatter))
            then (warnings ++ ["Missing 'description' field (recommended)"])%list
            else warnings in
          (* Check allowed-tools if present *)
          let tools := parseTools (Value.get "allowed-tools" frontmatter) in
          let toolAnalysis :=
            if 0 <? List.length tools then analyzeTools tools else noTools in
          let issues := (issues ++ ta_issues toolAnalysis)%list in
          let warnings := (warnings ++ ta_warnings toolAnalysis)%list in
          let suggestions := (suggestions ++ ta_suggestions toolAnalysis)%list in
          (* Check for Claude-specific content *)
          let warnings := (warnings ++ checkClaudeSpecificContent body)%list in
          let legacy := checkLegacyRuntimeContent body in
          let warnings := (warnings ++ fst legacy)%list in
          let suggestions := (suggestions ++ snd legacy)%list in
          mkAnalysisResult
            (onlyAskUserUnmapped (unmapped toolAnalysis))
            (computeScore issues warnings)
            issues warnings
            (mapped toolAnalysis) (unmapped toolAnalysis)
            (ta_requiredMcps toolAnalysis)
            suggestions
      end
  end.
End Analyses.

(** [mapToolsForFactory] *)
Definition mapToolForFactory (mapped : list ToolRef) (tool : string)
  : list ToolRef :=
  if Js.includes FACTORY_TOOLS tool then (mapped ++ [Named tool])%list
  else if test MCP_TOOL_PATTERN tool then (mapped ++ [Named tool])%list
  else if test BASH_RESTRICTION_PATTERN tool then (mapped ++ [Named "Execute"])%list
  else
    match lookupMapping tool with
    | Own (Some target) =>
        if negb (String.eqb target "") then (mapped ++ [Named target])%list
        else mapped
    | Inherited key => (mapped ++ [ProtoMember key])%list
    | Own None | Missing => mapped
    end.

Definition mapToolsForFactory (tools : list string) : list ToolRef :=
  Js.uniq ToolRef_eqb (fold_left mapToolForFactory tools []).

(** *** Vocabulary of the statements *)

Definition ASK : string := "AskUserQuestion".

Definition notAsk (t : string) : bool := negb (String.eqb t ASK).

(** What one token pushes to each array, read off an empty accumulator. *)
Definition toolMapped (t : string) : list ToolRef :=
  mapped (analyzeTool noTools t).
Definition toolUnmapped (t : string) : list string :=
  unmapped (analyzeTool noTools t).
Definition toolIssues (t : string) : list string :=
  ta_issues (analyzeTool noTools t).
Definition toolWarnings (t : string) : list string :=
  ta_warnings (analyzeTool noTools t).
Definition toolSuggestions (t : string) : list string :=
  ta_suggestions (analyzeTool noTools t).

(** The [requiredMcps] array after one more token. *)
Definition mcpStep (req : list string) (t : string) : list string :=
  ta_requiredMcps (analyzeTool (mkToolAnalysis [] [] req [] [] []) t).

(** A token that takes the MCP branch of the loop: not a Factory tool, and
    matched by [MCP_TOOL_PATTERN]. *)
Definition isPassthrough (t : string) : bool :=
  negb (Js.includes FACTORY_TOOLS t) && test MCP_TOOL_PATTERN t.

(** An entry a converted artifact may list: a Factory tool or an MCP tool. *)
Definition isFactoryOrMcp (r : ToolRef) : bool :=
  match r with
  | Named name => Js.includes FACTORY_TOOLS name || test MCP_TOOL_PATTERN name
  | ProtoMember _ => false
  end.

(** The items [analyzePlugin] walks through, each with its analysis. *)
Inductive Artifact : Type :=
| AgentFile (agent : DiscoveredFile)
| CommandFile (command : DiscoveredFile)
| SkillDir (skill : DiscoveredSkill).

Definition analyze (readFileSync httpGet : string -> Outcome string)
    (matter : string -> Outcome GrayMatterFile) (a : Artifact)
  : AnalysisResult :=
  match a with
  | AgentFile agent => analyzeAgent readFileSync httpGet matter agent
  | CommandFile command => analyzeCommand readFileSync httpGet matter command
  | SkillDir skill => analyzeSkill readFileSync httpGet matter skill
  end.

(** The text an analysis gets to look at: [None] when the main file of a
    skill is missing or the fetch threw. *)
Definition fetched (readFileSync httpGet : string -> Outcome string)
    (a : Artifact) : option string :=
  let fetch (src : string) (srcType : SrcType) :=
    match fetchContent readFileSync httpGet src srcType with
    | Returned content => Some content
    | Threw _ => None
    end in
  match a with
  | AgentFile f | CommandFile f => fetch (file_src f) (file_srcType f)
  | SkillDir skill =>
      match find isMainSkillFile (files skill) with
      | Some f => fetch (skillfile_src f) (skillfile_srcType f)
      | None => None
      end
  end.

(** The metadata field that holds the token list of an artifact. *)
Definition toolsKey (a : Artifact) : string :=
  match a with
  | AgentFile _ => "tools"
  | CommandFile _ | SkillDir _ => "allowed-tools"
  end.

(** The token list an analysis resolves: none when nothing was fetched. *)
Definition declaredTools (readFileSync httpGet : string -> Outcome string)
    (matter : string -> Outcome GrayMatterFile) (a : Artifact) : list string :=
  match fetched readFileSync httpGet a with
  | Some content =>
      parseTools (Value.get (toolsKey a)
                    (fst (fst (splitFrontmatter matter content))))
  | None => []
  end.

(** Number of times the soft-unmapped token is listed. *)
Definition occurrences (tools : list string) : nat :=
  count_occ string_dec tools ASK.

Definition notPassthrough (t : string) : bool := negb (isPassthrough t).

(** Two items of the same kind (and, for agents, of the same file name:
    [analyzeAgent] falls back on it for the name check). *)
Definition sameItem (a1 a0 : Artifact) : Prop :=
  match a1, a0 with
  | AgentFile f1, AgentFile f0 => file_name f1 = file_name f0
  | CommandFile _, CommandFile _ => True
  | SkillDir _, SkillDir _ => True
  | _, _ => False
  end.

(** Suggestions an analysis adds on its own when [unmapped] is not empty:
    [analyzeAgent] pushes [Consider removing or replacing: ...]. *)
Definition extraSuggestions (a : Artifact) : nat :=
  match a with AgentFile _ => 1 | _ => 0 end.

(** The scoring rule as the specification words it: start at 100, 20 off per
    issue, 5 off per warning, clamped to 0..100. *)
Definition scoreRule (i w : nat) : Z :=
  Z.max 0 (Z.min 100 (100 - 20 * Z.of_nat i - 5 * Z.of_nat w)).

End Analyzer.

(* ================================================================= *)
(** ** src/normalizer.ts *)

Module Normalizer.
Import Re.

Inductive FileKind : Type := command | droid | skill | generic.

Definition kindName (k : FileKind) : string :=
  match k with
  | command => "command"
  | droid => "droid"
  | skill => "skill"
  | generic => "generic"
  end.

(** [NormalizeOptions]; an optional field that is left out is [None]. *)
Record NormalizeOptions : Type := mkOptions {
  availableDroids : option (list string);
  availableSkills : option (list string);
  fileKind : FileKind;
  addHeaderNote : option bool
}.

Record NormalizeResult : Type := mkNormalizeResult {
  text : string;
  changed : bool;
  notes : list string;
  referencedDroids : list string;
  unresolvedDroids : list string;
  referencedSkills : list string;
  unresolvedSkills : list string
}.

Definition quoteChar (c : ascii) : bool :=
  (Js.code c =? 39) || (Js.code c =? 34).

(** [stripQuotes]: deletes, with the [g] flag, a run of single or double
    quotes anchored at [^], or else a run of them anchored at [$]. *)
Definition stripQuotes (s : string) : string :=
  replaceAll
    (mkRegExp (Alt (Seq Bol (Plus (Chr quoteChar)))
                   (Seq (Plus (Chr quoteChar)) Eol)) false false)
    "" s.

(** [isLikelyDroidName]: [/^[a-z0-9_-]+$/] *)
Definition isLikelyDroidName (name : string) : bool :=
  test
    (mkRegExp
       (seqs [Bol;
              Plus (Chr (fun c => Js.isLower c || Js.isDigit c
                                  || (Js.code c =? 95) || (Js.code c =? 45)));
              Eol]) false false)
    name.

(** [headerNote] *)
Definition headerNote (kind : FileKind) (notes : list string) : string :=
  let details := if 0 <? List.length notes
                 then ": " ++ Js.join "; " notes else "" in
  "<!-- Factory Import Normalizer (" ++ kindName kind ++ ")" ++ details
    ++ " -->" ++ Js.chr Js.LF ++ Js.chr Js.LF.

(** [alreadyHasHeaderNote]: [/^<!--\s*Factory Import Normalizer\b/m] *)
Definition alreadyHasHeaderNote (text : string) : bool :=
  test
    (mkRegExp (seqs [Bol; str "<!--"; Star space;
                     str "Factory Import Normalizer"; WordB]) false true)
    text.

Definition backtick : regex := lit "`".

(** [/\bUse\s+`?AskUserQuestion`?\b/gi] and the same with [Invoke]. *)
Definition verbAskUserQuestion (verb : string) : RegExp :=
  mkRegExp
    (seqs [WordB; str verb; Plus space; Opt backtick;
           str "AskUserQuestion"; Opt backtick; WordB]) true false.

(** The class of TAB and SPACE. *)
Definition tabOrSpace (c : ascii) : bool :=
  (Js.code c =? 9) || (Js.code c =? 32).

(** The pattern of the [agent] and [skill] rewrites, flags [gim]: [^],
    group 1 a run of TAB and SPACE, the keyword, [\s+], group 2 [[^\s]+],
    group 3 the rest of the line, [$]. *)
Definition invocation (keyword : string) : RegExp :=
  mkRegExp
    (seqs [Bol; Group 1 (Star (Chr tabOrSpace)); str keyword; Plus space;
           Group 2 (Plus nonSpace); Group 3 (Star dot); Eol]) true true.

Definition has (available : option (list string)) (name : string) : bool :=
  match available with
  | Some names => Js.includes names name
  | None => false
  end.

(** The callback of the [agent] replacement; the state is the pair of arrays
    [referencedDroids], [unresolvedDroids] it pushes to. *)
Definition agentCallback (availableDroids : option (list string))
    (_m : string) (groups : Captures) (acc : list string * list string)
  : string * (list string * list string) :=
  let indent := captured 1 groups in
  let rawName := captured 2 groups in
  let rest := captured 3 groups in
  let name := stripQuotes (Js.trim rawName) in
  let referenced := (fst acc ++ [name])%list in
  if has availableDroids name then
    (indent ++ "Use Task tool with subagent_type `" ++ name ++ "`" ++ rest,
     (referenced, snd acc))
  else if isLikelyDroidName name then
    (indent ++ "Use Task tool with subagent_type `" ++ name
       ++ "` (if available)" ++ rest,
     (referenced, (snd acc ++ [name])%list))
  else
    (indent ++ "Use Task tool with subagent_type `" ++ name
       ++ "` (legacy name; may not exist)" ++ rest,
     (referenced, (snd acc ++ [name])%list)).

(** The callback of the [skill] replacement; the state is the pair of arrays
    [referencedSkills], [unresolvedSkills]. *)
Definition skillCallback (availableSkills : option (list string))
    (_m : string) (groups : Captures) (acc : list string * list string)
  : string * (list string * list string) :=
  let indent := captured 1 groups in
  let rawName := captured 2 groups in
  let rest := captured 3 groups in
  let name := stripQuotes (Js.trim rawName) in
  let referenced := (fst acc ++ [name])%list in
  if has availableSkills name then
    (indent ++ "Use Skill tool: `" ++ name ++ "`" ++ rest,
     (referenced, snd acc))
  else
    (indent ++ "Use Skill tool: `" ++ name ++ "` (if available)" ++ rest,
     (referenced, (snd acc ++ [name])%list)).

(** The block guarded by [if (/AskUserQuestion/.test(text))]: the text and
    the notes array after it. *)
Definition replaceAskUserQuestion (text : string) : string * list string :=
  if test (mkRegExp (str "AskUserQuestion") false false) text then
    let text := replaceAll (verbAskUserQuestion "Use") "Ask the user" text in
    let text := replaceAll (verbAskUserQuestion "Invoke") "Ask the user" text in
    let text := replaceAll
                  (mkRegExp (seqs [backtick; str "AskUserQuestion"; backtick])
                     false false)
                  "ask the user" text in
    let text := replaceAll
                  (mkRegExp (seqs [WordB; str "AskUserQuestion"; WordB])
                     false false)
                  "ask the user" text in
    (text, ["removed AskUserQuestion"])
  else (text, []).

(** [normalizeText] *)
Definition normalizeText (input : string) (options : NormalizeOptions)
  : NormalizeResult :=
  let original := input in
  let '(text, notes) := replaceAskUserQuestion input in
  let '(text, (referencedDroids, unresolvedDroids)) :=
    replaceAllWith (invocation "agent")
      (agentCallback (availableDroids options)) text ([], []) in
  let '(text, (referencedSkills, unresolvedSkills)) :=
    replaceAllWith (invocation "skill")
      (skillCallback (availableSkills options)) text ([], []) in
  let changed := negb (String.eqb text original) in
  let notes :=
    if changed then
      let notes :=
        if test (mkRegExp (str "Use Task tool with subagent_type") false false)
             text
        then (notes ++ ["converted agent invocations"])%list else notes in
      if test (mkRegExp (str "Use Skill tool:") false false) text
      then (notes ++ ["converted skill invocations"])%list else notes
    else notes in
  let text :=
    if changed
       && negb (match addHeaderNote options with
                | Some false => true
                | _ => false
                end)
       && negb (alreadyHasHeaderNote text)
    then headerNote (fileKind options) (Js.uniqStrings notes) ++ text
    else text in
  mkNormalizeResult text changed (Js.uniqStrings notes)
    (Js.uniqStrings referencedDroids) (Js.uniqStrings unresolvedDroids)
    (Js.uniqStrings referencedSkills) (Js.uniqStrings unresolvedSkills).

(** *** Vocabulary of the statements *)



(** [options.addHeaderNote !== false] *)
Definition wantsHeader (addHeaderNote : option bool) : bool :=
  match addHeaderNote with
  | Some false => false
  | _ => true
  end.

End Normalizer.

(* ================================================================= *)
(** ** src/converters/command.ts *)

Module Converters.
Import Re.

Definition ALLOWED_FRONTMATTER_KEYS : list string :=
  [ "description"; "argument-hint"; "allowed-tools" ].

(** [sanitizeValue]; [None] is [undefined]. *)
Definition sanitizeValue (val : JsValue) : option string :=
  match val with
  | JStr s =>
      (* a backslash followed by n, r or t, flags gi *)
      let s := replaceAll
                 (mkRegExp (Seq (lit Js.backslash) (oneOf "nrt")) true false)
                 " " s in
      (* whitespace run, LF, whitespace run, flag g *)
      let s := replaceAll
                 (mkRegExp (seqs [Star space; lit Js.LF; Star space])
                    false false)
                 " " s in
      (* [\s+], flag g *)
      let s := Js.trim (replaceAll (mkRegExp (Plus space) false false) " " s) in
      if String.eqb s "" then None else Some s
  | _ => None
  end.

(** The characters that may not open a plain YAML scalar. *)
Definition reservedLeading (c : ascii) : bool :=
  existsb (Ascii.eqb c) (list_ascii_of_string "-?:,[]{}#&*!|>'%@`")
  || Ascii.eqb c Js.dquote.

(** [isPlainYamlSafe] *)
Definition isPlainYamlSafe (s : string) : bool :=
  if String.length s =? 0 then true
  else if test (mkRegExp (Chr Js.isLineTerminator) false false) s then false
  else if test (mkRegExp (Seq Bol space) false false) s then false
  else if test (mkRegExp (Seq space Eol) false false) s then false
  else if test (mkRegExp (Seq Bol (Chr reservedLeading)) false false) s
  then false
  else if test (mkRegExp (lit "#") false false) s then false
  else true.

(** [escYaml]: backslashes are doubled, then every double quote gets a
    backslash in front. *)
Definition escYaml (s : string) : string :=
  replaceAll (mkRegExp (lit Js.dquote) false false)
    (Js.chr Js.backslash ++ Js.chr Js.dquote)
    (replaceAll (mkRegExp (lit Js.backslash) false false)
       (Js.chr Js.backslash ++ Js.chr Js.backslash) s).

(** The two lines [key: value] and [key: "escaped"] of a scalar field. *)
Definition scalarLine (key : string) (val : JsValue) : list string :=
  if Value.truthy val then
    match sanitizeValue val with
    | Some v =>
        if isPlainYamlSafe v then [key ++ ": " ++ v]
        else [key ++ ": " ++ Js.chr Js.dquote ++ escYaml v ++ Js.chr Js.dquote]
    | None => []
    end
  else [].

(** The loop that copies the allowed keys of [src] into [filtered]. *)
Definition filterKeys (src : JsValue) : JsValue :=
  JObj (flat_map (fun key =>
                    if Js.includes ALLOWED_FRONTMATTER_KEYS key
                    then [(key, Value.get key src)] else [])
          (Value.keys src)).

Definition listItems (items : list string) : list string :=
  map (fun t => "  - " ++ t) items.

(** [tools.split(",").map(t => t.trim()).filter(Boolean)] *)
Definition splitTools (tools : string) : list string :=
  filter (fun t => negb (String.eqb t "")) (map Js.trim (Js.split "," tools)).

Section Convert.
Variable matter : string -> Outcome GrayMatterFile.
(** The text an engine prints for a member of [Object.prototype] in a
    template literal (implementation-defined for built-in functions). *)
Variable nativeSource : string -> string.

Definition showTool (t : Analyzer.ToolRef) : string :=
  match t with
  | Analyzer.Named name => name
  | Analyzer.ProtoMember key => nativeSource key
  end.

(** [convertCommand] of the first revision of the file: the tool names are
    copied as they are. *)
Definition convertCommand_plain (mdText : string) : string :=
  match matter mdText with
  | Threw _ => mdText                      (* If parsing fails, return original *)
  | Returned parsed =>
      let src := if Value.truthy (gm_data parsed)
                 then gm_data parsed else JObj [] in
      let body := gm_content parsed in
      let filtered := filterKeys src in
      if List.length (Value.keys filtered) =? 0 then
        if negb (String.eqb (Js.trim body) "") then body else mdText
      else
        let tools := Value.get "allowed-tools" filtered in
        let toolLines :=
          if Value.truthy tools then
            match tools with
            | JArr items =>
                "allowed-tools:" :: listItems (map Value.toStr items)
            | JStr s =>
                match splitTools s with
                | [] => []
                | [t] => ["allowed-tools: " ++ t]
                | toolList => "allowed-tools:" :: listItems toolList
                end
            | _ => []
            end
          else [] in
        let lines :=
          (["---"]
           ++ scalarLine "description" (Value.get "description" filtered)
           ++ scalarLine "argument-hint" (Value.get "argument-hint" filtered)
           ++ toolLines
           ++ ["---"])%list in
        Js.join (Js.chr Js.LF) lines ++ Js.chr Js.LF ++ Js.chr Js.LF ++ body
  end.

(** [convertCommand]: the body is normalized and the tool names are mapped
    by [mapToolsForFactory]. *)
Definition convertCommand (mdText : string) : string :=
  match matter mdText with
  | Threw _ => mdText                      (* If parsing fails, return original *)
  | Returned parsed =>
      let src := if Value.truthy (gm_data parsed)
                 then gm_data parsed else JObj [] in
      let body := gm_content parsed in
      let filtered := filterKeys src in
      let normalizedBody :=
        Normalizer.text
          (Normalizer.normalizeText body
             (Normalizer.mkOptions None None Normalizer.command (Some false))) in
      if List.length (Value.keys filtered) =? 0 then
        if negb (String.eqb (Js.trim normalizedBody) "")
        then normalizedBody else mdText
      else
        let rawTools := Value.get "allowed-tools" filtered in
        let toolLines :=
          if Value.truthy rawTools then
            let toolList :=
              match rawTools with
              | JArr items => map Value.toStr items
              | JStr s => splitTools s
              | _ => []
              end in
            match Analyzer.mapToolsForFactory toolList with
            | [] => []
            | mappedTools => "allowed-tools:" :: listItems (map showTool mappedTools)
            end
          else [] in
        let lines :=
          (["---"]
           ++ scalarLine "description" (Value.get "description" filtered)
           ++ scalarLine "argument-hint" (Value.get "argument-hint" filtered)
           ++ toolLines
           ++ ["---"])%list in
        Js.join (Js.chr Js.LF) lines ++ Js.chr Js.LF ++ Js.chr Js.LF
          ++ normalizedBody
  end.
End Convert.

End Converters.

(* ================================================================= *)
(** ** Sample artifacts *)

Module Examples.

(** Two agent files that differ in the token list alone. *)
Definition withAsk : GrayMatterFile :=
  mkGrayMatterFile
    (JObj [("name", JStr "reviewer"); ("description", JStr "Reviews a change");
           ("tools", JArr [JStr "Read"; JStr "AskUserQuestion"])])
    "Review the change.".

Definition withoutAsk : GrayMatterFile :=
  mkGrayMatterFile
    (JObj [("name", JStr "reviewer"); ("description", JStr "Reviews a change");
           ("tools", JArr [JStr "Read"])])
    "Review the change.".

(** An environment in which the text of a local file is its path, the
    network is down, and the parser knows the two files above. *)
Definition disk (src : string) : Outcome string := Returned src.
Definition offline (_ : string) : Outcome string := Threw "fetch failed".
Definition parser (content : string) : Outcome GrayMatterFile :=
  if String.eqb content "agents/with.md" then Returned withAsk
  else Returned withoutAsk.

(** A command whose token list names a tool of an MCP server. *)
Definition issueCommand : GrayMatterFile :=
  mkGrayMatterFile
    (JObj [("description", JStr "File an issue");
           ("allowed-tools", JStr "Read, mcp__github__create_issue")])
    "File an issue for the failing test.".

Definition commandParser (_ : string) : Outcome GrayMatterFile :=
  Returned issueCommand.

Definition commandFile : DiscoveredFile :=
  mkDiscoveredFile "issue" local "commands/issue.md".

Definition agentWith : DiscoveredFile :=
  mkDiscoveredFile "reviewer" local "agents/with.md".
Definition agentWithout : DiscoveredFile :=
  mkDiscoveredFile "reviewer" local "agents/without.md".

(** The body of a command with the line of scenario B in it. *)
Definition textBefore : string := "# Review

Run the checks first.
".

Definition textAfter : string := "
Then summarize the findings.
".

Definition reviewBody : string :=
  textBefore ++ "agent reviewer --strict" ++ textAfter.

Definition reviewCommand : GrayMatterFile :=
  mkGrayMatterFile (JObj [("description", JStr "Review a change")]) reviewBody.


(** A command whose metadata block is not YAML (the flow sequence is left
    open) and whose body mentions [AskUserQuestion]. *)
Definition brokenCommand : string := "---
description: [unclosed
---
Use AskUserQuestion to choose which tests to run.
".

End Examples.

(* ================================================================= *)
(** ** src/converters/skill.ts *)

Module SkillConverter.
Import Re Converters.

Definition ALLOWED_FRONTMATTER_KEYS : list string :=
  [ "name"; "description"; "allowed-tools" ].

(** The line [key: value] of a scalar that is already sanitized: plain when
    [isPlainYamlSafe] allows it, escaped between double quotes otherwise. *)
Definition plainOrQuoted (key value : string) : string :=
  if isPlainYamlSafe value then key ++ ": " ++ value
  else key ++ ": " ++ Js.chr Js.dquote ++ escYaml value ++ Js.chr Js.dquote.

Section Convert.
Variable matter : string -> Outcome GrayMatterFile.
Variable nativeSource : string -> string.

(** [convertSkillFile]; a [fallbackName] that is left out is [None]. *)
Definition convertSkillFile (mdText : string) (fallbackName : option string)
  : string :=
  match matter mdText with
  | Threw _ => mdText                      (* If parsing fails, return original *)
  | Returned parsed =>
      let src := if Value.truthy (gm_data parsed)
                 then gm_data parsed else JObj [] in
      let body := gm_content parsed in
      (* Name *)
      let name := match sanitizeValue (Value.get "name" src) with
                  | Some s => Some s
                  | None => fallbackName
                  end in
      let nameLines :=
        match name with
        | Some n => if negb (String.eqb n "") then [plainOrQuoted "name" n]
                    else []
        | None => []
        end in
      (* Description *)
      let description := Value.get "description" src in
      let descriptionLines :=
        if Value.truthy description then
          let desc := match description with
                      | JStr s => s
                      | _ => Value.toStr description
                      end in
          if existsb (Ascii.eqb Js.LF) (list_ascii_of_string desc)
             || (100 <? String.length desc)
          then "description: |"
               :: map (fun line => "  " ++ line) (Js.split Js.LF desc)
          else
            match sanitizeValue (JStr desc) with
            | Some sanitized => [plainOrQuoted "description" sanitized]
            | None => []
            end
        else [] in
      (* Allowed tools *)
      let rawTools := Value.get "allowed-tools" src in
      let toolLines :=
        if Value.truthy rawTools then
          let toolList :=
            match rawTools with
            | JArr items => map Value.toStr items
            | JStr s => splitTools s
            | _ => []
            end in
          match Analyzer.mapToolsForFactory toolList with
          | [] => []
          | mappedTools =>
              "allowed-tools:"
              :: listItems (map (showTool nativeSource) mappedTools)
          end
        else [] in
      let lines :=
        (["---"] ++ nameLines ++ descriptionLines ++ toolLines ++ ["---"])%list in
      Js.join (Js.chr Js.LF) lines ++ Js.chr Js.LF ++ Js.chr Js.LF ++ body
  end.
End Convert.

(** [isSkillMainFile] *)
Definition isSkillMainFile (filename : string) : bool :=
  let lower := Js.toLowerCase filename in
  String.eqb lower "skill.md" || String.eqb lower "skill.mdx".

End SkillConverter.

(* ================================================================= *)
(** ** src/converters/agent.ts: the tool list *)

Module AgentConverter.

(** [toArray]; [None] is [null]. *)
Definition toArray (val : JsValue) : option (list string) :=
  if negb (Value.truthy val)
     && negb (match val with JNum z => Z.eqb z 0 | _ => false end)
  then None
  else
    match val with
    | JArr items => Some (Js.uniqStrings (map Value.toStr items))
    | _ =>
        let parts :=
          filter (fun s => negb (String.eqb s ""))
            (map Js.trim (Js.split "," (Value.toStr val))) in
        if 0 <? List.length parts then Some (Js.uniqStrings parts) else None
    end.

End AgentConverter.

(* ================================================================= *)
(** ** Effects on the file system *)

(** A computation runs in a world (the state of the file system), may
    change it, and returns or throws; what it changed before it threw stays
    changed. *)
Module Effect.

Definition M (World A : Type) : Type := World -> World * Outcome A.

Definition ret {World A : Type} (a : A) : M World A :=
  fun w => (w, Returned a).

Definition bind {World A B : Type} (m : M World A) (f : A -> M World B)
  : M World B :=
  fun w =>
    match m w with
    | (w1, Returned a) => f a w1
    | (w1, Threw message) => (w1, Threw message)
    end.

(** A call that reads the world and leaves it as it is. *)
Definition ask {World A : Type} (read : World -> Outcome A) : M World A :=
  fun w => (w, read w).

End Effect.

Notation "x <- m ;; f" := (Effect.bind m (fun x => f))
  (at level 61, m at next level, right associativity).

(* ================================================================= *)
(** ** src/installer.ts *)

Module Installer.

Record InstallItem : Type := mkInstallItem {
  item_name : string;
  item_src : string;
  item_srcType : SrcType;
  item_dest : string;
  item_exists : bool
}.

Record InstallFile : Type := mkInstallFile {
  ifile_src : string;
  ifile_dest : string;
  ifile_srcType : SrcType
}.

Record InstallSkillItem : Type := mkInstallSkillItem {
  sitem_name : string;
  sitem_srcDir : string;
  sitem_srcType : SrcType;
  sitem_destDir : string;
  sitem_files : list InstallFile;
  sitem_exists : bool
}.

Record InstallPlan : Type := mkInstallPlan {
  droids : list InstallItem;
  commands : list InstallItem;
  skills : list InstallSkillItem
}.

Record InstallResult : Type := mkInstallResult {
  created : nat;
  overwritten : nat;
  skipped : nat;
  errors : list string
}.

Record InstallOptions : Type := mkInstallOptions {
  force : bool;
  dryRun : bool;
  verbose : bool
}.

Section Install.
(** The environment: the file system calls of [fs], the network, the
    functions of [path], gray-matter, and the agent converter (a function of
    the text and the fallback name). [onProgress] is taken to return; the
    messages it is called with are collected. *)
Variable World : Type.
Variable existsSync : string -> World -> bool.
Variable mkdirSync : string -> Effect.M World unit.
Variable writeFileSync : string -> string -> Effect.M World unit.
Variable readFileSync : string -> World -> Outcome string.
Variable httpGet : string -> Outcome string.
Variable dirname : string -> string.
Variable basename : string -> string.
Variable matter : string -> Outcome GrayMatterFile.
Variable nativeSource : string -> string.
Variable convertAgentToDroid : string -> string -> string.

(** The run so far: the world, the counters, the messages logged. *)
Record Run : Type := mkRun {
  world : World;
  result : InstallResult;
  progress : list string
}.

(** [ensureDir] *)
Definition ensureDir (dir : string) : Effect.M World unit :=
  fun w => if negb (existsSync dir w) then mkdirSync dir w
           else (w, Returned tt).

(** [fetchContent] *)
Definition fetchContent (src : string) (srcType : SrcType)
  : Effect.M World string :=
  match srcType with
  | local => Effect.ask (readFileSync src)
  | remote => Effect.ask (fun _ => httpGet src)
  end.

Definition log (message : string) (st : Run) : Run :=
  mkRun (world st) (result st) (progress st ++ [message])%list.

Definition countSkipped (st : Run) : Run :=
  let r := result st in
  mkRun (world st)
    (mkInstallResult (created r) (overwritten r) (S (skipped r)) (errors r))
    (progress st).

(** [if (item.exists) result.overwritten++; else result.created++;] *)
Definition countWritten (existed : bool) (st : Run) : Run :=
  let r := result st in
  mkRun (world st)
    (if existed
     then mkInstallResult (created r) (S (overwritten r)) (skipped r) (errors r)
     else mkInstallResult (S (created r)) (overwritten r) (skipped r) (errors r))
    (progress st).

(** The [catch] block: [result.errors.push(...); result.skipped++;]. *)
Definition countFailed (error : string) (st : Run) : Run :=
  let r := result st in
  mkRun (world st)
    (mkInstallResult (created r) (overwritten r) (S (skipped r))
       (errors r ++ [error])%list)
    (progress st).

Definition inWorld (w : World) (st : Run) : Run :=
  mkRun w (result st) (progress st).

(** Body of the loops over [plan.droids] and [plan.commands]: [label] is
    [droid] or [command], [convert] the conversion of the fetched text. *)
Definition installItem (label : string)
    (convert : InstallItem -> string -> string)
    (options : InstallOptions) (st : Run) (item : InstallItem) : Run :=
  if item_exists item && negb (force options) then
    log ("skip    " ++ item_dest item) (countSkipped st)
  else if dryRun options then
    countWritten (item_exists item)
      (log ("[dry-run] would write " ++ item_dest item) st)
  else
    match (content <- fetchContent (item_src item) (item_srcType item) ;;
           let converted := convert item content in
           _ <- ensureDir (dirname (item_dest item)) ;;
           writeFileSync (item_dest item) converted) (world st) with
    | (w, Returned _) =>
        log ((if item_exists item then "overwrote " else "created   ")
             ++ item_dest item)
          (countWritten (item_exists item) (inWorld w st))
    | (w, Threw message) =>
        countFailed ("Failed to install " ++ label ++ " " ++ item_name item
                     ++ ": " ++ message)
          (inWorld w st)
    end.

(** The loop over [skill.files]. *)
Fixpoint installFiles (skillName : string) (files : list InstallFile)
  : Effect.M World unit :=
  match files with
  | [] => Effect.ret tt
  | file :: more =>
      content <- fetchContent (ifile_src file) (ifile_srcType file) ;;
      let filename := basename (ifile_dest file) in
      let finalContent :=
        if SkillConverter.isSkillMainFile filename
        then SkillConverter.convertSkillFile matter nativeSource content
               (Some skillName)
        else content in
      _ <- ensureDir (dirname (ifile_dest file)) ;;
      _ <- writeFileSync (ifile_dest file) finalContent ;;
      installFiles skillName more
  end.

(** Body of the loop over [plan.skills]. *)
Definition installSkill (options : InstallOptions) (st : Run)
    (skill : InstallSkillItem) : Run :=
  if sitem_exists skill && negb (force options) then
    log ("skip    " ++ sitem_destDir skill) (countSkipped st)
  else if dryRun options then
    countWritten (sitem_exists skill)
      (log ("[dry-run] would write " ++ sitem_destDir skill ++ "/ ("
            ++ Value.decimal (Z.of_nat (List.length (sitem_files skill)))
            ++ " files)") st)
  else
    match (_ <- ensureDir (sitem_destDir skill) ;;
           installFiles (sitem_name skill) (sitem_files skill)) (world st) with
    | (w, Returned _) =>
        log ((if sitem_exists skill then "overwrote " else "created   ")
             ++ sitem_destDir skill ++ "/")
          (countWritten (sitem_exists skill) (inWorld w st))
    | (w, Threw message) =>
        countFailed ("Failed to install skill " ++ sitem_name skill
                     ++ ": " ++ message)
          (inWorld w st)
    end.

(** [executeInstallPlan] *)
Definition executeInstallPlan (plan : InstallPlan) (options : InstallOptions)
    (w : World) : Run :=
  let st := mkRun w (mkInstallResult 0 0 0 []) [] in
  let st :=
    fold_left
      (installItem "droid"
         (fun item content => convertAgentToDroid content (item_name item))
         options)
      (droids plan) st in
  let st :=
    fold_left
      (installItem "command"
         (fun _ content => Converters.convertCommand matter nativeSource content)
         options)
      (commands plan) st in
  fold_left (installSkill options) (skills plan) st.
End Install.

(** *** Terms of the statements *)

(** Number of items of the plan whose destination existed when the plan
    was made, and number of the others. *)
Definition existing (plan : InstallPlan) : nat :=
  List.length (filter item_exists (droids plan))
  + List.length (filter item_exists (commands plan))
  + List.length (filter sitem_exists (skills plan)).

Definition fresh (plan : InstallPlan) : nat :=
  List.length (filter (fun i => negb (item_exists i)) (droids plan))
  + List.length (filter (fun i => negb (item_exists i)) (commands plan))
  + List.length (filter (fun s => negb (sitem_exists s)) (skills plan)).

Definition items (plan : InstallPlan) : nat :=
  List.length (droids plan) + List.length (commands plan)
  + List.length (skills plan).

(** The sum of the three counters. *)
Definition tally (r : InstallResult) : nat :=
  created r + overwritten r + skipped r.

(** Two runs that agree on the world, the errors and the counters of
    written items, the first having skipped [k] items more. *)
Definition agree (World : Type) (k : nat) (st st' : Run World) : Prop :=
  world st = world st'
  /\ errors (result st) = errors (result st')
  /\ created (result st) = created (result st')
  /\ overwritten (result st) = overwritten (result st')
  /\ skipped (result st) = skipped (result st') + k.

(** The plan without the items whose destination exists. *)
Definition freshOnly (plan : InstallPlan) : InstallPlan :=
  mkInstallPlan
    (filter (fun i => negb (item_exists i)) (droids plan))
    (filter (fun i => negb (item_exists i)) (commands plan))
    (filter (fun s => negb (sitem_exists s)) (skills plan)).

End Installer.

(* ================================================================= *)
(** ** src/normalize-installed.ts *)

Module NormalizeInstalled.
Import Normalizer.

Record NormalizeInstalledOptions : Type := mkNormalizeInstalledOptions {
  dryRun : bool;
  verbose : bool
}.

Record NormalizeInstalledResult : Type := mkNormalizeInstalledResult {
  scanned : nat;
  changed : nat;
  errors : list string
}.

Section Normalize.
(** The environment: the file system, [path.join], the console, and the
    listing of the Markdown files below a directory ([listMarkdownFiles],
    which walks the directory with [readdirSync] and [statSync] and leaves
    the world as it is). *)
Variable World : Type.
Variable existsSync : string -> World -> bool.
Variable readFileSync : string -> World -> Outcome string.
Variable writeFileSync : string -> string -> Effect.M World unit.
Variable join : string -> string -> string.
Variable listMarkdownFiles : string -> bool -> World -> Outcome (list string).

(** The run so far: the world, the counters, the lines printed. *)
Record Run : Type := mkRun {
  world : World;
  result : NormalizeInstalledResult;
  console : list string
}.

Definition print (line : string) (st : Run) : Run :=
  mkRun (world st) (result st) (console st ++ [line])%list.

(** Body of the loop [for (const file of all)]. *)
Definition normalizeFile (options : NormalizeInstalledOptions) (st : Run)
    (file : FileKind * string) : Run :=
  let '(kind, path) := file in
  let r := result st in
  (* scanned++ *)
  let r := mkNormalizeInstalledResult (S (scanned r)) (changed r) (errors r) in
  match readFileSync path (world st) with
  | Threw message =>
      mkRun (world st)
        (mkNormalizeInstalledResult (scanned r) (changed r)
           (errors r ++ [(path ++ ": " ++ message)%string])%list)
        (console st)
  | Returned content =>
      let normalized :=
        normalizeText content (mkOptions None None kind (Some false)) in
      if negb (Normalizer.changed normalized) then
        let st := mkRun (world st) r (console st) in
        if verbose options then print ("ok      " ++ path) st else st
      else
        (* changed++ *)
        let r := mkNormalizeInstalledResult (scanned r) (S (changed r))
                   (errors r) in
        let st := mkRun (world st) r (console st) in
        let st :=
          if verbose options
          then print ((if dryRun options then "[dry]" else "fix")
                      ++ "     " ++ path) st
          else st in
        if negb (dryRun options) then
          match writeFileSync path (text normalized) (world st) with
          | (w, Returned _) => mkRun w (result st) (console st)
          | (w, Threw message) =>
              mkRun w
                (mkNormalizeInstalledResult (scanned r) (changed r)
                   (errors r ++ [(path ++ ": " ++ message)%string])%list)
                (console st)
          end
        else st
  end.

(** The files of one directory, when it exists. *)
Definition markdownFilesOf (dir : string) (w : World) : Outcome (list string) :=
  if existsSync dir w then listMarkdownFiles dir true w else Returned [].

(** [normalizeInstalled]; it throws when a listing throws. *)
Definition normalizeInstalled (baseDir : string)
    (options : NormalizeInstalledOptions) (w : World) : Outcome Run :=
  let commandsDir := join baseDir "commands" in
  let droidsDir := join baseDir "droids" in
  let skillsDir := join baseDir "skills" in
  match markdownFilesOf commandsDir w with
  | Threw message => Threw message
  | Returned commandFiles =>
      match markdownFilesOf droidsDir w with
      | Threw message => Threw message
      | Returned droidFiles =>
          match markdownFilesOf skillsDir w with
          | Threw message => Threw message
          | Returned skillMdFiles =>
              let all :=
                (map (fun path => (command, path)) commandFiles
                 ++ map (fun path => (droid, path)) droidFiles
                 ++ map (fun path => (skill, path)) skillMdFiles)%list in
              Returned
                (fold_left (normalizeFile options) all
                   (mkRun w (mkNormalizeInstalledResult 0 0 []) []))
          end
      end
  end.
End Normalize.

End NormalizeInstalled.

(* ================================================================= *)
(** ** A sample installation *)

Module SampleWorld.

(** A world that records the files written; every directory exists and
    holds one Markdown file, [a.md]; a file is read with the text [text]. *)
Definition World : Type := list (string * string).

Definition existsSync (_ : string) (_ : World) : bool := true.

Definition readFileSync (text : string) (_ : string) (_ : World)
  : Outcome string := Returned text.

Definition writeFileSync (path text : string) (w : World)
  : World * Outcome unit := ((path, text) :: w, Returned tt).

Definition join (dir name : string) : string := dir ++ "/" ++ name.

Definition listMarkdownFiles (dir : string) (_ : bool) (_ : World)
  : Outcome (list string) := Returned [dir ++ "/a.md"].

(** A command that lists a tool without a Factory equivalent. *)
Definition notebookCommand : GrayMatterFile :=
  mkGrayMatterFile (JObj [("allowed-tools", JStr "Read, NotebookEdit")])
    "Edit the notebook.".

(** A skill file with a description and no name. *)
Definition pdfSkill : GrayMatterFile :=
  mkGrayMatterFile (JObj [("description", JStr "Reads PDF files")])
    "Use pdftotext.".

End SampleWorld.

(* ================================================================= *)
(** ** Terms of the statements on token lists *)

Module Tokens.
Import Re Analyzer.

(** A token that falls through every mapping branch of the loop of
    [analyzeTools]: no Factory tool, not matched by [MCP_TOOL_PATTERN] or
    [BASH_RESTRICTION_PATTERN], and [TOOL_MAPPING[tool]] falsy. *)
Definition hasNoTarget (t : string) : bool :=
  negb (Js.includes FACTORY_TOOLS t)
  && negb (test MCP_TOOL_PATTERN t)
  && negb (test BASH_RESTRICTION_PATTERN t)
  && match lookupMapping t with
     | Own (Some target) => String.eqb target ""
     | Own None | Missing => true
     | Inherited _ => false
     end.

(** A token as it is written in a comma-separated list: not empty, no
    comma, no white space at either end. *)
Definition plainToken (t : string) : bool :=
  negb (String.eqb t "")
  && String.eqb (Js.trim t) t
  && negb (existsb (Ascii.eqb ",") (list_ascii_of_string t)).

(** A run of white space. *)
Definition blank (s : string) : bool :=
  forallb Js.isSpace (list_ascii_of_string s).

(** The two texts of a tool issue. *)
Definition noEquivalent (t : string) : string :=
  "Tool '" ++ t ++ "' has no Factory equivalent".
Definition unknownTool (t : string) : string :=
  "Unknown tool '" ++ t ++ "' - may be Claude-specific".

(** The server a token asks for: the first group of [MCP_TOOL_PATTERN], for
    a token that takes the MCP branch of the loop. *)
Definition serverOf (t : string) : option string :=
  if Js.includes FACTORY_TOOLS t then None
  else match exec MCP_TOOL_PATTERN t with
       | Some mcpMatch => Some (captured 1 mcpMatch)
       | None => None
       end.

Definition chars : string -> list ascii := list_ascii_of_string.

(** A text in which the character [sep] does not occur. *)
Definition free (sep : ascii) (s : string) : bool :=
  forallb (fun c => negb (Ascii.eqb c sep)) (chars s).

(** A text without a line terminator. *)
Definition oneLine (s : string) : bool :=
  forallb (fun c => negb (Js.isLineTerminator c)) (list_ascii_of_string s).

(** The set of [.]. *)
Definition anyChar (c : ascii) : bool := negb (Js.isLineTerminator c).

(** The set [[a-z0-9_-]] of [isLikelyDroidName]. *)
Definition droidNameChar (c : ascii) : bool :=
  Js.isLower c || Js.isDigit c || (Js.code c =? 95) || (Js.code c =? 45).

(** The issue of the name check of [analyzeAgent] and [analyzeSkill]. *)
Definition MISSING_NAME : string := "Missing required 'name' field".

End Tokens.

(* ================================================================= *)
(** ** Terms of the statements on normalized texts *)

Module Texts.
Import Re Normalizer.

(** None of the patterns [normalizeText] rewrites occurs in [s]: no
    [AskUserQuestion], no place where the [agent] or the [skill] pattern
    matches. *)
Definition noLegacyPattern (s : string) : bool :=
  negb (test (mkRegExp (str "AskUserQuestion") false false) s)
  && matchesNowhereIn (invocation "agent") None s ""
  && matchesNowhereIn (invocation "skill") None s "".

(** The names of [referenced] that the set [available] does not hold. *)
Definition notAvailable (available : option (list string))
    (referenced : list string) : list string :=
  filter (fun name => negb (has available name)) referenced.

(** The pattern of [stripQuotes]. *)
Definition quotesAtEnds : RegExp :=
  mkRegExp (Alt (Seq Bol (Plus (Chr quoteChar)))
                (Seq (Plus (Chr quoteChar)) Eol)) false false.

(** The parts of a line [<indent>agent <name><rest>] (or [skill]): [indent]
    is made of TAB and SPACE, [ws] is a non-empty run of white space, [name]
    a non-empty run of other characters, and [rest], the rest of the line,
    is empty or starts with white space and has no line terminator. *)
Definition invocationLine (indent ws name rest : string) : bool :=
  forallb tabOrSpace (list_ascii_of_string indent)
  && forallb Js.isSpace (list_ascii_of_string ws)
  && negb (String.eqb ws "")
  && forallb (fun c => negb (Js.isSpace c)) (list_ascii_of_string name)
  && negb (String.eqb name "")
  && match rest with
     | EmptyString => true
     | String c _ => Js.isSpace c
     end
  && forallb (fun c => negb (Js.isLineTerminator c)) (list_ascii_of_string rest).

(** [line] stands on a line of its own between [before] and [after], the
    text has no [AskUserQuestion], and the pattern of [keyword] matches
    nowhere else in the text. *)
Definition onlyInvocation (keyword before line after : string) : bool :=
  startsLine before && endsLine after
  && negb (test (mkRegExp (str "AskUserQuestion") false false)
             (before ++ line ++ after))
  && matchesNowhereIn (invocation keyword) None before (line ++ after)
  && matchesNowhereIn (invocation keyword) (lastChar None (before ++ line))
       after "".

End Texts.

(* ================================================================= *)
(** ** Terms of the statements on converted texts *)

Module Yaml.
Import Re.

(** White space other than the space character. *)
Definition otherSpace (c : ascii) : bool :=
  Js.isSpace c && negb (Ascii.eqb c " ").

(** A text whose only white space is the space character: one line,
    without tabs. *)
Definition spacedWithBlanks (s : string) : bool :=
  forallb (fun c => negb (otherSpace c)) (list_ascii_of_string s).

(** [s] with [by_] in the place of every occurrence of the character
    [c]. *)
Fixpoint substChar (c : ascii) (by_ : string) (s : string) : string :=
  match s with
  | EmptyString => EmptyString
  | String x t =>
      if Ascii.eqb c x then by_ ++ substChar c by_ t
      else String x (substChar c by_ t)
  end.

End Yaml.

(* ================================================================= *)
(** * Properties *)

(** ** The token loop of [analyzeTools] *)

Module ToolLoop.
Import Analyzer.

Lemma test_exec (re : Re.RegExp) (s : string) :
  Re.test re s = match Re.exec re s with Some _ => true | None => false end.
Proof.
  unfold Re.test, Re.exec. destruct (Re.search re None s) as [[skipped st]|];
    reflexivity.
Qed.

Ltac split_tool t :=
  unfold analyzeTool;
  destruct (Js.includes FACTORY_TOOLS t);
  [ | destruct (Re.exec MCP_TOOL_PATTERN t);
      [ | destruct (Re.test BASH_RESTRICTION_PATTERN t);
          [ | destruct (lookupMapping t) as [[target|]| |];
              [ destruct (String.eqb target "") | | | ] ] ] ].

Lemma analyzeTool_frame (a : ToolAnalysis) (t : string) :
  mapped (analyzeTool a t) = (mapped a ++ toolMapped t)%list
  /\ unmapped (analyzeTool a t) = (unmapped a ++ toolUnmapped t)%list
  /\ ta_issues (analyzeTool a t) = (ta_issues a ++ toolIssues t)%list
  /\ ta_warnings (analyzeTool a t) = (ta_warnings a ++ toolWarnings t)%list
  /\ ta_suggestions (analyzeTool a t) = (ta_suggestions a ++ toolSuggestions t)%list
  /\ ta_requiredMcps (analyzeTool a t) = mcpStep (ta_requiredMcps a) t.
Proof.
  unfold toolMapped, toolUnmapped, toolIssues, toolWarnings, toolSuggestions,
    mcpStep.
  split_tool t; simpl;
    try destruct (String.eqb t "AskUserQuestion");
    try destruct (Js.includes (ta_requiredMcps a) _);
    simpl; rewrite ?app_nil_r; repeat split; reflexivity.
Qed.

Lemma fold_analyzeTool (tools : list string) : forall a : ToolAnalysis,
  let a' := fold_left analyzeTool tools a in
  mapped a' = (mapped a ++ flat_map toolMapped tools)%list
  /\ unmapped a' = (unmapped a ++ flat_map toolUnmapped tools)%list
  /\ ta_issues a' = (ta_issues a ++ flat_map toolIssues tools)%list
  /\ ta_warnings a' = (ta_warnings a ++ flat_map toolWarnings tools)%list
  /\ ta_suggestions a' = (ta_suggestions a ++ flat_map toolSuggestions tools)%list
  /\ ta_requiredMcps a' = fold_left mcpStep tools (ta_requiredMcps a).
Proof.
  induction tools as [|t tools IH]; intro a; simpl.
  - rewrite !app_nil_r. repeat split; reflexivity.
  - destruct (IH (analyzeTool a t)) as (Hm & Hu & Hi & Hw & Hs & Hr).
    destruct (analyzeTool_frame a t) as (Fm & Fu & Fi & Fw & Fs & Fr).
    rewrite Hm, Hu, Hi, Hw, Hs, Hr, Fm, Fu, Fi, Fw, Fs, Fr.
    rewrite <- !app_assoc. repeat split; reflexivity.
Qed.

(** The fields of [analyzeTools tools], token by token. *)
Lemma analyzeTools_fields (tools : list string) :
  let req := fold_left mcpStep tools [] in
  mapped (analyzeTools tools) = Js.uniq ToolRef_eqb (flat_map toolMapped tools)
  /\ unmapped (analyzeTools tools) = flat_map toolUnmapped tools
  /\ ta_issues (analyzeTools tools) = flat_map toolIssues tools
  /\ ta_warnings (analyzeTools tools)
     = (flat_map toolWarnings tools
        ++ if 0 <? List.length req then [mcpWarning req] else [])%list
  /\ ta_suggestions (analyzeTools tools) = flat_map toolSuggestions tools
  /\ ta_requiredMcps (analyzeTools tools) = req.
Proof.
  destruct (fold_analyzeTool tools noTools) as (Hm & Hu & Hi & Hw & Hs & Hr).
  simpl in *. unfold analyzeTools.
  rewrite Hr. destruct (0 <? List.length (fold_left mcpStep tools [])); simpl;
    rewrite ?Hm, ?Hu, ?Hi, ?Hw, ?Hs, ?Hr, ?app_nil_r; repeat split; reflexivity.
Qed.

(** *** The soft-unmapped token *)

Lemma ask_pushes :
  toolMapped ASK = [] /\ toolUnmapped ASK = [ASK] /\ toolIssues ASK = []
  /\ toolWarnings ASK = [ASK_WARNING] /\ toolSuggestions ASK = [ASK_SUGGESTION]
  /\ forall req, mcpStep req ASK = req.
Proof. repeat split. Qed.

Lemma notAsk_false (t : string) : notAsk t = false -> t = ASK.
Proof.
  unfold notAsk. intro H. apply negb_false_iff in H.
  now apply String.eqb_eq.
Qed.

Lemma other_pushes (t : string) :
  notAsk t = true -> toolWarnings t = [] /\ toolSuggestions t = [].
Proof.
  unfold notAsk, ASK, toolWarnings, toolSuggestions. intro H.
  apply negb_true_iff in H.
  split_tool t; simpl; rewrite ?H; split; reflexivity.
Qed.

(** A token is pushed to [unmapped] alone or not at all, and an issue comes
    only with an unmapped token. *)
Lemma unmapped_shape (t : string) :
  (toolUnmapped t = [] /\ toolIssues t = []) \/ toolUnmapped t = [t].
Proof.
  unfold toolUnmapped, toolIssues.
  split_tool t; simpl; try destruct (String.eqb t "AskUserQuestion"); simpl;
    auto.
Qed.

(** *** Namespaced passthrough tokens *)

Lemma passthrough_pushes (t : string) :
  isPassthrough t = true ->
  toolMapped t = [Named t] /\ toolUnmapped t = [] /\ toolIssues t = []
  /\ toolWarnings t = [] /\ toolSuggestions t = []
  /\ forall req, mcpStep req t <> [].
Proof.
  unfold isPassthrough, toolMapped, toolUnmapped, toolIssues, toolWarnings,
    toolSuggestions, mcpStep.
  rewrite test_exec. intro H. apply andb_true_iff in H. destruct H as [Hf Hm].
  apply negb_true_iff in Hf. unfold analyzeTool. rewrite Hf.
  destruct (Re.exec MCP_TOOL_PATTERN t) as [m|]; [|discriminate].
  simpl. repeat split.
  intros req. destruct (Js.includes req (Re.captured 1 m)) eqn:E; simpl.
  - intro Hreq. rewrite Hreq in E. discriminate.
  - destruct req; discriminate.
Qed.

Lemma mcpStep_other (t : string) (req : list string) :
  isPassthrough t = false -> mcpStep req t = req.
Proof.
  unfold isPassthrough, mcpStep. rewrite test_exec. intro H.
  unfold analyzeTool.
  destruct (Js.includes FACTORY_TOOLS t); [reflexivity|].
  destruct (Re.exec MCP_TOOL_PATTERN t); [discriminate|].
  destruct (Re.test BASH_RESTRICTION_PATTERN t); [reflexivity|].
  destruct (lookupMapping t) as [[target|]| |];
    try destruct (String.eqb target ""); try destruct (String.eqb t _);
    reflexivity.
Qed.

Lemma mcpStep_keeps (t : string) (req : list string) :
  req <> [] -> mcpStep req t <> [].
Proof.
  intro Hreq. destruct (isPassthrough t) eqn:E.
  - apply passthrough_pushes; assumption.
  - rewrite mcpStep_other; assumption.
Qed.

Lemma fold_mcpStep_keeps (tools : list string) : forall req,
  req <> [] -> fold_left mcpStep tools req <> [].
Proof.
  induction tools as [|t tools IH]; intros req Hreq; simpl; [assumption|].
  apply IH, mcpStep_keeps, Hreq.
Qed.

Lemma fold_mcpStep_some (tools : list string) : forall req,
  existsb isPassthrough tools = true -> fold_left mcpStep tools req <> [].
Proof.
  induction tools as [|t tools IH]; intros req H; simpl in *; [discriminate|].
  destruct (isPassthrough t) eqn:E.
  - apply fold_mcpStep_keeps, passthrough_pushes, E.
  - rewrite mcpStep_other by assumption. apply IH, H.
Qed.

Lemma fold_mcpStep_none (tools : list string) : forall req,
  existsb isPassthrough tools = false -> fold_left mcpStep tools req = req.
Proof.
  induction tools as [|t tools IH]; intros req H; simpl in *; [reflexivity|].
  apply orb_false_iff in H. destruct H as [Ht Hrest].
  rewrite mcpStep_other by assumption. apply IH, Hrest.
Qed.

End ToolLoop.

(* ================================================================= *)
(** ** Scoring *)

Module Scoring.
Import Analyzer.

Lemma computeScore_rule (issues warnings : list string) :
  computeScore issues warnings
  = scoreRule (List.length issues) (List.length warnings).
Proof. unfold computeScore, scoreRule. f_equal. f_equal. lia. Qed.

Lemma scoreRule_range (i w : nat) : (0 <= scoreRule i w <= 100)%Z.
Proof. unfold scoreRule. lia. Qed.

Lemma scoreRule_antitone (i i' w w' : nat) :
  i <= i' -> w <= w' -> (scoreRule i' w' <= scoreRule i w)%Z.
Proof. unfold scoreRule. lia. Qed.

Lemma scoreRule_warned (i w : nat) : 1 <= w -> (scoreRule i w <= 95)%Z.
Proof. unfold scoreRule. lia. Qed.

Lemma score_when_fetched rf hg m (a : Artifact) :
  let r := analyze rf hg m a in
  score r = match fetched rf hg a with
            | Some _ => scoreRule (List.length (issues r))
                          (List.length (warnings r))
            | None => 0%Z
            end.
Proof.
  intro r. subst r. destruct a as [f|f|s]; unfold analyze, fetched; simpl.
  - unfold analyzeAgent.
    destruct (fetchContent rf hg (file_src f) (file_srcType f)); [|reflexivity].
    destruct (splitFrontmatter m a) as [[fm body] w0]. simpl.
    apply computeScore_rule.
  - unfold analyzeCommand.
    destruct (fetchContent rf hg (file_src f) (file_srcType f)); [|reflexivity].
    destruct (splitFrontmatter m a) as [[fm body] w0]. simpl.
    apply computeScore_rule.
  - unfold analyzeSkill.
    destruct (find isMainSkillFile (files s)) as [sf|]; [|reflexivity].
    destruct (fetchContent rf hg (skillfile_src sf) (skillfile_srcType sf));
      [|reflexivity].
    destruct (splitFrontmatter m a) as [[fm body] w0]. simpl.
    apply computeScore_rule.
Qed.

(** C2, as amended: an analysis that gets a text to analyze reports the
    score 100 - 20 i - 5 w clamped to 0..100, for its i issues and w
    warnings; an analysis that got no text (fetch failure, missing main file of
    a skill) reports 0. The rule is non-increasing in i and in w, stays within
    0..100 and gives 100 at i = 0, w = 0. *)
Theorem score_follows_rule_on_analyzed_content :
  forall (readFileSync httpGet : string -> Outcome string)
         (matter : string -> Outcome GrayMatterFile) (a : Artifact),
    let r := analyze readFileSync httpGet matter a in
    score r = match fetched readFileSync httpGet a with
              | Some _ => scoreRule (List.length (issues r))
                            (List.length (warnings r))
              | None => 0%Z
              end
    /\ (forall i w, (0 <= scoreRule i w <= 100)%Z)
    /\ (forall i i' w w', i <= i' -> w <= w' ->
                          (scoreRule i' w' <= scoreRule i w)%Z)
    /\ scoreRule 0 0 = 100%Z.
Proof.
  intros rf hg m a r. split; [|split; [|split]].
  - apply score_when_fetched.
  - apply scoreRule_range.
  - apply scoreRule_antitone.
  - reflexivity.
Qed.

(** C2, as stated, fails where the fetch fails: the result has one issue and
    no warning, the rule gives 80, the reported score is 0. *)
Lemma score_of_fetch_failure_is_not_the_rule :
  let r := analyzeAgent (fun _ => Threw "ENOENT: no such file or directory")
             (fun _ => Threw "fetch failed")
             (fun _ => Threw "")
             (mkDiscoveredFile "reviewer" local "agents/reviewer.md") in
  List.length (issues r) = 1 /\ List.length (warnings r) = 0
  /\ score r = 0%Z
  /\ scoreRule (List.length (issues r)) (List.length (warnings r)) = 80%Z
  /\ score r <> scoreRule (List.length (issues r)) (List.length (warnings r)).
Proof. repeat split. discriminate. Qed.

End Scoring.

(* ================================================================= *)
(** ** Results that short-circuit *)

Module ShortCircuit.
Import Analyzer.

(** C5: a skill whose file set has no file named, up to case, [skill.md] or
    [skill.mdx] gets the fixed result: incompatible, score 0, the single issue
    [Missing SKILL.md file], every other list empty; the file system, the
    network and the metadata parser are not consulted. *)
Theorem skill_without_main_file :
  forall (readFileSync httpGet : string -> Outcome string)
         (matter : string -> Outcome GrayMatterFile) (skill : DiscoveredSkill),
    (forall f, In f (files skill) ->
               Js.toLowerCase (relativePath f) <> "skill.md"
               /\ Js.toLowerCase (relativePath f) <> "skill.mdx") ->
    analyzeSkill readFileSync httpGet matter skill
    = mkAnalysisResult false 0 ["Missing SKILL.md file"] [] [] [] [] [].
Proof.
  intros rf hg m skill Hnone. unfold analyzeSkill.
  destruct (find isMainSkillFile (files skill)) as [sf|] eqn:E; [|reflexivity].
  apply find_some in E. destruct E as [Hin Hmain].
  destruct (Hnone sf Hin) as [Hmd Hmdx]. unfold isMainSkillFile in Hmain.
  apply orb_true_iff in Hmain.
  destruct Hmain as [H|H]; apply String.eqb_eq in H; contradiction.
Qed.

Lemma skill_without_main_file_witness :
  analyzeSkill (fun _ => Returned "---
name: pdf
---
") (fun _ => Threw "offline")
    (fun _ => Returned (mkGrayMatterFile (JObj [("name", JStr "pdf")]) ""))
    (mkDiscoveredSkill "pdf" local "skills/pdf"
       [mkSkillFile "README.md" "skills/pdf/README.md" local;
        mkSkillFile "scripts/skill.md" "skills/pdf/scripts/skill.md" local])
  = mkAnalysisResult false 0 ["Missing SKILL.md file"] [] [] [] [] [].
Proof.
  apply skill_without_main_file.
  intros f [<-|[<-|[]]]; split; discriminate.
Defined.

(** C7: when the fetch of an artifact's text throws, the analysis returns a
    result, not the failure: incompatible, score 0, the single issue
    [Failed to fetch content: <message>], every other list empty. *)
Theorem fetch_failure_is_contained :
  forall (readFileSync httpGet : string -> Outcome string)
         (matter : string -> Outcome GrayMatterFile)
         (src : string) (srcType : SrcType) (message : string),
    fetchContent readFileSync httpGet src srcType = Threw message ->
    let failure :=
      mkAnalysisResult false 0 ["Failed to fetch content: " ++ message]
        [] [] [] [] [] in
    (forall name,
        analyzeAgent readFileSync httpGet matter
          (mkDiscoveredFile name srcType src) = failure)
    /\ (forall name,
        analyzeCommand readFileSync httpGet matter
          (mkDiscoveredFile name srcType src) = failure)
    /\ (forall skill path,
        find isMainSkillFile (files skill) = Some (mkSkillFile path src srcType) ->
        analyzeSkill readFileSync httpGet matter skill = failure).
Proof.
  intros rf hg m src srcType message Hfetch failure. subst failure.
  split; [|split].
  - intro name. unfold analyzeAgent. simpl. rewrite Hfetch. reflexivity.
  - intro name. unfold analyzeCommand. simpl. rewrite Hfetch. reflexivity.
  - intros skill path Hfind. unfold analyzeSkill. rewrite Hfind. simpl.
    rewrite Hfetch. reflexivity.
Qed.

Lemma fetch_failure_is_contained_witness :
  analyzeAgent (fun _ => Threw "ENOENT: no such file or directory")
    (fun _ => Returned "") (fun _ => Threw "")
    (mkDiscoveredFile "reviewer" local "agents/reviewer.md")
  = mkAnalysisResult false 0
      ["Failed to fetch content: ENOENT: no such file or directory"]
      [] [] [] [] [].
Proof.
  apply (proj1 (@fetch_failure_is_contained
                  (fun _ => Threw "ENOENT: no such file or directory")
                  (fun _ => Returned "") (fun _ => Threw "")
                  "agents/reviewer.md" local
                  "ENOENT: no such file or directory" eq_refl)).
Defined.

End ShortCircuit.

(* ================================================================= *)
(** ** The command converter *)

Module CommandConversion.
Import Converters.

(** The catch block: when the parser throws at the converter's call, both
    revisions of [convertCommand] return the text itself. *)
Lemma thrown_parse_returns_the_text
    (matter : string -> Outcome GrayMatterFile)
    (nativeSource : string -> string) (mdText message : string) :
  matter mdText = Threw message ->
  convertCommand matter nativeSource mdText = mdText
  /\ convertCommand_plain matter mdText = mdText.
Proof.
  intro Hthrow. unfold convertCommand, convertCommand_plain. rewrite Hthrow.
  split; reflexivity.
Qed.

(** When the parser answers with empty metadata and the whole text as
    content, the converter with the normalizer returns the normalized text
    (the text itself if that is blank); the first revision returns the
    text. *)
Lemma unparsed_text_is_normalized
    (matter : string -> Outcome GrayMatterFile)
    (nativeSource : string -> string) (mdText : string) :
  matter mdText = Returned (mkGrayMatterFile (JObj []) mdText) ->
  convertCommand matter nativeSource mdText
  = (let normalized :=
       Normalizer.text
         (Normalizer.normalizeText mdText
            (Normalizer.mkOptions None None Normalizer.command (Some false))) in
     if negb (String.eqb (Js.trim normalized) "") then normalized else mdText)
  /\ convertCommand_plain matter mdText = mdText.
Proof.
  intro Hcached. unfold convertCommand, convertCommand_plain. rewrite Hcached.
  cbn [gm_data gm_content Value.truthy filterKeys Value.keys flat_map map
       List.length Nat.eqb].
  split; [reflexivity|].
  destruct (negb (String.eqb (Js.trim mdText) "")); reflexivity.
Qed.

(** C6 at its failing input, a command whose metadata block is not YAML and
    whose body mentions [AskUserQuestion]. At a first parse gray-matter
    throws and the catch block returns the text as it is. In an install run
    the analysis has parsed the text before the converter does: the parser
    threw then, and answers the converter from its cache, with empty
    metadata and the whole text as content. Nothing is caught, and
    [convertCommand] returns the text with the mention rewritten; the first
    revision, which does not normalize, returns the text itself. *)
Theorem unparseable_command_is_rewritten_after_analysis :
  forall (nativeSource : string -> string) (message : string),
    let mdText := Examples.brokenCommand in
    let thrown := fun _ : string => @Threw GrayMatterFile message in
    let cached :=
      fun text : string => Returned (mkGrayMatterFile (JObj []) text) in
    convertCommand thrown nativeSource mdText = mdText
    /\ convertCommand cached nativeSource mdText
       = "---
description: [unclosed
---
Ask the user to choose which tests to run.
"
    /\ convertCommand cached nativeSource mdText <> mdText
    /\ convertCommand_plain cached mdText = mdText.
Proof.
  intros nativeSource message mdText thrown cached.
  split; [reflexivity|].
  assert (H : convertCommand cached nativeSource mdText
              = "---
description: [unclosed
---
Ask the user to choose which tests to run.
").
  { destruct (@unparsed_text_is_normalized cached nativeSource mdText eq_refl)
      as [-> _]. vm_compute. reflexivity. }
  split; [exact H|]. split; [rewrite H; discriminate|reflexivity].
Qed.

(** Scenario B through the converter: the metadata block is written again
    and the line of the body is rewritten. *)
Example command_with_agent_line_is_converted :
  convertCommand (fun _ => Returned Examples.reviewCommand) (fun key => key)
    "(the text of the command file)"
  = "---
description: Review a change
---

# Review

Run the checks first.
Use Task tool with subagent_type `reviewer` (if available) --strict
Then summarize the findings.
".
Proof. reflexivity. Qed.

End CommandConversion.

(* ================================================================= *)
(** ** The soft-unmapped token *)

Module SoftUnmapped.
Import Analyzer ToolLoop.

Lemma notAsk_spec (t : string) :
  (t = ASK /\ notAsk t = false) \/ (t <> ASK /\ notAsk t = true).
Proof.
  unfold notAsk. destruct (String.eqb_spec t ASK); [left|right]; auto.
Qed.

Lemma fold_mcpStep_without_ask (tools : list string) : forall req,
  fold_left mcpStep (filter notAsk tools) req = fold_left mcpStep tools req.
Proof.
  induction tools as [|t tools IH]; intro req; simpl; [reflexivity|].
  destruct (notAsk_spec t) as [[-> ->]|[Hne ->]]; simpl; apply IH.
Qed.

Lemma ask_pushes_warnings (tools : list string) :
  flat_map toolWarnings tools = repeat ASK_WARNING (occurrences tools)
  /\ flat_map toolSuggestions tools = repeat ASK_SUGGESTION (occurrences tools)
  /\ flat_map toolWarnings (filter notAsk tools) = []
  /\ flat_map toolSuggestions (filter notAsk tools) = [].
Proof.
  unfold occurrences.
  induction tools as [|t tools (IHw & IHs & IHw0 & IHs0)]; simpl;
    [repeat split|].
  destruct (notAsk_spec t) as [[-> Hf]|[Hne Ht]]; rewrite ?Hf, ?Ht.
  - destruct (string_dec ASK ASK) as [_|C]; [|contradiction]. simpl.
    rewrite IHw, IHs. repeat split; assumption.
  - destruct (string_dec t ASK) as [C|_]; [contradiction|].
    destruct (other_pushes t Ht) as [-> ->]. simpl.
    rewrite (proj1 (other_pushes t Ht)), (proj2 (other_pushes t Ht)).
    repeat split; assumption.
Qed.

Lemma only_ask_unmapped (tools : list string) :
  (forall t, In t (flat_map toolUnmapped tools) -> t = ASK) ->
  flat_map toolUnmapped tools = repeat ASK (occurrences tools)
  /\ flat_map toolIssues tools = []
  /\ flat_map toolUnmapped (filter notAsk tools) = []
  /\ flat_map toolIssues (filter notAsk tools) = [].
Proof.
  unfold occurrences.
  induction tools as [|t tools IH]; simpl; intro Hall; [repeat split|].
  destruct IH as (IHu & IHi & IHu0 & IHi0).
  { intros t' Hin. apply Hall, in_or_app. right. exact Hin. }
  destruct (notAsk_spec t) as [[-> Hf]|[Hne Ht]]; rewrite ?Hf, ?Ht.
  - destruct (string_dec ASK ASK) as [_|C]; [|contradiction]. simpl.
    rewrite IHu. repeat split; assumption.
  - destruct (string_dec t ASK) as [C|_]; [contradiction|].
    destruct (unmapped_shape t) as [[Hu Hi]|Hu].
    + simpl. rewrite Hu, Hi. simpl. repeat split; assumption.
    + exfalso. apply Hne, Hall. rewrite Hu. left. reflexivity.
Qed.

Lemma onlyAskUserUnmapped_repeat (k : nat) :
  onlyAskUserUnmapped (repeat ASK k) = true.
Proof.
  unfold onlyAskUserUnmapped. induction k as [|k IH]; [reflexivity|exact IH].
Qed.

(** The tool analysis of a list whose only unmapped token is the
    soft-unmapped one, next to the analysis of the list without it. *)
Lemma analyzeTools_soft_unmapped (tools : list string) :
  (forall t, In t (unmapped (analyzeTools tools)) -> t = ASK) ->
  let ta := analyzeTools tools in
  let ta0 := analyzeTools (filter notAsk tools) in
  let k := occurrences tools in
  unmapped ta = repeat ASK k /\ unmapped ta0 = []
  /\ ta_issues ta = [] /\ ta_issues ta0 = []
  /\ ta_warnings ta = (repeat ASK_WARNING k ++ ta_warnings ta0)%list
  /\ ta_suggestions ta = repeat ASK_SUGGESTION k /\ ta_suggestions ta0 = [].
Proof.
  intros Hall ta ta0 k. subst ta ta0 k.
  destruct (analyzeTools_fields tools) as (_ & Hu & Hi & Hw & Hs & _).
  destruct (analyzeTools_fields (filter notAsk tools))
    as (_ & Hu0 & Hi0 & Hw0 & Hs0 & _).
  rewrite Hu in Hall.
  destruct (only_ask_unmapped tools Hall) as (Eu & Ei & Eu0 & Ei0).
  destruct (ask_pushes_warnings tools) as (Ew & Es & Ew0 & Es0).
  rewrite Hu, Hi, Hw, Hs, Hu0, Hi0, Hw0, Hs0.
  rewrite fold_mcpStep_without_ask, Eu, Ei, Eu0, Ei0, Ew, Es, Ew0, Es0.
  repeat split; reflexivity.
Qed.

End SoftUnmapped.

Module SoftUnmappedArtifact.
Import Analyzer ToolLoop SoftUnmapped.

Lemma analyzeTools_or_none (tools : list string) :
  (if 0 <? List.length tools then analyzeTools tools else noTools)
  = analyzeTools tools.
Proof. destruct tools; reflexivity. Qed.

Lemma fetch_returned rf hg src srcType c :
  match fetchContent rf hg src srcType with
  | Returned content => Some content
  | Threw _ => None
  end = Some c ->
  fetchContent rf hg src srcType = Returned c.
Proof. destruct (fetchContent rf hg src srcType); congruence. Qed.

Lemma repeat_nonempty (A : Type) (x : A) (k : nat) :
  1 <= k -> (0 <? List.length (repeat x k)) = true.
Proof. intro H. rewrite repeat_length. apply Nat.ltb_lt. lia. Qed.

Lemma occurrences_pos (tools : list string) :
  In ASK tools -> 1 <= occurrences tools.
Proof. intro H. apply (proj1 (count_occ_In string_dec tools ASK)) in H. exact H. Qed.

(** C1, as amended: take an artifact whose token list has [AskUserQuestion]
    and no other unmapped token, and the same artifact with that token taken
    out of the list. The first is compatible and has the issues of the
    second; it has one more warning per occurrence of the token, and one more
    suggestion per occurrence plus, for an agent, the suggestion
    [Consider removing or replacing: ...] of [analyzeAgent]. *)
Theorem soft_unmapped_token_is_advisory :
  forall (readFileSync httpGet : string -> Outcome string)
         (matter : string -> Outcome GrayMatterFile)
         (a1 a0 : Artifact) (c1 c0 : string) (fm1 fm0 : JsValue)
         (body : string) (w0 : list string),
    sameItem a1 a0 ->
    fetched readFileSync httpGet a1 = Some c1 ->
    fetched readFileSync httpGet a0 = Some c0 ->
    splitFrontmatter matter c1 = (fm1, body, w0) ->
    splitFrontmatter matter c0 = (fm0, body, w0) ->
    Value.get "name" fm1 = Value.get "name" fm0 ->
    Value.get "description" fm1 = Value.get "description" fm0 ->
    let tools := parseTools (Value.get (toolsKey a1) fm1) in
    parseTools (Value.get (toolsKey a0) fm0) = filter notAsk tools ->
    In ASK tools ->
    (forall t, In t (unmapped (analyzeTools tools)) -> t = ASK) ->
    let k := occurrences tools in
    let r1 := analyze readFileSync httpGet matter a1 in
    let r0 := analyze readFileSync httpGet matter a0 in
    compatible r1 = true
    /\ issues r1 = issues r0
    /\ List.length (warnings r1) = List.length (warnings r0) + k
    /\ List.length (suggestions r1)
       = List.length (suggestions r0) + k + extraSuggestions a1.
Proof.
  intros rf hg m a1 a0 c1 c0 fm1 fm0 body w0 Hsame Hf1 Hf0 Hs1 Hs0 Hname Hdesc
    tools Htools0 Hin Hall k r1 r0.
  destruct (analyzeTools_soft_unmapped tools Hall)
    as (Eu & Eu0 & Ei & Ei0 & Ew & Es & Es0).
  fold k in Eu, Ew, Es.
  pose proof (occurrences_pos tools Hin) as Hk. fold k in Hk.
  subst r1 r0.
  destruct a1 as [f1|f1|s1], a0 as [f0|f0|s0]; try contradiction;
    unfold analyze, fetched in *; cbn [toolsKey extraSuggestions] in *.
  - apply fetch_returned in Hf1, Hf0. unfold analyzeAgent.
    rewrite Hf1, Hf0, Hs1, Hs0. fold tools. rewrite Htools0.
    rewrite <- Hname, <- Hdesc, <- Hsame.
    cbn [compatible issues warnings suggestions].
    rewrite Eu, Eu0, Ei, Ei0, Ew, Es, Es0.
    rewrite (repeat_nonempty ASK Hk). cbn [List.length Nat.ltb Nat.leb].
    split; [apply onlyAskUserUnmapped_repeat|].
    split; [reflexivity|].
    destruct (Value.truthy (Value.get "description" fm1));
      cbn [negb]; rewrite ?length_app, ?repeat_length; cbn [List.length]; lia.
  - apply fetch_returned in Hf1, Hf0. unfold analyzeCommand.
    rewrite Hf1, Hf0, Hs1, Hs0. fold tools. rewrite Htools0.
    cbn [compatible issues warnings suggestions].
    rewrite Eu, Ei, Ei0, Ew, Es, Es0.
    split; [apply onlyAskUserUnmapped_repeat|].
    split; [reflexivity|].
    rewrite ?length_app, ?repeat_length; cbn [List.length]; lia.
  - unfold analyzeSkill.
    destruct (find isMainSkillFile (files s1)) as [sf1|]; [|discriminate].
    destruct (find isMainSkillFile (files s0)) as [sf0|]; [|discriminate].
    apply fetch_returned in Hf1, Hf0.
    rewrite Hf1, Hf0, Hs1, Hs0. fold tools. rewrite Htools0.
    rewrite !analyzeTools_or_none. rewrite <- Hname, <- Hdesc.
    cbn [compatible issues warnings suggestions].
    rewrite Eu, Ei, Ei0, Ew, Es, Es0.
    split; [apply onlyAskUserUnmapped_repeat|].
    split; [reflexivity|].
    destruct (Value.truthy (Value.get "description" fm1));
      cbn [negb]; rewrite ?length_app, ?repeat_length; cbn [List.length]; lia.
Qed.

End SoftUnmappedArtifact.

(* ================================================================= *)
(** ** MCP passthrough tokens *)

Module McpWarning.
Import Analyzer ToolLoop.

Lemma existsb_notPassthrough (tools : list string) :
  existsb isPassthrough (filter notPassthrough tools) = false.
Proof.
  unfold notPassthrough.
  induction tools as [|t tools IH]; simpl; [reflexivity|].
  destruct (isPassthrough t) eqn:E; simpl; [exact IH|].
  rewrite E. exact IH.
Qed.

Lemma warnings_without_passthrough (tools : list string) :
  flat_map toolWarnings (filter notPassthrough tools)
  = flat_map toolWarnings tools.
Proof.
  unfold notPassthrough.
  induction tools as [|t tools IH]; simpl; [reflexivity|].
  destruct (isPassthrough t) eqn:E; simpl.
  - destruct (passthrough_pushes t E) as (_ & _ & _ & -> & _). exact IH.
  - rewrite IH. reflexivity.
Qed.

(** The tool analysis of a list with a passthrough token: the warnings of
    the list without such tokens, then the one MCP warning. *)
Lemma analyzeTools_passthrough (tools : list string) :
  existsb isPassthrough tools = true ->
  let ta := analyzeTools tools in
  ta_requiredMcps ta <> []
  /\ ta_warnings ta
     = (ta_warnings (analyzeTools (filter notPassthrough tools))
        ++ [mcpWarning (ta_requiredMcps ta)])%list.
Proof.
  intros Hsome ta. subst ta.
  destruct (analyzeTools_fields tools) as (_ & _ & _ & Hw & _ & Hr).
  destruct (analyzeTools_fields (filter notPassthrough tools))
    as (_ & _ & _ & Hw0 & _ & _).
  pose proof (fold_mcpStep_some tools [] Hsome) as Hreq.
  rewrite Hw, Hw0, Hr.
  rewrite (fold_mcpStep_none _ [] (existsb_notPassthrough tools)).
  rewrite warnings_without_passthrough.
  split; [exact Hreq|].
  destruct (fold_left mcpStep tools []) as [|s req]; [contradiction|].
  cbn [List.length Nat.ltb Nat.leb]. rewrite app_nil_r. reflexivity.
Qed.

(** Where the warnings of the tool analysis sit in the result of a fetched
    artifact. *)
Lemma tool_warnings_are_reported rf hg m (a : Artifact) (c : string) :
  fetched rf hg a = Some c ->
  let r := analyze rf hg m a in
  exists before after,
    warnings r
    = (before ++ ta_warnings (analyzeTools (declaredTools rf hg m a))
         ++ after)%list.
Proof.
  intros Hf r. subst r. unfold declaredTools. rewrite Hf.
  destruct a as [f|f|s]; unfold analyze, fetched in *; cbn [toolsKey].
  - apply SoftUnmappedArtifact.fetch_returned in Hf. unfold analyzeAgent.
    rewrite Hf. destruct (splitFrontmatter m c) as [[fm body] w0].
    cbn [fst warnings].
    match goal with
    | |- context [(if ?d then (((?w ++ ?t) ++ ?x) ++ ?y) ++ ?z
                   else ((?w ++ ?t) ++ ?x) ++ ?y)%list] =>
        exists w, (x ++ y ++ if d then z else [])%list;
        destruct d
    end; rewrite <- ?app_assoc, ?app_nil_r; reflexivity.
  - apply SoftUnmappedArtifact.fetch_returned in Hf. unfold analyzeCommand.
    rewrite Hf. destruct (splitFrontmatter m c) as [[fm body] w0].
    cbn [fst warnings].
    match goal with
    | |- context [(((?w ++ ?t) ++ ?x) ++ ?y)%list] => exists w, (x ++ y)%list
    end.
    rewrite <- ?app_assoc. reflexivity.
  - unfold analyzeSkill.
    destruct (find isMainSkillFile (files s)) as [sf|]; [|discriminate].
    apply SoftUnmappedArtifact.fetch_returned in Hf.
    rewrite Hf. destruct (splitFrontmatter m c) as [[fm body] w0].
    cbn [fst warnings]. rewrite SoftUnmappedArtifact.analyzeTools_or_none.
    match goal with
    | |- context [(((?w ++ ?t) ++ ?x) ++ ?y)%list] => exists w, (x ++ y)%list
    end.
    rewrite <- ?app_assoc. reflexivity.
Qed.

(** C10: an artifact whose token list has a namespaced MCP passthrough token
    gets, on top of the warnings of the same list without such tokens, exactly
    one warning, which lists every required server; the warnings of the tool
    analysis are part of the result, so the score is at most 95. *)
Theorem passthrough_token_costs_one_warning :
  forall (readFileSync httpGet : string -> Outcome string)
         (matter : string -> Outcome GrayMatterFile) (a : Artifact),
    let tools := declaredTools readFileSync httpGet matter a in
    existsb isPassthrough tools = true ->
    let ta := analyzeTools tools in
    let r := analyze readFileSync httpGet matter a in
    ta_requiredMcps ta <> []
    /\ ta_warnings ta
       = (ta_warnings (analyzeTools (filter notPassthrough tools))
          ++ [mcpWarning (ta_requiredMcps ta)])%list
    /\ mcpWarning (ta_requiredMcps ta)
       = "Requires MCP servers: " ++ Js.join ", " (ta_requiredMcps ta)
    /\ (exists before after,
          warnings r = (before ++ ta_warnings ta ++ after)%list)
    /\ requiredMcps r = ta_requiredMcps ta
    /\ (score r <= 95)%Z.
Proof.
  intros rf hg m a tools Hsome ta r.
  destruct (analyzeTools_passthrough tools Hsome) as [Hreq Hw].
  fold ta in Hreq, Hw.
  destruct (fetched rf hg a) as [c|] eqn:Hf.
  2:{ unfold tools, declaredTools in Hsome. rewrite Hf in Hsome. discriminate. }
  pose proof (tool_warnings_are_reported rf hg m a Hf) as Hrep.
  fold tools ta r in Hrep. cbv zeta in Hrep.
  split; [exact Hreq|]. split; [exact Hw|]. split; [reflexivity|].
  split; [exact Hrep|].
  split.
  - subst r ta tools. unfold declaredTools. rewrite Hf.
    destruct a as [f|f|s]; unfold analyze, fetched in *; cbn [toolsKey].
    + apply SoftUnmappedArtifact.fetch_returned in Hf. unfold analyzeAgent.
      rewrite Hf. destruct (splitFrontmatter m c) as [[fm body] w0].
      reflexivity.
    + apply SoftUnmappedArtifact.fetch_returned in Hf. unfold analyzeCommand.
      rewrite Hf. destruct (splitFrontmatter m c) as [[fm body] w0].
      reflexivity.
    + unfold analyzeSkill.
      destruct (find isMainSkillFile (files s)) as [sf|]; [|discriminate].
      apply SoftUnmappedArtifact.fetch_returned in Hf.
      rewrite Hf. destruct (splitFrontmatter m c) as [[fm body] w0].
      cbn [fst requiredMcps]. rewrite SoftUnmappedArtifact.analyzeTools_or_none.
      reflexivity.
  - pose proof (Scoring.score_when_fetched rf hg m a) as Hscore.
    fold r in Hscore. cbv zeta in Hscore. rewrite Hf in Hscore. rewrite Hscore.
    apply Scoring.scoreRule_warned.
    destruct Hrep as (before & after & ->). rewrite Hw.
    rewrite !length_app. cbn [List.length]. lia.
Qed.

Lemma passthrough_token_costs_one_warning_witness :
  let r := Analyzer.analyze Examples.disk Examples.offline
             Examples.commandParser (CommandFile Examples.commandFile) in
  warnings r = ["Requires MCP servers: github__create_issue"]
  /\ (score r <= 95)%Z.
Proof.
  destruct (@passthrough_token_costs_one_warning Examples.disk Examples.offline
              Examples.commandParser (CommandFile Examples.commandFile)
              eq_refl) as (_ & _ & _ & _ & _ & Hscore).
  split; [reflexivity|exact Hscore].
Defined.

End McpWarning.

Module SoftUnmappedExamples.
Import Analyzer ToolLoop SoftUnmapped SoftUnmappedArtifact Examples.

(** C1, as stated, fails for an agent: the token brings two suggestions, the
    one of the tool analysis and [Consider removing or replacing: ...]. *)
Lemma agent_gets_two_suggestions_for_the_token :
  let r1 := analyzeAgent disk offline parser agentWith in
  let r0 := analyzeAgent disk offline parser agentWithout in
  unmappedTools r1 = ["AskUserQuestion"]
  /\ suggestions r0 = []
  /\ suggestions r1
     = ["Consider adding 'Ask clarifying questions before proceeding' to the prompt";
        "Consider removing or replacing: AskUserQuestion"]
  /\ List.length (suggestions r1) <> List.length (suggestions r0) + 1.
Proof. repeat split. discriminate. Qed.

Lemma soft_unmapped_token_is_advisory_witness :
  let r1 := analyze disk offline parser (AgentFile agentWith) in
  let r0 := analyze disk offline parser (AgentFile agentWithout) in
  compatible r1 = true
  /\ issues r1 = issues r0
  /\ List.length (warnings r1) = List.length (warnings r0) + 1
  /\ List.length (suggestions r1) = List.length (suggestions r0) + 1 + 1.
Proof.
  apply (@soft_unmapped_token_is_advisory disk offline parser
           (AgentFile agentWith) (AgentFile agentWithout)
           "agents/with.md" "agents/without.md"
           (gm_data withAsk) (gm_data withoutAsk) "Review the change." []).
  - reflexivity.
  - reflexivity.
  - reflexivity.
  - reflexivity.
  - reflexivity.
  - reflexivity.
  - reflexivity.
  - reflexivity.
  - right. left. reflexivity.
  - intros t Hin. vm_compute in Hin. destruct Hin as [<-|[]]. reflexivity.
Defined.

End SoftUnmappedExamples.

(* ================================================================= *)
(** ** Tokens of the form mcp__server__tool *)

Module McpServerName.
Import Analyzer.

(** C4 at its failing input: both tokens stay in the mapped list, but the
    server recorded for [mcp__server__tool] is [server__tool], because the
    first group of [MCP_TOOL_PATTERN] accepts underscores and is greedy; with
    both forms in one list two servers are recorded. The group gives the
    server back only when the tool part has a character it does not accept,
    as in [mcp__server__*]. *)
Theorem mcp_server_group_takes_the_tool_name :
  mapped (analyzeTools ["mcp__server"]) = [Named "mcp__server"]
  /\ ta_requiredMcps (analyzeTools ["mcp__server"]) = ["server"]
  /\ mapped (analyzeTools ["mcp__server__tool"]) = [Named "mcp__server__tool"]
  /\ Re.exec MCP_TOOL_PATTERN "mcp__server__tool" = Some [(1, "server__tool")]
  /\ ta_requiredMcps (analyzeTools ["mcp__server__tool"]) = ["server__tool"]
  /\ ta_requiredMcps (analyzeTools ["mcp__server"; "mcp__server__tool"])
     = ["server"; "server__tool"]
  /\ ta_warnings (analyzeTools ["mcp__server"; "mcp__server__tool"])
     = ["Requires MCP servers: server, server__tool"]
  /\ ta_requiredMcps (analyzeTools ["mcp__server"; "mcp__server__*"])
     = ["server"].
Proof. repeat split. Qed.

End McpServerName.

(* ================================================================= *)
(** ** The converter-side mapping *)

Module FactoryMapping.
Import Analyzer.

(** C9 at its failing input: [constructor] is no own property of
    [TOOL_MAPPING], the read finds [Object.prototype.constructor], which is
    truthy, and the function object is pushed to the output. *)
Theorem mapToolsForFactory_emits_prototype_member :
  lookupMapping "constructor" = Inherited "constructor"
  /\ mapToolsForFactory ["Read"; "constructor"; "AskUserQuestion"]
     = [Named "Read"; ProtoMember "constructor"]
  /\ forallb isFactoryOrMcp
       (mapToolsForFactory ["Read"; "constructor"; "AskUserQuestion"])
     = false.
Proof. repeat split. Qed.

End FactoryMapping.

Module FactoryMappingFacts.
Import Analyzer.

Lemma ToolRef_eqb_eq (a b : ToolRef) : ToolRef_eqb a b = true <-> a = b.
Proof.
  destruct a as [x|x], b as [y|y]; simpl; split; intro H;
    try discriminate; try (apply String.eqb_eq in H; now subst);
    try (inversion H; apply String.eqb_refl).
Qed.

Lemma seen_spec (x : ToolRef) (seen : list ToolRef) :
  existsb (ToolRef_eqb x) seen = true <-> In x seen.
Proof.
  rewrite existsb_exists. split.
  - intros (y & Hin & Heq). apply ToolRef_eqb_eq in Heq. now subst.
  - intro Hin. exists x. split; [exact Hin|]. now apply ToolRef_eqb_eq.
Qed.

Lemma uniqFrom_spec (xs : list ToolRef) : forall seen,
  NoDup (Js.uniqFrom ToolRef_eqb seen xs)
  /\ forall x, In x (Js.uniqFrom ToolRef_eqb seen xs) ->
               In x xs /\ ~ In x seen.
Proof.
  induction xs as [|x xs IH]; intro seen; simpl.
  - split; [constructor|intros x []].
  - destruct (existsb (ToolRef_eqb x) seen) eqn:E.
    + destruct (IH seen) as [Hnd Hin]. split; [exact Hnd|].
      intros y Hy. destruct (Hin y Hy). auto.
    + destruct (IH (x :: seen)) as [Hnd Hin]. split.
      * constructor; [|exact Hnd]. intro Hx.
        destruct (Hin x Hx) as [_ Hnot]. apply Hnot. left. reflexivity.
      * intros y [<-|Hy].
        -- split; [left; reflexivity|]. intro Hs.
           apply seen_spec in Hs. congruence.
        -- destruct (Hin y Hy) as [Hxs Hnot]. split; [right; exact Hxs|].
           intro Hs. apply Hnot. right. exact Hs.
Qed.

(** What one token contributes to the output of [mapToolsForFactory]. *)
Lemma mapToolForFactory_pushes (acc : list ToolRef) (t : string) :
  exists out, mapToolForFactory acc t = (acc ++ out)%list
    /\ (Js.includes OBJECT_PROTOTYPE_KEYS t = false ->
        forallb isFactoryOrMcp out = true).
Proof.
  unfold mapToolForFactory.
  destruct (Js.includes FACTORY_TOOLS t) eqn:Ef.
  { exists [Named t]. split; [reflexivity|]. intros _.
    cbn [forallb isFactoryOrMcp]. rewrite Ef. reflexivity. }
  destruct (Re.test MCP_TOOL_PATTERN t) eqn:Em.
  { exists [Named t]. split; [reflexivity|]. intros _.
    cbn [forallb isFactoryOrMcp]. rewrite Em, orb_true_r. reflexivity. }
  destruct (Re.test BASH_RESTRICTION_PATTERN t).
  { exists [Named "Execute"]. split; reflexivity. }
  unfold lookupMapping.
  destruct (Value.assoc t TOOL_MAPPING) as [[target|]|] eqn:Ea.
  - destruct (String.eqb target "") eqn:Et; simpl.
    + exists []. rewrite app_nil_r. split; reflexivity.
    + exists [Named target]. split; [reflexivity|]. intros _.
      revert Ea. unfold TOOL_MAPPING. cbn [Value.assoc].
      repeat match goal with
      | |- (if ?b then _ else _) = _ -> _ =>
          destruct b;
          [ intro Ea; injection Ea as <- || discriminate Ea; reflexivity | ]
      end.
      discriminate.
  - exists []. rewrite app_nil_r. split; reflexivity.
  - destruct (Js.includes OBJECT_PROTOTYPE_KEYS t).
    + exists [ProtoMember t]. split; [reflexivity|]. discriminate.
    + exists []. rewrite app_nil_r. split; reflexivity.
Qed.

Lemma fold_mapToolForFactory (tools : list string) : forall acc,
  (forall t, In t tools -> Js.includes OBJECT_PROTOTYPE_KEYS t = false) ->
  forallb isFactoryOrMcp acc = true ->
  forallb isFactoryOrMcp (fold_left mapToolForFactory tools acc) = true.
Proof.
  induction tools as [|t tools IH]; intros acc Hkeys Hacc; simpl; [exact Hacc|].
  destruct (mapToolForFactory_pushes acc t) as (out & -> & Hout).
  apply IH.
  - intros t' Hin. apply Hkeys. right. exact Hin.
  - rewrite forallb_app, Hacc, Hout; [reflexivity|].
    apply Hkeys. left. reflexivity.
Qed.

(** The part of C9 that holds: the output of [mapToolsForFactory] has no
    duplicates, and when no token is a key of [Object.prototype] every entry is
    a Factory tool or an MCP token, so tokens with a null mapping and unknown
    tokens are left out. *)
Theorem mapToolsForFactory_without_prototype_keys :
  forall tools : list string,
    (forall t, In t tools -> Js.includes OBJECT_PROTOTYPE_KEYS t = false) ->
    NoDup (mapToolsForFactory tools)
    /\ forallb isFactoryOrMcp (mapToolsForFactory tools) = true
    /\ ~ In (Named "AskUserQuestion") (mapToolsForFactory tools)
    /\ ~ In (Named "NotebookEdit") (mapToolsForFactory tools).
Proof.
  intros tools Hkeys. unfold mapToolsForFactory, Js.uniq.
  destruct (uniqFrom_spec (fold_left mapToolForFactory tools []) [])
    as [Hnd Hin].
  pose proof (fold_mapToolForFactory tools [] Hkeys eq_refl) as Hall.
  assert (Hsub : forallb isFactoryOrMcp
                   (Js.uniqFrom ToolRef_eqb []
                      (fold_left mapToolForFactory tools [])) = true).
  { apply forallb_forall. intros x Hx. destruct (Hin x Hx) as [Hx' _].
    rewrite forallb_forall in Hall. apply Hall, Hx'. }
  split; [exact Hnd|]. split; [exact Hsub|].
  rewrite forallb_forall in Hsub.
  split; intro Hbad; apply Hsub in Hbad; discriminate Hbad.
Qed.

Lemma mapToolsForFactory_without_prototype_keys_witness :
  mapToolsForFactory ["Bash"; "Write"; "Create"; "AskUserQuestion";
                      "mcp__github__create_issue"; "Bash(git *)"; "Frobnicate"]
  = [Named "Execute"; Named "Create"; Named "mcp__github__create_issue"]
  /\ NoDup (mapToolsForFactory
              ["Bash"; "Write"; "Create"; "AskUserQuestion";
               "mcp__github__create_issue"; "Bash(git *)"; "Frobnicate"]).
Proof.
  split; [reflexivity|].
  apply (@mapToolsForFactory_without_prototype_keys
           ["Bash"; "Write"; "Create"; "AskUserQuestion";
            "mcp__github__create_issue"; "Bash(git *)"; "Frobnicate"]).
  intros t Hin. simpl in Hin.
  repeat (destruct Hin as [<-|Hin]; [reflexivity|]). destruct Hin.
Defined.

End FactoryMappingFacts.


(* ================================================================= *)
(** ** Resolution of single tokens and scenario A *)

Module Resolution.
Import Analyzer.

(** A token of the Factory vocabulary is mapped to itself and nothing else
    is recorded for it. *)
Theorem native_token_is_kept :
  forall t : string,
    Js.includes FACTORY_TOOLS t = true ->
    analyzeTools [t] = mkToolAnalysis [Named t] [] [] [] [] [].
Proof.
  intros t Hnative. unfold analyzeTools. cbn [fold_left].
  unfold analyzeTool. rewrite Hnative. reflexivity.
Qed.

Lemma native_token_is_kept_witness :
  analyzeTools ["Skill"] = mkToolAnalysis [Named "Skill"] [] [] [] [] [].
Proof. apply native_token_is_kept. reflexivity. Defined.

(** A shell restriction collapses to [Execute], whatever the restriction. *)
Theorem restricted_shell_token_collapses :
  analyzeTools ["Bash(git *)"] = mkToolAnalysis [Named "Execute"] [] [] [] [] []
  /\ analyzeTools ["Execute(npm *)"]
     = mkToolAnalysis [Named "Execute"] [] [] [] [] []
  /\ mapped (analyzeTools ["Bash(git *)"; "Execute(npm *)"; "Bash"])
     = [Named "Execute"].
Proof. repeat split. Qed.

(** Scenario A: an agent with the tokens [Bash], [WebFetch] and
    [AskUserQuestion] and no description is compatible, has no issue, maps
    to [Execute] and [FetchUrl], and gets the warning of the token and the
    warning of the missing description; its suggestions are the one of the
    token and the one [analyzeAgent] adds for a non-empty unmapped list. *)
Theorem scenario_A :
  let agent := mkDiscoveredFile "helper" local "agents/helper.md" in
  let parsed :=
    mkGrayMatterFile
      (JObj [("name", JStr "helper");
             ("tools", JArr [JStr "Bash"; JStr "WebFetch";
                             JStr "AskUserQuestion"])])
      "Help with the task." in
  analyzeAgent Examples.disk Examples.offline (fun _ => Returned parsed) agent
  = mkAnalysisResult true 90 []
      ["AskUserQuestion not available - agent will use conversation flow for clarification";
       "Missing 'description' field (recommended)"]
      [Named "Execute"; Named "FetchUrl"]
      ["AskUserQuestion"] []
      ["Consider adding 'Ask clarifying questions before proceeding' to the prompt";
       "Consider removing or replacing: AskUserQuestion"].
Proof. reflexivity. Qed.

End Resolution.

(* ================================================================= *)
(** ** The matcher on texts with a known shape *)

Module ReFacts.
Import Re.

Lemma iterate_chr (icase mline : bool) (p : ascii -> bool)
    (k : State -> option State) (tail : string) (cs : Captures) (res : State) :
  headRejected icase p tail = true ->
  forall (w : string) (pv : option ascii) (fuel : nat),
    allAccepted icase p w = true ->
    String.length w <= fuel ->
    k (mkState (lastChar pv w) tail cs) = Some res ->
    iterate (run icase mline (Chr p)) k fuel (mkState pv (w ++ tail) cs)
    = Some res.
Proof.
  intros Htail.
  set (m := run icase mline (Chr p)).
  assert (Hm : forall st k0,
             m st k0 = match rest st with
                       | EmptyString => None
                       | String c t =>
                           if accepts icase p c
                           then k0 (mkState (Some c) t (caps st)) else None
                       end) by reflexivity.
  clearbody m.
  induction w as [|c w IH]; intros pv fuel Hall Hfuel Hk.
  - simpl in *. destruct fuel as [|fuel]; simpl; [exact Hk|].
    rewrite Hm. destruct tail as [|c t]; simpl in *; [exact Hk|].
    apply negb_true_iff in Htail. rewrite Htail. exact Hk.
  - destruct fuel as [|fuel]; [simpl in Hfuel; lia|].
    unfold allAccepted in Hall. simpl in Hall.
    apply andb_true_iff in Hall. destruct Hall as [Hc Hw].
    simpl. rewrite Hm. simpl. rewrite Hc.
    assert (Hlt : (String.length (w ++ tail) <? S (String.length (w ++ tail))) = true)
      by (apply Nat.ltb_lt; lia).
    rewrite Hlt.
    rewrite (IH (Some c) fuel Hw); [reflexivity| simpl in Hfuel; lia | exact Hk].
Qed.

Lemma length_append (w tail : string) :
  String.length (w ++ tail) = String.length w + String.length tail.
Proof. induction w as [|c w IH]; simpl; [reflexivity|now rewrite IH]. Qed.

Lemma substring_prefix (w tail : string) :
  substring 0 (String.length (w ++ tail) - String.length tail) (w ++ tail) = w.
Proof.
  replace (String.length (w ++ tail) - String.length tail)
    with (String.length w)
    by (rewrite length_append; lia).
  induction w as [|c w IH]; simpl.
  - destruct tail; reflexivity.
  - rewrite IH. reflexivity.
Qed.

Lemma lineTerminator_cases (c : ascii) :
  Js.isLineTerminator c = true -> c = ascii_of_nat 10 \/ c = ascii_of_nat 13.
Proof.
  unfold Js.isLineTerminator, Js.code. intro H. apply orb_true_iff in H.
  destruct H as [H|H]; apply Nat.eqb_eq in H; [left|right];
    rewrite <- (ascii_nat_embedding c), H; reflexivity.
Qed.

Lemma dot_rejects_line_end (icase : bool) (after : string) :
  endsLine after = true ->
  headRejected icase (fun c => negb (Js.isLineTerminator c)) after = true.
Proof.
  destruct after as [|c t]; simpl; [reflexivity|]. intro H.
  destruct (lineTerminator_cases c H) as [-> | ->]; destruct icase; reflexivity.
Qed.

End ReFacts.

Module LineFacts.
Import Re ReFacts.

Section Unfold.
Variables (ic ml : bool).

Lemma run_seq r1 r2 st k :
  run ic ml (Seq r1 r2) st k = run ic ml r1 st (fun st1 => run ic ml r2 st1 k).
Proof. reflexivity. Qed.

Lemma run_chr p c t pv cs k :
  run ic ml (Chr p) (mkState pv (String c t) cs) k
  = if accepts ic p c then k (mkState (Some c) t cs) else None.
Proof. reflexivity. Qed.

Lemma run_star r st k :
  run ic ml (Star r) st k = iterate (run ic ml r) k (String.length (rest st)) st.
Proof. reflexivity. Qed.

Lemma run_group i r st k :
  run ic ml (Group i r) st k
  = run ic ml r st (fun st1 =>
      k (mkState (prev st1) (rest st1)
           ((i, substring 0 (String.length (rest st) - String.length (rest st1))
                  (rest st)) :: caps st1))).
Proof. reflexivity. Qed.

Lemma run_bol st k :
  run ic ml Bol st k = if atBol ml st then k st else None.
Proof. reflexivity. Qed.

Lemma run_eol st k :
  run ic ml Eol st k = if atEol ml st then k st else None.
Proof. reflexivity. Qed.
End Unfold.

Ltac eval_accepts :=
  repeat match goal with
  | |- context [accepts ?i ?p ?c] =>
      let b := eval vm_compute in (accepts i p c) in
      change (accepts i p c) with b
  end.

Ltac chars :=
  repeat (first [rewrite run_seq | rewrite run_chr]; eval_accepts; cbv beta iota).

End LineFacts.

Module ReplaceFacts.
Import Re ReFacts.

Section Replace.
Variable St : Type.
Variable re : RegExp.
Variable f : string -> Captures -> St -> string * St.

Lemma replaceFrom_skip (suffix : string) (fuel : nat) (acc : St) :
  forall (s : string) (p : option ascii),
    matchesNowhereIn re p s suffix = true ->
    replaceFrom re f (String.length s + fuel) p (s ++ suffix) acc
    = (s ++ fst (replaceFrom re f fuel (lastChar p s) suffix acc),
       snd (replaceFrom re f fuel (lastChar p s) suffix acc)).
Proof.
  induction s as [|c s IH]; intros p Hnone.
  - simpl. destruct (replaceFrom re f fuel p suffix acc). reflexivity.
  - simpl in Hnone.
    destruct (matchHere re p (String c (s ++ suffix))) eqn:E; [discriminate|].
    cbn [String.length Nat.add append replaceFrom]. rewrite E.
    rewrite (IH (Some c) Hnone). reflexivity.
Qed.

Lemma replaceFrom_match (fuel : nat) (p : option ascii)
    (matched after : string) (st : State) (acc : St) :
  matchHere re p (matched ++ after) = Some st ->
  rest st = after ->
  matched <> "" ->
  replaceFrom re f (S fuel) p (matched ++ after) acc
  = (fst (f matched (caps st) acc)
       ++ fst (replaceFrom re f fuel (prev st) after (snd (f matched (caps st) acc))),
     snd (replaceFrom re f fuel (prev st) after (snd (f matched (caps st) acc)))).
Proof.
  intros Hm Hrest Hne. cbn [replaceFrom]. rewrite Hm, Hrest.
  rewrite substring_prefix.
  destruct (f matched (caps st) acc) as [out acc1]. cbn [fst snd].
  destruct (String.length (matched ++ after) - String.length after) eqn:En.
  - rewrite length_append in En. destruct matched; [contradiction|].
    cbn [String.length] in En. lia.
  - destruct (replaceFrom re f fuel (prev st) after acc1). reflexivity.
Qed.

Hypothesis never_empty : forall p, matchHere re p "" = None.

Lemma replaceFrom_end (fuel : nat) (p : option ascii) (acc : St) :
  replaceFrom re f fuel p "" acc = ("", acc).
Proof. destruct fuel; simpl; [reflexivity|]. rewrite never_empty. reflexivity. Qed.

Lemma append_empty (s : string) : s ++ "" = s.
Proof. induction s as [|c s IH]; simpl; [reflexivity|now rewrite IH]. Qed.

Lemma replaceFrom_tail (s : string) (p : option ascii) (fuel : nat) (acc : St) :
  matchesNowhereIn re p s "" = true ->
  replaceFrom re f (String.length s + fuel) p s acc = (s, acc).
Proof.
  intro Hnone. pose proof (replaceFrom_skip "" fuel acc s p Hnone) as E.
  rewrite append_empty in E. rewrite E, replaceFrom_end.
  cbn [fst snd]. rewrite append_empty. reflexivity.
Qed.

(** A text in which the pattern matches nowhere is left as it is. *)
Lemma replaceAllWith_none (s : string) (acc : St) :
  matchesNowhereIn re None s "" = true ->
  replaceAllWith re f s acc = (s, acc).
Proof.
  intro Hnone. unfold replaceAllWith.
  replace (S (String.length s)) with (String.length s + 1) by lia.
  apply replaceFrom_tail, Hnone.
Qed.

(** A text with one match: the callback runs once, on that match. *)
Lemma replaceAllWith_single (before matched after : string) (st : State)
    (acc : St) :
  matchesNowhereIn re None before (matched ++ after) = true ->
  matchHere re (lastChar None before) (matched ++ after) = Some st ->
  rest st = after ->
  matched <> "" ->
  matchesNowhereIn re (prev st) after "" = true ->
  replaceAllWith re f (before ++ matched ++ after) acc
  = (before ++ fst (f matched (caps st) acc) ++ after,
     snd (f matched (caps st) acc)).
Proof.
  intros Hbefore Hm Hrest Hne Hafter. unfold replaceAllWith.
  replace (S (String.length (before ++ matched ++ after)))
    with (String.length before + S (String.length after + String.length matched))
    by (rewrite !length_append; lia).
  rewrite replaceFrom_skip by exact Hbefore.
  rewrite replaceFrom_match with (st := st) by assumption.
  rewrite replaceFrom_tail by exact Hafter.
  reflexivity.
Qed.
End Replace.

End ReplaceFacts.

Module NormFacts.
Import Re ReFacts LineFacts ReplaceFacts Normalizer.

Lemma invocation_never_empty (keyword : string) (p : option ascii) :
  keyword <> "" -> matchHere (invocation keyword) p "" = None.
Proof.
  intro Hne. destruct keyword as [|c kw]; [contradiction|].
  unfold matchHere, invocation.
  cbn [pattern ignoreCase multiline seqs].
  rewrite run_seq, run_bol. destruct (atBol true _); [|reflexivity].
  rewrite run_seq, run_group, run_star. cbn [rest String.length iterate].
  cbv beta. cbn [prev rest caps].
  rewrite run_seq. destruct kw; cbn [str]; [|rewrite run_seq]; reflexivity.
Qed.

Lemma eqb_common_prefix (b x y : string) :
  String.eqb (b ++ x) (b ++ y) = String.eqb x y.
Proof.
  induction b as [|c b IH]; simpl; [reflexivity|].
  rewrite Ascii.eqb_refl. exact IH.
Qed.

Lemma search_in_context (re : RegExp) (s : string) :
  (forall p, exists st, matchHere re p s = Some st) ->
  forall before p, exists r, search re p (before ++ s) = Some r.
Proof.
  intro Hs. induction before as [|c before IH]; intro p.
  - simpl. destruct (Hs p) as [st Hst].
    destruct s; simpl; rewrite Hst; eexists; reflexivity.
  - simpl. destruct (matchHere re p (String c (before ++ s)));
      [eexists; reflexivity|].
    destruct (IH (Some c)) as [[skipped st] Hr]. rewrite Hr.
    eexists; reflexivity.
Qed.

Lemma test_in_context (re : RegExp) (before s : string) :
  (forall p, exists st, matchHere re p s = Some st) ->
  test re (before ++ s) = true.
Proof.
  intro Hs. unfold test.
  destruct (search_in_context re s Hs before None) as [r ->]. reflexivity.
Qed.

End NormFacts.

(* ================================================================= *)
(** ** The normalizer *)

Module Normalizing.
Import Normalizer.

(** C3 at its failing input: with the header requested (the default), the
    note [removed AskUserQuestion] of the first run is itself rewritten by
    the second run; without the header the second run changes nothing on
    this input. *)
Theorem header_note_is_rewritten_by_second_run :
  forall (droids skills : option (list string)) (kind : FileKind),
    let o := mkOptions droids skills kind None in
    let once := text (normalizeText "AskUserQuestion" o) in
    let twice := text (normalizeText once o) in
    once = "<!-- Factory Import Normalizer (" ++ kindName kind
             ++ "): removed AskUserQuestion -->" ++ Js.chr Js.LF ++ Js.chr Js.LF
             ++ "ask the user"
    /\ twice = "<!-- Factory Import Normalizer (" ++ kindName kind
                 ++ "): removed ask the user -->" ++ Js.chr Js.LF ++ Js.chr Js.LF
                 ++ "ask the user"
    /\ twice <> once
    /\ (let quiet := mkOptions droids skills kind (Some false) in
        text (normalizeText (text (normalizeText "AskUserQuestion" quiet)) quiet)
        = text (normalizeText "AskUserQuestion" quiet)).
Proof.
  intros droids skills kind o once twice. subst o once twice.
  destruct kind; vm_compute; repeat split; discriminate.
Qed.

(** The line [agent reviewer --strict] alone, normalized without a set of
    known droids. *)
Lemma bare_agent_line_is_rewritten :
  forall (skills : option (list string)) (kind : FileKind)
         (addHeaderNote : option bool),
    let r := normalizeText "agent reviewer --strict"
               (mkOptions None skills kind addHeaderNote) in
    let header :=
      match addHeaderNote with
      | Some false => ""
      | _ => headerNote kind ["converted agent invocations"]
      end in
    text r = header
             ++ "Use Task tool with subagent_type `reviewer` (if available) --strict"
    /\ changed r = true
    /\ referencedDroids r = ["reviewer"]
    /\ unresolvedDroids r = ["reviewer"]
    /\ referencedSkills r = [] /\ unresolvedSkills r = [].
Proof.
  intros skills kind hdr r header. subst r header.
  destruct hdr as [[|]|]; destruct kind; vm_compute; repeat split.
Qed.

End Normalizing.

Module NormLine.
Import Re ReFacts LineFacts ReplaceFacts Normalizer NormFacts.

Lemma agent_pattern_never_empty (p : option ascii) :
  matchHere (invocation "agent") p "" = None.
Proof. apply invocation_never_empty. discriminate. Qed.

Lemma skill_pattern_never_empty (p : option ascii) :
  matchHere (invocation "skill") p "" = None.
Proof. apply invocation_never_empty. discriminate. Qed.

End NormLine.

(* ================================================================= *)
(** ** Lists without repetition *)

Module UniqFacts.

Section Uniq.
Variable A : Type.
Variable eqbA : A -> A -> bool.
Hypothesis eqbA_eq : forall x y, eqbA x y = true <-> x = y.

Lemma seen_In (x : A) (seen : list A) :
  existsb (eqbA x) seen = true <-> In x seen.
Proof.
  rewrite existsb_exists. split.
  - intros (y & Hin & Heq). apply eqbA_eq in Heq. now subst.
  - intro Hin. exists x. split; [exact Hin|]. now apply eqbA_eq.
Qed.

Lemma uniqFrom_NoDup (xs : list A) : forall seen,
  NoDup (Js.uniqFrom eqbA seen xs)
  /\ forall x, In x (Js.uniqFrom eqbA seen xs) <-> In x xs /\ ~ In x seen.
Proof.
  induction xs as [|x xs IH]; intro seen; simpl.
  - split; [constructor|]. intro x. tauto.
  - destruct (existsb (eqbA x) seen) eqn:E.
    + destruct (IH seen) as [Hnd Hin]. split; [exact Hnd|].
      intro y. rewrite Hin. apply seen_In in E. split.
      * intros [Hy Hn]. auto.
      * intros [[<-|Hy] Hn]; [contradiction|auto].
    + destruct (IH (x :: seen)) as [Hnd Hin]. split.
      * constructor; [|exact Hnd]. rewrite Hin. intros [_ Hn].
        apply Hn. left. reflexivity.
      * intro y. simpl. rewrite Hin. simpl. split.
        -- intros [<-|[Hy Hn]].
           ++ split; [left; reflexivity|]. intro Hs. apply seen_In in Hs.
              congruence.
           ++ split; [right; exact Hy|]. intro Hs. apply Hn. right. exact Hs.
        -- intros [[<-|Hy] Hn]; [left; reflexivity|].
           destruct (existsb (eqbA x) [y]) eqn:Exy.
           ++ simpl in Exy. rewrite orb_false_r in Exy.
              apply eqbA_eq in Exy. left. exact Exy.
           ++ right. split; [exact Hy|]. intros [Hxy|Hs]; [|contradiction].
              simpl in Exy. rewrite orb_false_r in Exy.
              assert (eqbA x y = true) by now apply eqbA_eq. congruence.
Qed.

Lemma uniq_NoDup (xs : list A) :
  NoDup (Js.uniq eqbA xs) /\ forall x, In x (Js.uniq eqbA xs) <-> In x xs.
Proof.
  unfold Js.uniq. destruct (uniqFrom_NoDup xs []) as [Hnd Hin].
  split; [exact Hnd|]. intro x. rewrite Hin. simpl. tauto.
Qed.

Lemma uniqFrom_length (xs : list A) : forall seen,
  List.length (Js.uniqFrom eqbA seen xs) <= List.length xs.
Proof.
  induction xs as [|x xs IH]; intro seen; simpl; [lia|].
  destruct (existsb (eqbA x) seen); simpl.
  - specialize (IH seen). lia.
  - specialize (IH (x :: seen)). lia.
Qed.
End Uniq.

Lemma ToolRef_eqb_spec (a b : Analyzer.ToolRef) :
  Analyzer.ToolRef_eqb a b = true <-> a = b.
Proof.
  destruct a as [x|x], b as [y|y]; simpl; split; intro H;
    try discriminate; try (apply String.eqb_eq in H; now subst);
    try (inversion H; apply String.eqb_refl).
Qed.

Lemma includes_In (xs : list string) (x : string) :
  Js.includes xs x = true <-> In x xs.
Proof. apply seen_In, String.eqb_eq. Qed.

Lemma uniqStrings_NoDup (xs : list string) :
  NoDup (Js.uniqStrings xs) /\ forall x, In x (Js.uniqStrings xs) <-> In x xs.
Proof. apply uniq_NoDup, String.eqb_eq. Qed.

End UniqFacts.

(* ================================================================= *)
(** ** The analyzer and the converters resolve tokens alike *)

Module Agreement.
Import Analyzer ToolLoop.

Lemma mapToolForFactory_toolMapped (acc : list ToolRef) (t : string) :
  mapToolForFactory acc t = (acc ++ toolMapped t)%list.
Proof.
  unfold mapToolForFactory, toolMapped. rewrite (test_exec MCP_TOOL_PATTERN).
  split_tool t; simpl; try destruct (String.eqb t "AskUserQuestion");
    simpl; rewrite ?app_nil_r; reflexivity.
Qed.

Lemma fold_mapToolForFactory_toolMapped (tools : list string) : forall acc,
  fold_left mapToolForFactory tools acc = (acc ++ flat_map toolMapped tools)%list.
Proof.
  induction tools as [|t tools IH]; intro acc; simpl.
  - now rewrite app_nil_r.
  - rewrite IH, mapToolForFactory_toolMapped, <- app_assoc. reflexivity.
Qed.

(** [mapToolsForFactory], which the converters call, returns the [mapped]
    array that [analyzeTools] reports for the same token list: the two loops
    are written apart in the source and agree on every input. *)
Theorem mapToolsForFactory_is_mapped_of_analyzeTools :
  forall tools : list string,
    mapToolsForFactory tools = mapped (analyzeTools tools).
Proof.
  intro tools. destruct (analyzeTools_fields tools) as (Hm & _).
  rewrite Hm. unfold mapToolsForFactory.
  rewrite fold_mapToolForFactory_toolMapped. reflexivity.
Qed.

End Agreement.

(* ================================================================= *)
(** ** What the token loop keeps *)

Module TokenFacts.
Import Analyzer ToolLoop Tokens UniqFacts.

Lemma toolUnmapped_hasNoTarget (t : string) :
  toolUnmapped t = if hasNoTarget t then [t] else [].
Proof.
  unfold toolUnmapped, hasNoTarget. rewrite (test_exec MCP_TOOL_PATTERN).
  split_tool t; simpl; try destruct (String.eqb t "AskUserQuestion");
    reflexivity.
Qed.

Lemma toolMapped_hasNoTarget (t : string) :
  List.length (toolMapped t) = if hasNoTarget t then 0 else 1.
Proof.
  unfold toolMapped, hasNoTarget. rewrite (test_exec MCP_TOOL_PATTERN).
  split_tool t; simpl; try destruct (String.eqb t "AskUserQuestion");
    reflexivity.
Qed.

Lemma flat_map_toolUnmapped (tools : list string) :
  flat_map toolUnmapped tools = filter hasNoTarget tools.
Proof.
  induction tools as [|t tools IH]; simpl; [reflexivity|].
  rewrite toolUnmapped_hasNoTarget, IH. destruct (hasNoTarget t); reflexivity.
Qed.

Lemma flat_map_toolMapped_length (tools : list string) :
  List.length (flat_map toolMapped tools)
  + List.length (filter hasNoTarget tools) = List.length tools.
Proof.
  induction tools as [|t tools IH]; simpl; [reflexivity|].
  rewrite length_app, toolMapped_hasNoTarget.
  destruct (hasNoTarget t); simpl; lia.
Qed.

(** Every token of the list is accounted for once: the tokens without a
    target make up [unmapped], in the order and with the repetitions of the
    list; every other token has its one target in [mapped], which holds no
    entry twice and no entry that is not the target of a listed token. *)
Theorem every_token_is_mapped_or_unmapped :
  forall tools : list string,
    let ta := analyzeTools tools in
    unmapped ta = filter hasNoTarget tools
    /\ NoDup (mapped ta)
    /\ List.length (mapped ta) + List.length (unmapped ta) <= List.length tools
    /\ (forall t, In t tools -> hasNoTarget t = false ->
                  exists r, toolMapped t = [r] /\ In r (mapped ta))
    /\ (forall r, In r (mapped ta) ->
                  exists t, In t tools /\ hasNoTarget t = false
                            /\ toolMapped t = [r]).
Proof.
  intros tools ta. subst ta.
  destruct (analyzeTools_fields tools) as (Hm & Hu & _).
  destruct (@uniq_NoDup _ ToolRef_eqb ToolRef_eqb_spec
              (flat_map toolMapped tools))
    as [Hnd Hin].
  rewrite Hm, Hu, flat_map_toolUnmapped.
  split; [reflexivity|]. split; [exact Hnd|]. split.
  { pose proof (flat_map_toolMapped_length tools) as Hlen.
    pose proof (uniqFrom_length ToolRef_eqb (flat_map toolMapped tools) [])
      as Hle.
    unfold Js.uniq. lia. }
  split.
  - intros t Ht Hno. pose proof (toolMapped_hasNoTarget t) as Hl.
    rewrite Hno in Hl. destruct (toolMapped t) as [|r [|r' l]] eqn:E;
      try discriminate Hl.
    exists r. split; [reflexivity|]. apply Hin, in_flat_map.
    exists t. split; [exact Ht|]. rewrite E. left. reflexivity.
  - intros r Hr. apply Hin, in_flat_map in Hr. destruct Hr as (t & Ht & Hr).
    exists t. pose proof (toolMapped_hasNoTarget t) as Hl.
    destruct (hasNoTarget t).
    + destruct (toolMapped t); [destruct Hr|discriminate Hl].
    + destruct (toolMapped t) as [|r0 [|r' l]] eqn:E; try discriminate Hl.
      destruct Hr as [<-|[]]. auto.
Qed.

(** *** Issues and the verdict *)

Lemma toolIssues_shape (t : string) :
  toolIssues t = []
  \/ (hasNoTarget t = true /\ notAsk t = true
      /\ (toolIssues t = [noEquivalent t] \/ toolIssues t = [unknownTool t])).
Proof.
  destruct (notAsk t) eqn:N.
  - unfold notAsk, ASK in N. apply negb_true_iff in N.
    unfold toolIssues, hasNoTarget, noEquivalent, unknownTool.
    rewrite (test_exec MCP_TOOL_PATTERN).
    split_tool t; simpl; rewrite ?N; simpl; auto.
  - apply notAsk_false in N. subst t. left. reflexivity.
Qed.

Lemma toolIssues_length (t : string) :
  List.length (toolIssues t) = if hasNoTarget t && notAsk t then 1 else 0.
Proof.
  destruct (notAsk t) eqn:N.
  - unfold notAsk, ASK in N. apply negb_true_iff in N.
    unfold toolIssues, hasNoTarget. rewrite (test_exec MCP_TOOL_PATTERN).
    split_tool t; simpl; rewrite ?N; reflexivity.
  - apply notAsk_false in N. subst t. reflexivity.
Qed.

Lemma issues_count (tools : list string) :
  List.length (flat_map toolIssues tools)
  = List.length (filter notAsk (flat_map toolUnmapped tools)).
Proof.
  induction tools as [|t tools IH]; simpl; [reflexivity|].
  rewrite length_app, filter_app, length_app, IH, toolIssues_length,
    toolUnmapped_hasNoTarget.
  destruct (hasNoTarget t); simpl; [destruct (notAsk t)|]; reflexivity.
Qed.

Lemma verdict_of_tools (tools : list string) :
  onlyAskUserUnmapped (unmapped (analyzeTools tools)) = true
  <-> ta_issues (analyzeTools tools) = [].
Proof.
  destruct (analyzeTools_fields tools) as (_ & Hu & Hi & _).
  rewrite Hu, Hi. unfold onlyAskUserUnmapped.
  change (fun t : string => negb (String.eqb t "AskUserQuestion")) with notAsk.
  rewrite Nat.eqb_eq, <- issues_count. apply length_zero_iff_nil.
Qed.

Lemma tool_issue_origin (tools : list string) (i : string) :
  In i (flat_map toolIssues tools) ->
  exists t, In t (filter hasNoTarget tools) /\ t <> ASK
            /\ (i = noEquivalent t \/ i = unknownTool t).
Proof.
  intro Hi. apply in_flat_map in Hi. destruct Hi as (t & Ht & Hi).
  exists t. destruct (toolIssues_shape t) as [E|(Hno & Hask & E)].
  - rewrite E in Hi. destruct Hi.
  - split; [apply filter_In; auto|]. split.
    + intro Heq. subst t. discriminate Hask.
    + destruct E as [E|E]; rewrite E in Hi; destruct Hi as [<-|[]]; auto.
Qed.

(** The parts of a result that come from the token list, for an artifact
    whose text was fetched. *)
Lemma analyze_fetched rf hg m (a : Artifact) (c : string) :
  fetched rf hg a = Some c ->
  let r := analyze rf hg m a in
  let ta := analyzeTools (declaredTools rf hg m a) in
  exists pre,
    (pre = [] \/ pre = [MISSING_NAME])
    /\ issues r = (pre ++ ta_issues ta)%list
    /\ compatible r = onlyAskUserUnmapped (unmapped ta)
    /\ score r = computeScore (issues r) (warnings r)
    /\ mappedTools r = mapped ta
    /\ unmappedTools r = unmapped ta
    /\ requiredMcps r = ta_requiredMcps ta.
Proof.
  intros Hf r ta. subst r ta. unfold declaredTools. rewrite Hf.
  destruct a as [f|f|s]; unfold analyze, fetched in *; cbn [toolsKey].
  - apply SoftUnmappedArtifact.fetch_returned in Hf. unfold analyzeAgent.
    rewrite Hf. destruct (splitFrontmatter m c) as [[fm body] w0].
    cbn [fst snd app compatible issues score warnings mappedTools
         unmappedTools requiredMcps].
    match goal with
    | |- context [if negb (Value.truthy ?n) then _ else _] =>
        destruct (Value.truthy n)
    end; cbn [negb]; [exists []|exists [MISSING_NAME]]; repeat split; auto.
  - apply SoftUnmappedArtifact.fetch_returned in Hf. unfold analyzeCommand.
    rewrite Hf. destruct (splitFrontmatter m c) as [[fm body] w0].
    cbn [fst snd app compatible issues score warnings mappedTools
         unmappedTools requiredMcps].
    exists []. repeat split; auto.
  - unfold analyzeSkill.
    destruct (find isMainSkillFile (files s)) as [sf|]; [|discriminate].
    apply SoftUnmappedArtifact.fetch_returned in Hf.
    rewrite Hf. destruct (splitFrontmatter m c) as [[fm body] w0].
    rewrite SoftUnmappedArtifact.analyzeTools_or_none.
    cbn [fst snd app compatible issues score warnings mappedTools
         unmappedTools requiredMcps].
    destruct (Value.truthy (Value.get "name" fm)); cbn [negb app];
      [exists []|exists [MISSING_NAME]]; repeat split; auto.
Qed.

Lemma analyze_not_fetched rf hg m (a : Artifact) :
  fetched rf hg a = None ->
  analyze rf hg m a = missingSkillFile
  \/ exists message, analyze rf hg m a = fetchFailure message.
Proof.
  intro Hf. destruct a as [f|f|s]; unfold analyze, fetched in *.
  - unfold analyzeAgent.
    destruct (fetchContent rf hg (file_src f) (file_srcType f)) as [c|msg];
      [discriminate|]. right. exists msg. reflexivity.
  - unfold analyzeCommand.
    destruct (fetchContent rf hg (file_src f) (file_srcType f)) as [c|msg];
      [discriminate|]. right. exists msg. reflexivity.
  - unfold analyzeSkill.
    destruct (find isMainSkillFile (files s)) as [sf|]; [|left; reflexivity].
    destruct (fetchContent rf hg (skillfile_src sf) (skillfile_srcType sf))
      as [c|msg]; [discriminate|]. right. exists msg. reflexivity.
Qed.

(** The verdict and the issues agree: a result is compatible exactly when
    it has no issue other than the missing name, which alone never makes an
    item incompatible; an incompatible result has an issue and scores 80 or
    less. *)
Theorem verdict_agrees_with_issues :
  forall (readFileSync httpGet : string -> Outcome string)
         (matter : string -> Outcome GrayMatterFile) (a : Artifact),
    let r := analyze readFileSync httpGet matter a in
    (compatible r = true <-> forall i, In i (issues r) -> i = MISSING_NAME)
    /\ (compatible r = false -> issues r <> [] /\ (score r <= 80)%Z).
Proof.
  intros rf hg m a r. subst r.
  destruct (fetched rf hg a) as [c|] eqn:Hf.
  - destruct (analyze_fetched rf hg m a Hf)
      as (pre & Hpre & Hi & Hc & Hs & _).
    rewrite Hc, Hs, Hi. clear Hc Hs Hi.
    set (tools := declaredTools rf hg m a).
    pose proof (verdict_of_tools tools) as Hv.
    destruct (analyzeTools_fields tools) as (_ & _ & Hti & _).
    split; [split|].
    + intros Hok i Hin. apply Hv in Hok. rewrite Hok, app_nil_r in Hin.
      destruct Hpre as [-> | ->]; [destruct Hin|].
      destruct Hin as [<-|[]]. reflexivity.
    + intro Hall. apply Hv.
      destruct (ta_issues (analyzeTools tools)) as [|i rest] eqn:E;
        [reflexivity|exfalso].
      assert (Hin : In i (flat_map toolIssues tools))
        by (rewrite <- Hti; left; reflexivity).
      destruct (tool_issue_origin tools i Hin) as (t & _ & _ & Hshape).
      assert (Hname : i = MISSING_NAME)
        by (apply Hall, in_or_app; right; left; reflexivity).
      destruct Hshape as [-> | ->]; discriminate Hname.
    + intro Hno.
      destruct (ta_issues (analyzeTools tools)) as [|i rest].
      * rewrite (proj2 Hv eq_refl) in Hno. discriminate Hno.
      * split; [destruct pre; discriminate|].
        unfold computeScore. rewrite length_app. cbn [List.length]. lia.
  - destruct (analyze_not_fetched rf hg m a Hf) as [-> | [msg ->]];
      cbn [compatible issues score missingSkillFile fetchFailure].
    + split; [split|].
      * discriminate.
      * intro Hall. specialize (Hall _ (or_introl eq_refl)). discriminate Hall.
      * intros _. split; [discriminate|lia].
    + split; [split|].
      * discriminate.
      * intro Hall. specialize (Hall _ (or_introl eq_refl)). discriminate Hall.
      * intros _. split; [discriminate|lia].
Qed.

(** Where an issue comes from: the fetch failed, the main file of a skill is
    missing, the name is missing, or a token of [unmappedTools] other than
    [AskUserQuestion] has no Factory equivalent or is unknown. *)
Theorem every_issue_has_a_cause :
  forall (readFileSync httpGet : string -> Outcome string)
         (matter : string -> Outcome GrayMatterFile) (a : Artifact) (i : string),
    let r := analyze readFileSync httpGet matter a in
    In i (issues r) ->
    (exists message, i = "Failed to fetch content: " ++ message)
    \/ i = "Missing SKILL.md file"
    \/ i = MISSING_NAME
    \/ exists t, In t (unmappedTools r) /\ t <> ASK
                 /\ (i = noEquivalent t \/ i = unknownTool t).
Proof.
  intros rf hg m a i r Hin. subst r.
  destruct (fetched rf hg a) as [c|] eqn:Hf.
  - destruct (analyze_fetched rf hg m a Hf)
      as (pre & Hpre & Hi & _ & _ & _ & Hu & _).
    rewrite Hi in Hin. rewrite Hu.
    destruct (analyzeTools_fields (declaredTools rf hg m a))
      as (_ & Htu & Hti & _).
    apply in_app_or in Hin. destruct Hin as [Hin|Hin].
    + destruct Hpre as [-> | ->]; [destruct Hin|].
      destruct Hin as [<-|[]]. auto.
    + rewrite Hti in Hin. rewrite Htu, flat_map_toolUnmapped.
      right. right. right. apply tool_issue_origin, Hin.
  - destruct (analyze_not_fetched rf hg m a Hf) as [E | [msg E]];
      rewrite E in Hin; destruct Hin as [<-|[]]; eauto.
Qed.

Lemma every_issue_has_a_cause_witness :
  let r := analyze Examples.disk Examples.offline
             (fun _ => Returned SampleWorld.notebookCommand)
             (CommandFile (mkDiscoveredFile "notebook" local "commands/notebook.md")) in
  let i := "Tool 'NotebookEdit' has no Factory equivalent" in
  In i (issues r)
  /\ ((exists message, i = "Failed to fetch content: " ++ message)
      \/ i = "Missing SKILL.md file"
      \/ i = MISSING_NAME
      \/ exists t, In t (unmappedTools r) /\ t <> ASK
                   /\ (i = noEquivalent t \/ i = unknownTool t)).
Proof.
  cbv zeta. split; [left; reflexivity|].
  apply every_issue_has_a_cause. left. reflexivity.
Defined.

End TokenFacts.

(* ================================================================= *)
(** ** The servers a token list requires *)

Module ServerFacts.
Import Analyzer ToolLoop Tokens UniqFacts.

Lemma mcpStep_serverOf (req : list string) (t : string) :
  mcpStep req t
  = match serverOf t with
    | Some s => if Js.includes req s then req else (req ++ [s])%list
    | None => req
    end.
Proof.
  unfold mcpStep, serverOf. split_tool t; cbn [ta_requiredMcps];
    try destruct (String.eqb t "AskUserQuestion"); try reflexivity.
  all: match goal with
       | |- context [Js.includes ?r ?x] => destruct (Js.includes r x)
       end; reflexivity.
Qed.

Lemma fold_mcpStep_spec (tools : list string) : forall req,
  NoDup req ->
  NoDup (fold_left mcpStep tools req)
  /\ forall s, In s (fold_left mcpStep tools req)
               <-> In s req \/ exists t, In t tools /\ serverOf t = Some s.
Proof.
  induction tools as [|t tools IH]; intros req Hnd; simpl.
  - split; [exact Hnd|]. intro s. split; [auto|].
    intros [H|(t & [] & _)]; exact H.
  - assert (Hstep : NoDup (mcpStep req t)
                    /\ forall s, In s (mcpStep req t)
                                 <-> In s req \/ serverOf t = Some s).
    { rewrite mcpStep_serverOf. destruct (serverOf t) as [s0|].
      - destruct (Js.includes req s0) eqn:E.
        + split; [exact Hnd|]. intro s. split; [auto|].
          intros [H|H]; [exact H|]. injection H as <-.
          apply includes_In, E.
        + split.
          * apply NoDup_app; [exact Hnd|repeat constructor; intros []|].
            intros s Hs [<-|[]]. apply includes_In in Hs. congruence.
          * intro s. rewrite in_app_iff. simpl. split.
            -- intros [H|[<-|[]]]; auto.
            -- intros [H|H]; [auto|]. injection H as <-. auto.
      - split; [exact Hnd|]. intro s. split; [auto|].
        intros [H|H]; [exact H|discriminate H]. }
    destruct Hstep as [Hnd' Hin'].
    destruct (IH (mcpStep req t) Hnd') as [Hnd'' Hin''].
    split; [exact Hnd''|]. intro s. rewrite Hin'', Hin'. split.
    + intros [[H|H]|(t' & Ht' & H)]; eauto.
    + intros [H|(t' & [<-|Ht'] & H)]; eauto.
Qed.

Lemma tool_warning_is_ask (tools : list string) (w : string) :
  In w (flat_map toolWarnings tools) -> w = ASK_WARNING.
Proof.
  intro Hw. apply in_flat_map in Hw. destruct Hw as (t & _ & Hw).
  destruct (SoftUnmapped.notAsk_spec t) as [[-> _]|[_ Hn]].
  - destruct Hw as [<-|[]]. reflexivity.
  - rewrite (proj1 (other_pushes t Hn)) in Hw. destruct Hw.
Qed.

(** [requiredMcps] lists each server once; a server is listed exactly when
    some token of the list takes the MCP branch and names it; and the
    warning [Requires MCP servers: ...] is raised exactly when the list of
    servers is not empty. *)
Theorem required_servers_are_those_of_the_tokens :
  forall tools : list string,
    let ta := analyzeTools tools in
    NoDup (ta_requiredMcps ta)
    /\ (forall s, In s (ta_requiredMcps ta)
                  <-> exists t, In t tools /\ serverOf t = Some s)
    /\ (In (mcpWarning (ta_requiredMcps ta)) (ta_warnings ta)
        <-> ta_requiredMcps ta <> []).
Proof.
  intros tools ta. subst ta.
  destruct (analyzeTools_fields tools) as (_ & _ & _ & Hw & _ & Hr).
  destruct (fold_mcpStep_spec tools (NoDup_nil string)) as [Hnd Hin].
  rewrite Hw, Hr. split; [exact Hnd|]. split.
  - intro s. rewrite Hin. simpl. split; [intros [[]|H]; exact H|auto].
  - destruct (fold_left mcpStep tools []) as [|s0 req]; cbn [List.length Nat.ltb Nat.leb].
    + rewrite app_nil_r. split; [|intro H; contradiction].
      intro H. apply tool_warning_is_ask in H. discriminate H.
    + split; [discriminate|]. intros _. apply in_or_app. right. left.
      reflexivity.
Qed.

End ServerFacts.

(* ================================================================= *)
(** ** More on the matcher: anchored patterns and character runs *)

Module ReMore.
Import Re ReFacts LineFacts.

Section Unfold.
Variables (ic ml : bool).

Lemma run_alt r1 r2 st k :
  run ic ml (Alt r1 r2) st k
  = match run ic ml r1 st k with
    | Some res => Some res
    | None => run ic ml r2 st k
    end.
Proof. reflexivity. Qed.

Lemma run_eps st k : run ic ml Eps st k = k st.
Proof. reflexivity. Qed.

Lemma run_chr_end p pv cs k :
  run ic ml (Chr p) (mkState pv "" cs) k = None.
Proof. reflexivity. Qed.

End Unfold.

Lemma search_here (re : RegExp) (p : option ascii) (s : string) (st : State) :
  matchHere re p s = Some st -> search re p s = Some ("", st).
Proof. intro H. destruct s; simpl; rewrite H; reflexivity. Qed.

(** A pattern that opens with [^] and has no [m] flag matches at the start
    of the text or nowhere. *)
Lemma anchored_later (re : RegExp) (r : regex) (c : ascii) (s : string) :
  pattern re = Seq Bol r -> multiline re = false ->
  matchHere re (Some c) s = None.
Proof.
  intros Hp Hm. unfold matchHere. rewrite Hp, Hm. reflexivity.
Qed.

Lemma anchored_search_later (re : RegExp) (r : regex) :
  pattern re = Seq Bol r -> multiline re = false ->
  forall s c, search re (Some c) s = None.
Proof.
  intros Hp Hm. induction s as [|c' s IH]; intro c; simpl;
    rewrite (anchored_later re c _ Hp Hm); [reflexivity|].
  rewrite IH. reflexivity.
Qed.

Lemma anchored_search (re : RegExp) (r : regex) (s : string) :
  pattern re = Seq Bol r -> multiline re = false ->
  search re None s
  = match matchHere re None s with
    | Some st => Some ("", st)
    | None => None
    end.
Proof.
  intros Hp Hm. destruct s as [|c s]; simpl;
    destruct (matchHere re None _); try reflexivity.
  rewrite (anchored_search_later re Hp Hm). reflexivity.
Qed.

Lemma anchored_test (re : RegExp) (r : regex) (s : string) :
  pattern re = Seq Bol r -> multiline re = false ->
  test re s = match matchHere re None s with Some _ => true | None => false end.
Proof.
  intros Hp Hm. unfold test. rewrite (anchored_search re s Hp Hm).
  destruct (matchHere re None s); reflexivity.
Qed.

Lemma anchored_exec (re : RegExp) (r : regex) (s : string) :
  pattern re = Seq Bol r -> multiline re = false ->
  exec re s = match matchHere re None s with
              | Some st => Some (caps st)
              | None => None
              end.
Proof.
  intros Hp Hm. unfold exec. rewrite (anchored_search re s Hp Hm).
  destruct (matchHere re None s); reflexivity.
Qed.

(** A greedy run over a character set, followed by something that needs
    the end of the text: it matches when the whole text is in the set. *)
Lemma iterate_chr_to_end (icase mline : bool) (p : ascii -> bool)
    (k : State -> option State) (cs : Captures) :
  (forall pv c t cs', k (mkState pv (String c t) cs') = None) ->
  forall (w : string) (pv : option ascii) (fuel : nat),
    String.length w <= fuel ->
    iterate (run icase mline (Chr p)) k fuel (mkState pv w cs)
    = if allAccepted icase p w then k (mkState (lastChar pv w) "" cs) else None.
Proof.
  intro Hk.
  set (m := run icase mline (Chr p)).
  assert (Hm : forall st k0,
             m st k0 = match rest st with
                       | EmptyString => None
                       | String c t =>
                           if accepts icase p c
                           then k0 (mkState (Some c) t (caps st)) else None
                       end) by reflexivity.
  clearbody m.
  induction w as [|c w IH]; intros pv fuel Hfuel.
  - destruct fuel as [|fuel]; simpl; [reflexivity|]. rewrite Hm. reflexivity.
  - destruct fuel as [|fuel]; [simpl in Hfuel; lia|].
    cbn [iterate]. rewrite Hm. cbn [rest caps]. unfold allAccepted.
    cbn [list_ascii_of_string forallb]. fold (allAccepted icase p w).
    destruct (accepts icase p c); cbn [andb]; [|apply Hk].
    assert (Hlt : (String.length w <? String.length (String c w)) = true)
      by (apply Nat.ltb_lt; simpl; lia).
    rewrite Hlt. rewrite IH by (simpl in Hfuel; lia).
    cbn [lastChar].
    destruct (allAccepted icase p w); [|apply Hk].
    destruct (k (mkState (lastChar (Some c) w) "" cs)); [reflexivity|apply Hk].
Qed.

(** With nothing after it, a greedy run always matches. *)
Lemma iterate_total (m : State -> (State -> option State) -> option State)
    (fuel : nat) (st : State) :
  iterate m Some fuel st <> None.
Proof.
  destruct fuel; simpl; [discriminate|].
  destruct (m st _); discriminate.
Qed.

Lemma allAccepted_app (icase : bool) (p : ascii -> bool) (a b : string) :
  allAccepted icase p (a ++ b) = allAccepted icase p a && allAccepted icase p b.
Proof.
  unfold allAccepted. induction a as [|c a IH]; simpl; [reflexivity|].
  rewrite IH, andb_assoc. reflexivity.
Qed.

End ReMore.

(* ================================================================= *)
(** ** Names *)

Module NameFacts.
Import Re ReFacts LineFacts ReMore.

Lemma eol_needs_end (ic : bool) pv c t cs :
  run ic false Eol (mkState pv (String c t) cs) Some = None.
Proof. reflexivity. Qed.

(** A pattern [^[set]+$] without the [m] flag accepts the texts that are
    not empty and lie within the set. *)
Lemma whole_text_in_set (ic : bool) (p : ascii -> bool) (s : string) :
  test (mkRegExp (seqs [Bol; Plus (Chr p); Eol]) ic false) s
  = negb (String.eqb s "") && allAccepted ic p s.
Proof.
  rewrite (@anchored_test _ (seqs [Plus (Chr p); Eol])) by reflexivity.
  unfold matchHere. cbn [pattern ignoreCase multiline seqs]. unfold Plus.
  rewrite run_seq, run_bol. cbn [atBol prev].
  destruct s as [|c s]; [reflexivity|].
  rewrite !run_seq, run_chr. unfold allAccepted.
  cbn [String.eqb negb andb list_ascii_of_string forallb].
  fold (allAccepted ic p s).
  destruct (accepts ic p c); [|reflexivity]. cbn [andb].
  rewrite run_star. cbn [rest].
  rewrite iterate_chr_to_end; [|intros; reflexivity|lia].
  destruct (allAccepted ic p s); reflexivity.
Qed.
End NameFacts.

Module NamePatterns.
Import Re ReFacts LineFacts ReMore NameFacts Analyzer Tokens.

Lemma name_class_ignoring_case (c : ascii) :
  accepts true droidNameChar c = nameChar c.
Proof.
  destruct c as [[] [] [] [] [] [] [] []]; reflexivity.
Qed.

Lemma forallb_ext_in (p q : ascii -> bool) (l : list ascii) :
  (forall c, p c = q c) -> forallb p l = forallb q l.
Proof.
  intro H. induction l as [|c l IH]; simpl; [reflexivity|].
  rewrite H, IH. reflexivity.
Qed.

(** The name checks, as sets of texts: [isLikelyDroidName] accepts the
    non-empty texts over lower-case letters, digits, [_] and [-];
    [NAME_PATTERN], which has the [i] flag, accepts upper-case letters as
    well, so every name the normalizer takes for a droid name passes the name
    check of [analyzeAgent]. *)
Theorem name_checks_as_sets :
  forall s : string,
    Normalizer.isLikelyDroidName s
    = negb (String.eqb s "")
      && forallb droidNameChar (list_ascii_of_string s)
    /\ test NAME_PATTERN s
       = negb (String.eqb s "") && forallb nameChar (list_ascii_of_string s)
    /\ (Normalizer.isLikelyDroidName s = true -> test NAME_PATTERN s = true).
Proof.
  intro s.
  assert (H1 : Normalizer.isLikelyDroidName s
               = negb (String.eqb s "")
                 && forallb droidNameChar (list_ascii_of_string s)).
  { unfold Normalizer.isLikelyDroidName.
    change (fun c : ascii => Js.isLower c || Js.isDigit c
                             || (Js.code c =? 95) || (Js.code c =? 45))
      with droidNameChar.
    rewrite whole_text_in_set. reflexivity. }
  assert (H2 : test NAME_PATTERN s
               = negb (String.eqb s "")
                 && forallb nameChar (list_ascii_of_string s)).
  { unfold NAME_PATTERN.
    change (fun c : ascii => Js.isLower c || Js.isDigit c
                             || (Js.code c =? 95) || (Js.code c =? 45))
      with droidNameChar.
    rewrite whole_text_in_set. unfold allAccepted.
    rewrite (forallb_ext_in _ nameChar _ name_class_ignoring_case).
    reflexivity. }
  split; [exact H1|]. split; [exact H2|].
  rewrite H1, H2. intro H. apply andb_true_iff in H. destruct H as [Hne Hall].
  rewrite Hne. cbn [andb]. rewrite forallb_forall in Hall |- *.
  intros c Hc. specialize (Hall c Hc). unfold droidNameChar in Hall.
  unfold nameChar.
  destruct (Js.isLower c), (Js.isDigit c), (Js.code c =? 95),
    (Js.code c =? 45), (Js.isUpper c); try reflexivity; discriminate Hall.
Qed.

End NamePatterns.

(* ================================================================= *)
(** ** Shell restrictions *)

Module Restrictions.
Import Re ReFacts LineFacts ReMore Analyzer Tokens.

Lemma run_to_closing_paren (cs : Captures) :
  forall (r : string) (pv : option ascii) (fuel : nat),
    allAccepted false anyChar r = true ->
    String.length (r ++ ")") <= fuel ->
    iterate (run false false (Chr anyChar))
      (fun st => run false false (Seq (lit ")") Eol) st Some)
      fuel (mkState pv (r ++ ")") cs)
    = Some (mkState (Some ")"%char) "" cs).
Proof.
  set (k := fun st => run false false (Seq (lit ")") Eol) st Some).
  set (m := run false false (Chr anyChar)).
  assert (Hm : forall st k0,
             m st k0 = match rest st with
                       | EmptyString => None
                       | String c t =>
                           if accepts false anyChar c
                           then k0 (mkState (Some c) t (caps st)) else None
                       end) by reflexivity.
  clearbody m.
  induction r as [|c r IH]; intros pv fuel Hall Hfuel.
  - destruct fuel as [|fuel]; [simpl in Hfuel; lia|].
    cbn [append iterate]. rewrite Hm. cbn [rest caps].
    change (accepts false anyChar ")") with true. cbv iota.
    change (String.length "" <? String.length ")") with true. cbv iota.
    destruct fuel as [|fuel]; cbn [iterate]; [reflexivity|].
    rewrite Hm. reflexivity.
  - destruct fuel as [|fuel]; [simpl in Hfuel; lia|].
    unfold allAccepted in Hall. cbn [list_ascii_of_string forallb] in Hall.
    apply andb_true_iff in Hall. destruct Hall as [Hc Hr].
    cbn [append iterate]. rewrite Hm. cbn [rest caps]. rewrite Hc.
    assert (Hlt : (String.length (r ++ ")")
                   <? String.length (String c (r ++ ")"))) = true)
      by (apply Nat.ltb_lt; simpl; lia).
    rewrite Hlt. rewrite IH; [reflexivity|exact Hr|simpl in Hfuel; lia].
Qed.

Lemma restriction_tail (r : string) (pv : option ascii) (cs : Captures) :
  r <> "" -> oneLine r = true ->
  run false false (seqs [lit "("; Plus dot; lit ")"; Eol])
    (mkState pv (String "(" (r ++ ")")) cs) Some
  = Some (mkState (Some ")"%char) "" cs).
Proof.
  intros Hne Hline. destruct r as [|c r]; [contradiction|].
  unfold oneLine in Hline. cbn [list_ascii_of_string forallb] in Hline.
  apply andb_true_iff in Hline. destruct Hline as [Hc Hr].
  cbn [seqs append]. unfold Plus, dot. fold anyChar.
  rewrite run_seq. unfold lit at 1. rewrite run_chr.
  change (accepts false (Ascii.eqb "(") "(") with true. cbv iota.
  rewrite !run_seq, run_chr.
  change (accepts false anyChar c) with (anyChar c). unfold anyChar at 1.
  rewrite Hc. rewrite run_star. cbn [rest].
  apply run_to_closing_paren; [exact Hr|lia].
Qed.

Lemma restriction_matches (r : string) :
  r <> "" -> oneLine r = true ->
  test BASH_RESTRICTION_PATTERN ("Bash(" ++ r ++ ")") = true
  /\ test BASH_RESTRICTION_PATTERN ("Execute(" ++ r ++ ")") = true.
Proof.
  intros Hne Hline.
  split; rewrite (@anchored_test _ (seqs [Group 1 (Alt (str "Bash") (str "Execute"));
                                         lit "("; Plus dot; lit ")"; Eol]))
    by reflexivity;
  unfold matchHere, BASH_RESTRICTION_PATTERN;
  cbn [pattern ignoreCase multiline];
  change (seqs [Bol; Group 1 (Alt (str "Bash") (str "Execute"));
                lit "("; Plus dot; lit ")"; Eol])
    with (Seq Bol (Seq (Group 1 (Alt (str "Bash") (str "Execute")))
                     (seqs [lit "("; Plus dot; lit ")"; Eol])));
  set (tailp := seqs [lit "("; Plus dot; lit ")"; Eol]);
  rewrite run_seq, run_bol; cbn [atBol prev];
  rewrite run_seq, run_group, run_alt; cbn [str append]; unfold lit;
  chars; cbn [prev rest caps]; subst tailp;
  rewrite (restriction_tail _ _ Hne Hline); reflexivity.
Qed.
End Restrictions.

Module ShellTokens.
Import Re ReMore Analyzer Tokens Restrictions.

Lemma restricted_token (t : string) :
  Js.includes FACTORY_TOOLS t = false ->
  exec MCP_TOOL_PATTERN t = None ->
  test BASH_RESTRICTION_PATTERN t = true ->
  analyzeTools [t] = mkToolAnalysis [Named "Execute"] [] [] [] [] [].
Proof.
  intros Hf Hm Hb. unfold analyzeTools. cbn [fold_left].
  unfold analyzeTool. rewrite Hf, Hm, Hb. reflexivity.
Qed.

(** A shell restriction collapses to [Execute], whatever the restriction:
    [Bash(...)] and [Execute(...)] around any text that is not empty and has
    no line break map to [Execute], with no issue and no warning. *)
Theorem shell_restriction_maps_to_Execute :
  forall r : string,
    r <> "" -> oneLine r = true ->
    analyzeTools ["Bash(" ++ r ++ ")"]
    = mkToolAnalysis [Named "Execute"] [] [] [] [] []
    /\ analyzeTools ["Execute(" ++ r ++ ")"]
       = mkToolAnalysis [Named "Execute"] [] [] [] [] []
    /\ mapToolsForFactory ["Bash(" ++ r ++ ")"; "Execute(" ++ r ++ ")"]
       = [Named "Execute"].
Proof.
  intros r Hne Hline.
  destruct (restriction_matches Hne Hline) as [Hb He].
  assert (Hmb : exec MCP_TOOL_PATTERN ("Bash(" ++ r ++ ")") = None)
    by (rewrite (@anchored_exec _ (seqs [str "mcp__"; Group 1 (Plus (Chr nameChar));
                                       Opt (Seq (str "__") (Group 2 (Plus dot)));
                                       Eol])) by reflexivity; reflexivity).
  assert (Hme : exec MCP_TOOL_PATTERN ("Execute(" ++ r ++ ")") = None)
    by (rewrite (@anchored_exec _ (seqs [str "mcp__"; Group 1 (Plus (Chr nameChar));
                                       Opt (Seq (str "__") (Group 2 (Plus dot)));
                                       Eol])) by reflexivity; reflexivity).
  split; [apply restricted_token; [reflexivity|exact Hmb|exact Hb]|].
  split; [apply restricted_token; [reflexivity|exact Hme|exact He]|].
  unfold mapToolsForFactory. cbn [fold_left]. unfold mapToolForFactory.
  rewrite !ToolLoop.test_exec, Hmb, Hme, <- !ToolLoop.test_exec, Hb, He.
  reflexivity.
Qed.

Lemma shell_restriction_maps_to_Execute_witness :
  analyzeTools ["Bash(git commit:*)"]
  = mkToolAnalysis [Named "Execute"] [] [] [] [] []
  /\ analyzeTools ["Execute(git commit:*)"]
     = mkToolAnalysis [Named "Execute"] [] [] [] [] []
  /\ mapToolsForFactory ["Bash(git commit:*)"; "Execute(git commit:*)"]
     = [Named "Execute"].
Proof.
  apply (@shell_restriction_maps_to_Execute "git commit:*");
    [discriminate|reflexivity].
Defined.

End ShellTokens.

(* ================================================================= *)
(** ** Strings: reversal, trimming, splitting and joining *)

Module StringFacts.
Import Tokens.

Lemma append_nil_r (s : string) : s ++ "" = s.
Proof. induction s as [|c s IH]; simpl; [reflexivity|now rewrite IH]. Qed.

Lemma append_assoc (a b c : string) : (a ++ b) ++ c = a ++ b ++ c.
Proof. induction a as [|x a IH]; simpl; [reflexivity|now rewrite IH]. Qed.

Lemma chars_app (a b : string) : chars (a ++ b) = (chars a ++ chars b)%list.
Proof. induction a as [|x a IH]; simpl; [reflexivity|now rewrite IH]. Qed.

Lemma rev_acc (s : string) : forall acc, Js.rev s acc = Js.rev s "" ++ acc.
Proof.
  induction s as [|c s IH]; intro acc; simpl; [reflexivity|].
  rewrite IH, (IH (String c "")), append_assoc. reflexivity.
Qed.

Lemma rev_app (a b : string) :
  Js.rev (a ++ b) "" = Js.rev b "" ++ Js.rev a "".
Proof.
  induction a as [|c a IH]; simpl; [now rewrite append_nil_r|].
  rewrite rev_acc, IH, (rev_acc a (String c "")), append_assoc. reflexivity.
Qed.

Lemma rev_cons (c : ascii) (s : string) :
  Js.rev (String c s) "" = Js.rev s "" ++ String c "".
Proof. simpl. apply rev_acc. Qed.

Lemma rev_involutive (s : string) : Js.rev (Js.rev s "") "" = s.
Proof.
  induction s as [|c s IH]; [reflexivity|].
  rewrite rev_cons, rev_app, IH. reflexivity.
Qed.

Lemma chars_rev (s : string) : chars (Js.rev s "") = List.rev (chars s).
Proof.
  induction s as [|c s IH]; [reflexivity|].
  rewrite rev_cons, chars_app, IH. reflexivity.
Qed.

Lemma forallb_rev (A : Type) (p : A -> bool) (l : list A) :
  forallb p (List.rev l) = forallb p l.
Proof.
  induction l as [|x l IH]; simpl; [reflexivity|].
  rewrite forallb_app, IH. simpl. rewrite andb_true_r. apply andb_comm.
Qed.

(** *** Trimming *)

Lemma trimStart_keeps (q : ascii -> bool) (s : string) :
  forallb q (chars s) = true -> forallb q (chars (Js.trimStart s)) = true.
Proof.
  induction s as [|c s IH]; simpl; [auto|]. intro H.
  destruct (Js.isSpace c); [|exact H].
  apply andb_true_iff in H. apply IH, H.
Qed.

Lemma trimEnd_keeps (q : ascii -> bool) (s : string) :
  forallb q (chars s) = true -> forallb q (chars (Js.trimEnd s)) = true.
Proof.
  intro H. unfold Js.trimEnd. rewrite chars_rev, forallb_rev.
  apply trimStart_keeps. rewrite chars_rev, forallb_rev. exact H.
Qed.

Lemma trim_keeps (q : ascii -> bool) (s : string) :
  forallb q (chars s) = true -> forallb q (chars (Js.trim s)) = true.
Proof. intro H. apply trimEnd_keeps, trimStart_keeps, H. Qed.

Lemma trimStart_head (s : string) :
  match Js.trimStart s with
  | EmptyString => True
  | String c _ => Js.isSpace c = false
  end.
Proof.
  induction s as [|c s IH]; simpl; [exact I|].
  destruct (Js.isSpace c) eqn:E; [exact IH|exact E].
Qed.

Lemma trimStart_fixed (s : string) :
  match s with EmptyString => True | String c _ => Js.isSpace c = false end ->
  Js.trimStart s = s.
Proof. destruct s as [|c s]; simpl; [reflexivity|]. intros ->. reflexivity. Qed.

Lemma trimStart_idem (s : string) :
  Js.trimStart (Js.trimStart s) = Js.trimStart s.
Proof. apply trimStart_fixed, trimStart_head. Qed.

Lemma trimStart_blank (pad t : string) :
  blank pad = true -> Js.trimStart (pad ++ t) = Js.trimStart t.
Proof.
  unfold blank. induction pad as [|c pad IH]; simpl; [reflexivity|].
  intro H. apply andb_true_iff in H. destruct H as [-> H]. apply IH, H.
Qed.

Lemma trimStart_before (x : string) (c : ascii) (z : string) :
  Js.isSpace c = false ->
  exists y, Js.trimStart (x ++ String c z) = y ++ String c z.
Proof.
  intro Hc. induction x as [|d x IH]; simpl.
  - rewrite Hc. exists "". reflexivity.
  - destruct (Js.isSpace d); [exact IH|].
    exists (String d x). reflexivity.
Qed.

Lemma trimEnd_cons (c : ascii) (t : string) :
  Js.isSpace c = false -> exists t', Js.trimEnd (String c t) = String c t'.
Proof.
  intro Hc. unfold Js.trimEnd. rewrite rev_cons.
  destruct (@trimStart_before (Js.rev t "") c "" Hc) as [y ->].
  rewrite rev_app. simpl. eexists. reflexivity.
Qed.

Lemma trimEnd_idem (s : string) : Js.trimEnd (Js.trimEnd s) = Js.trimEnd s.
Proof.
  unfold Js.trimEnd. rewrite rev_involutive, trimStart_idem. reflexivity.
Qed.

Lemma trim_idem (s : string) : Js.trim (Js.trim s) = Js.trim s.
Proof.
  unfold Js.trim. pose proof (trimStart_head s) as Hh.
  destruct (Js.trimStart s) as [|c u] eqn:E; [reflexivity|].
  destruct (trimEnd_cons c u Hh) as [t' Ht']. rewrite Ht'.
  rewrite (@trimStart_fixed (String c t')) by exact Hh.
  rewrite <- Ht'. apply trimEnd_idem.
Qed.

Lemma trim_blank_prefix (pad t : string) :
  blank pad = true -> Js.trim (pad ++ t) = Js.trim t.
Proof. intro H. unfold Js.trim. rewrite trimStart_blank by exact H. reflexivity. Qed.

(** The first and the last character of a trimmed text are no white
    space. *)
Lemma trim_ends (s : string) :
  match Js.trim s with
  | EmptyString => True
  | String c _ => Js.isSpace c = false
  end
  /\ match Js.rev (Js.trim s) "" with
     | EmptyString => True
     | String c _ => Js.isSpace c = false
     end.
Proof.
  split.
  - rewrite <- trim_idem. unfold Js.trim at 1.
    pose proof (trimStart_head (Js.trim s)) as Hh.
    destruct (Js.trimStart (Js.trim s)) as [|c u]; [exact I|].
    destruct (trimEnd_cons c u Hh) as [t' ->]. exact Hh.
  - unfold Js.trim, Js.trimEnd. rewrite rev_involutive. apply trimStart_head.
Qed.

(** A text that trims to nothing is white space throughout. *)
Lemma trimStart_empty (s : string) : Js.trimStart s = "" -> blank s = true.
Proof.
  unfold blank. induction s as [|c s IH]; simpl; [reflexivity|].
  destruct (Js.isSpace c); [exact IH|discriminate].
Qed.

Lemma rev_empty (s : string) : Js.rev s "" = "" -> s = "".
Proof.
  intro H. rewrite <- (rev_involutive s), H. reflexivity.
Qed.

Lemma trim_empty (s : string) : Js.trim s = "" -> blank s = true.
Proof.
  unfold Js.trim, Js.trimEnd. intro H. apply rev_empty in H.
  apply trimStart_empty in H. unfold blank in H.
  fold chars in H. rewrite chars_rev, forallb_rev in H.
  pose proof (trimStart_head s) as Hh.
  destruct (Js.trimStart s) as [|c u] eqn:E.
  - apply trimStart_empty, E.
  - simpl in H. rewrite Hh in H. discriminate H.
Qed.

(** *** Splitting and joining *)

Lemma splitOn_piece (sep : ascii) (t : string) : forall cur rest,
  free sep t = true ->
  Js.splitOn sep (t ++ String sep rest) cur
  = (Js.rev cur "" ++ t) :: Js.splitOn sep rest "".
Proof.
  unfold free. induction t as [|c t IH]; intros cur rest H; simpl in *.
  - rewrite Ascii.eqb_refl, append_nil_r. reflexivity.
  - apply andb_true_iff in H. destruct H as [Hc Ht].
    apply negb_true_iff in Hc. rewrite Hc, IH by exact Ht.
    rewrite rev_cons, append_assoc. reflexivity.
Qed.

Lemma splitOn_last (sep : ascii) (t : string) : forall cur,
  free sep t = true -> Js.splitOn sep t cur = [Js.rev cur "" ++ t].
Proof.
  unfold free. induction t as [|c t IH]; intros cur H; simpl in *.
  - rewrite append_nil_r. reflexivity.
  - apply andb_true_iff in H. destruct H as [Hc Ht].
    apply negb_true_iff in Hc. rewrite Hc, IH by exact Ht.
    rewrite rev_cons, append_assoc. reflexivity.
Qed.

Lemma splitOn_free (sep : ascii) (s : string) : forall cur,
  free sep cur = true ->
  forallb (free sep) (Js.splitOn sep s cur) = true.
Proof.
  induction s as [|c s IH]; intros cur H; simpl.
  - rewrite andb_true_r. unfold free. rewrite chars_rev, forallb_rev. exact H.
  - destruct (Ascii.eqb c sep) eqn:E; simpl.
    + rewrite IH by reflexivity. rewrite andb_true_r.
      unfold free. rewrite chars_rev, forallb_rev. exact H.
    + apply IH. unfold free in *. simpl. rewrite E. exact H.
Qed.

Lemma free_app (sep : ascii) (a b : string) :
  free sep (a ++ b) = free sep a && free sep b.
Proof. unfold free. rewrite chars_app, forallb_app. reflexivity. Qed.

Lemma split_join (sep : ascii) (pad : string) (tools : list string) :
  free sep pad = true ->
  forall (pre t : string),
    free sep pre = true ->
    forallb (free sep) (t :: tools) = true ->
    Js.splitOn sep (pre ++ Js.join (String sep pad) (t :: tools)) ""
    = (pre ++ t) :: map (fun x => pad ++ x) tools.
Proof.
  intro Hpad. induction tools as [|t2 tools IH]; intros pre t Hpre Hall.
  - cbn [Js.join map]. simpl in Hall. rewrite andb_true_r in Hall.
    rewrite splitOn_last by (rewrite free_app, Hpre, Hall; reflexivity).
    reflexivity.
  - cbn [forallb] in Hall. apply andb_true_iff in Hall.
    destruct Hall as [Ht Hall].
    change (Js.join (String sep pad) (t :: t2 :: tools))
      with (t ++ String sep pad ++ Js.join (String sep pad) (t2 :: tools)).
    rewrite <- append_assoc.
    change ((pre ++ t) ++ String sep pad ++ Js.join (String sep pad) (t2 :: tools))
      with ((pre ++ t) ++ String sep (pad ++ Js.join (String sep pad) (t2 :: tools))).
    rewrite splitOn_piece by (rewrite free_app, Hpre, Ht; reflexivity).
    rewrite IH by assumption. reflexivity.
Qed.

Lemma space_is_no_comma (c : ascii) :
  Js.isSpace c = true -> Ascii.eqb c "," = false.
Proof.
  intro H. destruct (Ascii.eqb_spec c ","%char) as [->|]; [discriminate H|reflexivity].
Qed.

Lemma blank_free (pad : string) : blank pad = true -> free "," pad = true.
Proof.
  unfold blank, free. fold chars. induction (chars pad) as [|c l IH]; simpl;
    [reflexivity|].
  intro H. apply andb_true_iff in H. destruct H as [Hc Hl].
  rewrite (space_is_no_comma c Hc), IH by exact Hl. reflexivity.
Qed.

Lemma free_comma (t : string) :
  negb (existsb (Ascii.eqb ",") (list_ascii_of_string t)) = free "," t.
Proof.
  unfold free. fold chars. induction (chars t) as [|c l IH];
    cbn [existsb forallb]; [reflexivity|].
  rewrite negb_orb, IH, (Ascii.eqb_sym "," c). reflexivity.
Qed.

End StringFacts.

(* ================================================================= *)
(** ** Comma-separated token lists *)

Module CommaLists.
Import Analyzer Tokens StringFacts.

Lemma piece_is_plain (x : string) :
  free "," x = true ->
  negb (String.eqb (Js.trim x) "") = true ->
  plainToken (Js.trim x) = true.
Proof.
  intros Hfree Hne. unfold plainToken.
  rewrite Hne, trim_idem, String.eqb_refl, free_comma. cbn [andb].
  apply trim_keeps, Hfree.
Qed.

Lemma split_tokens_plain (s : string) :
  forallb plainToken
    (filter (fun t => negb (String.eqb t "")) (map Js.trim (Js.split "," s)))
  = true.
Proof.
  unfold Js.split.
  pose proof (splitOn_free "," s "" eq_refl) as Hfree.
  induction (Js.splitOn "," s "") as [|x l IH]; [reflexivity|].
  cbn [forallb] in Hfree. apply andb_true_iff in Hfree.
  destruct Hfree as [Hx Hl]. cbn [map filter].
  destruct (negb (String.eqb (Js.trim x) "")) eqn:E; [|apply IH, Hl].
  cbn [forallb]. rewrite (piece_is_plain x Hx E). apply IH, Hl.
Qed.

(** The tokens read from a comma-separated text are plain: none is empty,
    none has white space at an end or a comma inside; and the converters
    split the text into the same tokens as the analyzer. *)
Theorem tokens_of_a_comma_list_are_plain :
  forall s : string,
    forallb plainToken (parseTools (JStr s)) = true
    /\ parseTools (JStr s) = Converters.splitTools s.
Proof.
  intro s. unfold parseTools, Converters.splitTools. cbn [Value.truthy].
  destruct (String.eqb_spec s "") as [->|Hne]; cbn [negb].
  - split; reflexivity.
  - split; [apply split_tokens_plain|reflexivity].
Qed.

Lemma plain_parts (t : string) :
  plainToken t = true ->
  String.eqb t "" = false /\ Js.trim t = t /\ free "," t = true.
Proof.
  unfold plainToken. rewrite free_comma. intro H.
  apply andb_true_iff in H. destruct H as [H Hfree].
  apply andb_true_iff in H. destruct H as [Hne Htrim].
  apply negb_true_iff in Hne. apply String.eqb_eq in Htrim. auto.
Qed.

Lemma plain_free (tools : list string) :
  forallb plainToken tools = true -> forallb (free ",") tools = true.
Proof.
  induction tools as [|t tools IH]; simpl; [reflexivity|]. intro H.
  apply andb_true_iff in H. destruct H as [Ht Hl].
  destruct (plain_parts t Ht) as (_ & _ & ->). apply IH, Hl.
Qed.

Lemma trim_padded (pad : string) (tools : list string) :
  blank pad = true -> forallb plainToken tools = true ->
  filter (fun t => negb (String.eqb t ""))
    (map Js.trim (map (fun x => pad ++ x) tools)) = tools.
Proof.
  intro Hpad. induction tools as [|t tools IH]; simpl; [reflexivity|].
  intro H. apply andb_true_iff in H. destruct H as [Ht Hl].
  destruct (plain_parts t Ht) as (Hne & Htrim & _).
  rewrite trim_blank_prefix, Htrim, Hne by exact Hpad. cbn [negb].
  rewrite IH by exact Hl. reflexivity.
Qed.

Lemma split_joined (pad : string) (tools : list string) :
  blank pad = true -> forallb plainToken tools = true ->
  filter (fun t => negb (String.eqb t ""))
    (map Js.trim (Js.split "," (Js.join (String "," pad) tools))) = tools.
Proof.
  intros Hpad Hall. destruct tools as [|t tools]; [reflexivity|].
  unfold Js.split.
  pose proof (@split_join "," pad tools (blank_free pad Hpad) "" t eq_refl
                (plain_free _ Hall)) as E.
  cbn [append] in E. rewrite E. clear E.
  cbn [forallb] in Hall. apply andb_true_iff in Hall. destruct Hall as [Ht Hl].
  destruct (plain_parts t Ht) as (Hne & Htrim & _).
  cbn [map filter]. rewrite Htrim, Hne. cbn [negb].
  rewrite trim_padded by assumption. reflexivity.
Qed.

Lemma joined_not_empty (sep t : string) (tools : list string) :
  String.eqb t "" = false -> String.eqb (Js.join sep (t :: tools)) "" = false.
Proof.
  intro Hne. destruct t as [|c t]; [discriminate Hne|].
  destruct tools; reflexivity.
Qed.

(** Writing a list of plain tokens with commas (and any white space after
    each comma) and reading it back gives the list: [parseTools] and the
    converters' split invert [join]. *)
Theorem parseTools_inverts_join :
  forall (tools : list string) (pad : string),
    forallb plainToken tools = true ->
    blank pad = true ->
    parseTools (JStr (Js.join ("," ++ pad) tools)) = tools
    /\ Converters.splitTools (Js.join ("," ++ pad) tools) = tools.
Proof.
  intros tools pad Hall Hpad. cbn [append].
  split; [|apply split_joined; assumption].
  unfold parseTools. cbn [Value.truthy].
  destruct tools as [|t tools]; [reflexivity|].
  assert (Hne : String.eqb t "" = false).
  { cbn [forallb] in Hall. apply andb_true_iff in Hall.
    destruct Hall as [Ht _]. apply (plain_parts t Ht). }
  rewrite (@joined_not_empty _ t tools Hne). cbn [negb].
  apply split_joined; assumption.
Qed.

Lemma parseTools_inverts_join_witness :
  parseTools (JStr "Read, Grep, mcp__github__create_issue")
  = ["Read"; "Grep"; "mcp__github__create_issue"]
  /\ Converters.splitTools "Read, Grep, mcp__github__create_issue"
     = ["Read"; "Grep"; "mcp__github__create_issue"].
Proof.
  apply (@parseTools_inverts_join
           ["Read"; "Grep"; "mcp__github__create_issue"] " ");
    reflexivity.
Defined.

End CommaLists.

Module McpTokens.
Import Re ReFacts LineFacts ReMore Analyzer Tokens.

Lemma mcp_name_matches (c : ascii) (w : string) :
  nameChar c = true -> allAccepted false nameChar w = true ->
  matchHere MCP_TOOL_PATTERN None ("mcp__" ++ String c w)
  = Some (mkState (lastChar (Some c) w) "" [(1, String c w)]).
Proof.
  intros Hc Hw. unfold matchHere, MCP_TOOL_PATTERN.
  cbn [pattern ignoreCase multiline seqs str append].
  set (after := Seq (Opt (Seq (Seq (lit "_") (lit "_")) (Group 2 (Plus dot)))) Eol).
  unfold Plus, lit.
  rewrite run_seq, run_bol. cbn [atBol prev].
  chars. rewrite run_group, run_seq, run_chr.
  change (accepts false nameChar c) with (nameChar c). rewrite Hc.
  rewrite run_star. cbn [rest].
  rewrite <- (StringFacts.append_nil_r w) at 1 2.
  eapply iterate_chr with (tail := ""); [reflexivity|exact Hw| |].
  { rewrite StringFacts.append_nil_r. lia. }
  cbn [prev rest caps]. subst after. unfold Opt.
  rewrite run_seq, run_alt, !run_seq. unfold lit. rewrite run_chr_end.
  rewrite run_eps, run_eol. cbn [atEol rest caps prev].
  pose proof (substring_prefix (String c w) "") as E.
  rewrite StringFacts.append_nil_r in E. cbn [String.length] in E |- *.
  rewrite E. reflexivity.
Qed.

(** A namespaced token made of name characters after [mcp__] is kept as it
    is, and the server recorded for it is the whole text after [mcp__],
    separators and tool name included. *)
Theorem mcp_token_names_its_whole_tail :
  forall w : string,
    w <> "" -> forallb nameChar (list_ascii_of_string w) = true ->
    serverOf ("mcp__" ++ w) = Some w
    /\ analyzeTools ["mcp__" ++ w]
       = mkToolAnalysis [Named ("mcp__" ++ w)] [] [w] []
           ["Requires MCP servers: " ++ w] [].
Proof.
  intros w Hne Hall. destruct w as [|c w]; [contradiction|].
  cbn [list_ascii_of_string forallb] in Hall.
  apply andb_true_iff in Hall. destruct Hall as [Hc Hw].
  assert (Hexec : exec MCP_TOOL_PATTERN ("mcp__" ++ String c w)
                  = Some [(1, String c w)]).
  { rewrite (@anchored_exec _ (seqs [str "mcp__"; Group 1 (Plus (Chr nameChar));
                                     Opt (Seq (str "__") (Group 2 (Plus dot)));
                                     Eol])) by reflexivity.
    rewrite (mcp_name_matches c w Hc Hw). reflexivity. }
  split.
  - unfold serverOf. rewrite Hexec. reflexivity.
  - unfold analyzeTools. cbn [fold_left]. unfold analyzeTool.
    rewrite Hexec. reflexivity.
Qed.

Lemma mcp_token_names_its_whole_tail_witness :
  serverOf "mcp__github__create_issue" = Some "github__create_issue"
  /\ analyzeTools ["mcp__github__create_issue"]
     = mkToolAnalysis [Named "mcp__github__create_issue"] []
         ["github__create_issue"] []
         ["Requires MCP servers: github__create_issue"] [].
Proof.
  apply (@mcp_token_names_its_whole_tail "github__create_issue");
    [discriminate|reflexivity].
Defined.

End McpTokens.

(* ================================================================= *)
(** ** The normalizer on whole texts *)

Module NormWhole.
Import Re ReFacts LineFacts ReMore ReplaceFacts Normalizer NormFacts Texts.

Lemma clean_text_is_kept (input : string) (options : NormalizeOptions) :
  noLegacyPattern input = true ->
  normalizeText input options = mkNormalizeResult input false [] [] [] [] [].
Proof.
  intro H. unfold noLegacyPattern in H.
  apply andb_true_iff in H. destruct H as [H Hskill].
  apply andb_true_iff in H. destruct H as [Hask Hagent].
  apply negb_true_iff in Hask.
  unfold normalizeText, replaceAskUserQuestion. rewrite Hask.
  rewrite (@replaceAllWith_none _ (invocation "agent")
             (agentCallback (availableDroids options))
             NormLine.agent_pattern_never_empty) by exact Hagent.
  rewrite (@replaceAllWith_none _ (invocation "skill")
             (skillCallback (availableSkills options))
             NormLine.skill_pattern_never_empty) by exact Hskill.
  rewrite String.eqb_refl. reflexivity.
Qed.

(** A text in which none of the legacy patterns occurs comes back as it
    is, whatever the options: unchanged, without a header, without notes and
    with no name referenced. *)
Theorem text_without_legacy_pattern_is_kept :
  forall (input : string) (options : NormalizeOptions),
    noLegacyPattern input = true ->
    normalizeText input options
    = mkNormalizeResult input false [] [] [] [] [].
Proof. intros input options. apply clean_text_is_kept. Qed.

Lemma text_without_legacy_pattern_is_kept_witness :
  normalizeText "# Review

Run the checks, then summarize the findings.
" (mkOptions (Some ["reviewer"]) None command None)
  = mkNormalizeResult "# Review

Run the checks, then summarize the findings.
" false [] [] [] [] [].
Proof.
  apply text_without_legacy_pattern_is_kept. reflexivity.
Defined.

(** *** What the callbacks keep *)

Section Invariant.
Variable St : Type.
Variable re : RegExp.
Variable f : string -> Captures -> St -> string * St.
Variable P : St -> Prop.
Hypothesis f_keeps : forall m groups acc, P acc -> P (snd (f m groups acc)).

Lemma replaceFrom_keeps (fuel : nat) : forall p s acc,
  P acc -> P (snd (replaceFrom re f fuel p s acc)).
Proof.
  induction fuel as [|fuel IH]; intros p s acc Hacc; simpl; [exact Hacc|].
  destruct (matchHere re p s) as [st|].
  - pose proof (f_keeps (substring 0 (String.length s - String.length (rest st)) s)
                  (caps st) Hacc) as Hf.
    destruct (f _ (caps st) acc) as [out acc1]. simpl in Hf.
    destruct (String.length s - String.length (rest st)) as [|n].
    + destruct s as [|c t]; [exact Hf|].
      specialize (IH (Some c) t acc1 Hf).
      destruct (replaceFrom re f fuel (Some c) t acc1). exact IH.
    + specialize (IH (prev st) (rest st) acc1 Hf).
      destruct (replaceFrom re f fuel (prev st) (rest st) acc1). exact IH.
  - destruct s as [|c t]; [exact Hacc|].
    specialize (IH (Some c) t acc Hacc).
    destruct (replaceFrom re f fuel (Some c) t acc). exact IH.
Qed.

Lemma replaceAllWith_keeps (s : string) (acc : St) :
  P acc -> P (snd (replaceAllWith re f s acc)).
Proof. apply replaceFrom_keeps. Qed.
End Invariant.

Lemma filter_snoc (A : Type) (g : A -> bool) (l : list A) (x : A) :
  filter g (l ++ [x]) = (filter g l ++ if g x then [x] else [])%list.
Proof. rewrite filter_app. reflexivity. Qed.

Lemma agentCallback_keeps (available : option (list string)) m groups acc :
  snd acc = notAvailable available (fst acc) ->
  snd (snd (agentCallback available m groups acc))
  = notAvailable available (fst (snd (agentCallback available m groups acc))).
Proof.
  intro H. unfold agentCallback, notAvailable in *.
  set (name := stripQuotes (Js.trim (captured 2 groups))).
  destruct (has available name) eqn:E; [|destruct (isLikelyDroidName name)];
    cbn [fst snd]; rewrite filter_snoc, E, H; cbn [negb];
    rewrite ?app_nil_r; reflexivity.
Qed.

Lemma skillCallback_keeps (available : option (list string)) m groups acc :
  snd acc = notAvailable available (fst acc) ->
  snd (snd (skillCallback available m groups acc))
  = notAvailable available (fst (snd (skillCallback available m groups acc))).
Proof.
  intro H. unfold skillCallback, notAvailable in *.
  set (name := stripQuotes (Js.trim (captured 2 groups))).
  destruct (has available name) eqn:E;
    cbn [fst snd]; rewrite filter_snoc, E, H; cbn [negb];
    rewrite ?app_nil_r; reflexivity.
Qed.

Lemma uniqFrom_filter (g : string -> bool) (l : list string) : forall seen,
  Js.uniqFrom String.eqb (filter g seen) (filter g l)
  = filter g (Js.uniqFrom String.eqb seen l).
Proof.
  induction l as [|x l IH]; intro seen; simpl; [reflexivity|].
  destruct (g x) eqn:Gx; simpl.
  - assert (Hseen : existsb (String.eqb x) (filter g seen)
                    = existsb (String.eqb x) seen).
    { clear IH. induction seen as [|y seen IHs]; simpl; [reflexivity|].
      destruct (g y) eqn:Gy; simpl; rewrite IHs; [reflexivity|].
      destruct (String.eqb_spec x y) as [->|]; [congruence|reflexivity]. }
    rewrite Hseen. destruct (existsb (String.eqb x) seen); [apply IH|].
    simpl. rewrite Gx. f_equal. specialize (IH (x :: seen)).
    simpl in IH. rewrite Gx in IH. exact IH.
  - destruct (existsb (String.eqb x) seen); [apply IH|].
    simpl. rewrite Gx. specialize (IH (x :: seen)).
    simpl in IH. rewrite Gx in IH. exact IH.
Qed.

Lemma uniqStrings_filter (g : string -> bool) (l : list string) :
  Js.uniqStrings (filter g l) = filter g (Js.uniqStrings l).
Proof. apply (uniqFrom_filter g l []). Qed.

(** The unresolved names are the referenced names that the set of
    available names does not hold, in the same order; both lists are free
    of repetitions. With no set given every referenced name is
    unresolved. *)
Theorem unresolved_names_are_the_unavailable_references :
  forall (input : string) (options : NormalizeOptions),
    let r := normalizeText input options in
    unresolvedDroids r
    = notAvailable (availableDroids options) (referencedDroids r)
    /\ unresolvedSkills r
       = notAvailable (availableSkills options) (referencedSkills r)
    /\ NoDup (referencedDroids r) /\ NoDup (referencedSkills r)
    /\ (availableDroids options = None ->
        unresolvedDroids r = referencedDroids r).
Proof.
  intros input o r. subst r. unfold normalizeText.
  destruct (replaceAskUserQuestion input) as [t1 n1].
  pose proof (@replaceAllWith_keeps _ (invocation "agent")
                (agentCallback (availableDroids o))
                (fun acc => snd acc = notAvailable (availableDroids o) (fst acc))
                (agentCallback_keeps (availableDroids o))
                t1 ([], []) eq_refl) as Hd.
  destruct (replaceAllWith (invocation "agent") _ t1 ([], []))
    as [t2 [rd ud]]. cbn [fst snd] in Hd.
  pose proof (@replaceAllWith_keeps _ (invocation "skill")
                (skillCallback (availableSkills o))
                (fun acc => snd acc = notAvailable (availableSkills o) (fst acc))
                (skillCallback_keeps (availableSkills o))
                t2 ([], []) eq_refl) as Hs.
  destruct (replaceAllWith (invocation "skill") _ t2 ([], []))
    as [t3 [rs us]]. cbn [fst snd] in Hs.
  cbn [unresolvedDroids referencedDroids unresolvedSkills referencedSkills].
  subst ud us. unfold notAvailable. rewrite !uniqStrings_filter.
  split; [reflexivity|]. split; [reflexivity|].
  split; [apply UniqFacts.uniqStrings_NoDup|].
  split; [apply UniqFacts.uniqStrings_NoDup|].
  intros ->. cbn [has negb]. clear.
  induction (Js.uniqStrings rd) as [|x l IH]; simpl; [reflexivity|].
  now rewrite IH.
Qed.

End NormWhole.

Module NormHeader.
Import Re ReFacts LineFacts ReMore Normalizer StringFacts.



End NormHeader.

(* ================================================================= *)
(** ** Lines that invoke an agent or a skill *)

Module InvocationFacts.
Import Re ReFacts LineFacts ReMore ReplaceFacts Normalizer NormFacts Texts
  Tokens StringFacts.

Lemma accepts_member (ic : bool) (p : ascii -> bool) (c : ascii) :
  p c = true -> accepts ic p c = true.
Proof. intro H. unfold accepts. rewrite H. destruct ic; reflexivity. Qed.

Lemma allAccepted_members (ic : bool) (p : ascii -> bool) (s : string) :
  forallb p (list_ascii_of_string s) = true -> allAccepted ic p s = true.
Proof.
  unfold allAccepted. induction (list_ascii_of_string s) as [|c l IH]; simpl;
    [reflexivity|].
  intro H. apply andb_true_iff in H. destruct H as [Hc Hl].
  rewrite (accepts_member ic p c Hc), IH by exact Hl. reflexivity.
Qed.

Lemma accepts_space (c : ascii) : accepts true Js.isSpace c = Js.isSpace c.
Proof. destruct c as [[] [] [] [] [] [] [] []]; reflexivity. Qed.

Lemma accepts_nonSpace (c : ascii) :
  accepts true (fun c => negb (Js.isSpace c)) c = negb (Js.isSpace c).
Proof. destruct c as [[] [] [] [] [] [] [] []]; reflexivity. Qed.

Lemma lastChar_app (a b : string) : forall p,
  lastChar p (a ++ b) = lastChar (lastChar p a) b.
Proof. induction a as [|c a IH]; intro p; simpl; [reflexivity|apply IH]. Qed.

Lemma space_is_no_tab_or_space_miss (c : ascii) :
  Js.isLineTerminator c = true -> Js.isSpace c = true.
Proof.
  intro H. destruct (lineTerminator_cases c H) as [-> | ->]; reflexivity.
Qed.

Section Keyword.
Variable kw : string.
Hypothesis kw_run : forall pv tail cs k,
  run true true (str kw) (mkState pv (kw ++ tail) cs) k
  = k (mkState (lastChar pv kw) tail cs).
Hypothesis kw_head : forall tail,
  headRejected true tabOrSpace (kw ++ tail) = true.

Lemma invocation_matches (p : option ascii)
    (indent ws name more after : string) :
  match p with None => true | Some c => Js.isLineTerminator c end = true ->
  invocationLine indent ws name more = true ->
  endsLine after = true ->
  matchHere (invocation kw) p (indent ++ kw ++ ws ++ name ++ more ++ after)
  = Some (mkState (lastChar p (indent ++ kw ++ ws ++ name ++ more)) after
            [(3, more); (2, name); (1, indent)]).
Proof.
  intros Hp Hline Hafter. unfold invocationLine in Hline.
  repeat (apply andb_true_iff in Hline; destruct Hline as [Hline ?]).
  rename Hline into Hindent.
  destruct ws as [|s1 ws]; [discriminate|].
  destruct name as [|n1 name]; [discriminate|].
  repeat match goal with
         | H : forallb _ (list_ascii_of_string (String _ _)) = true |- _ =>
             cbn [list_ascii_of_string forallb] in H;
             apply andb_true_iff in H; destruct H
         end.
  unfold matchHere, invocation.
  cbn [pattern ignoreCase multiline seqs].
  unfold Plus, space, nonSpace, dot.
  rewrite run_seq, run_bol.
  replace (atBol true _) with true
    by (unfold atBol; cbn [prev]; destruct p; [symmetry; exact Hp|reflexivity]).
  rewrite run_seq, run_group, run_star. cbn [rest].
  eapply iterate_chr with (w := indent);
    [ apply kw_head | apply allAccepted_members; assumption
    | rewrite length_append; lia | ].
  cbv beta. cbn [prev rest caps].
  rewrite run_seq, kw_run.
  cbn [append]. rewrite !run_seq, run_chr, accepts_space.
  match goal with H : Js.isSpace s1 = true |- _ => rewrite H end.
  rewrite run_star. cbn [rest].
  eapply iterate_chr with (w := ws) (tail := String n1 (name ++ more ++ after));
    [ cbn [headRejected]; rewrite accepts_space;
      match goal with H : negb (Js.isSpace n1) = true |- _ => exact H end
    | apply allAccepted_members; assumption
    | rewrite length_append; lia | ].
  cbn [prev rest caps].
  rewrite run_seq, run_group, run_seq, run_chr, accepts_nonSpace.
  match goal with H : negb (Js.isSpace n1) = true |- _ => rewrite H end.
  rewrite run_star. cbn [rest].
  eapply iterate_chr with (w := name) (tail := more ++ after);
    [ | apply allAccepted_members; assumption
      | rewrite length_append; lia | ].
  { destruct more as [|r1 more]; cbn [append headRejected].
    - destruct after as [|a1 after]; [reflexivity|].
      cbn [headRejected]. rewrite accepts_nonSpace. cbn [endsLine] in Hafter.
      rewrite (space_is_no_tab_or_space_miss a1 Hafter). reflexivity.
    - rewrite accepts_nonSpace.
      match goal with H : Js.isSpace r1 = true |- _ => rewrite H end.
      reflexivity. }
  cbv beta. cbn [prev rest caps].
  rewrite run_seq, run_group, run_star. cbn [rest].
  eapply iterate_chr with (w := more) (tail := after);
    [ apply dot_rejects_line_end, Hafter
    | apply allAccepted_members; assumption
    | rewrite length_append; lia | ].
  cbv beta. cbn [prev rest caps].
  rewrite run_eol.
  replace (atEol true _) with true
    by (unfold atEol; cbn [rest]; destruct after;
        [reflexivity|symmetry; exact Hafter]).
  cbn [prev rest caps].
  pose proof (substring_prefix more after) as E3.
  pose proof (substring_prefix (String n1 name) (more ++ after)) as E2.
  pose proof (substring_prefix indent
                (kw ++ String s1 ws ++ String n1 name ++ more ++ after)) as E1.
  cbn [append] in E1, E2, E3 |- *.
  rewrite E1, E2, E3.
  rewrite !lastChar_app. cbn [lastChar]. rewrite !lastChar_app.
  cbn [lastChar]. rewrite ?lastChar_app. reflexivity.
Qed.
End Keyword.

Lemma agent_run pv tail cs k :
  run true true (str "agent") (mkState pv ("agent" ++ tail) cs) k
  = k (mkState (lastChar pv "agent") tail cs).
Proof. cbn [str append]. unfold lit. chars. reflexivity. Qed.

Lemma skill_run pv tail cs k :
  run true true (str "skill") (mkState pv ("skill" ++ tail) cs) k
  = k (mkState (lastChar pv "skill") tail cs).
Proof. cbn [str append]. unfold lit. chars. reflexivity. Qed.

Lemma trim_fixed (s : string) :
  forallb (fun c => negb (Js.isSpace c)) (list_ascii_of_string s) = true ->
  Js.trim s = s.
Proof.
  intro H. unfold Js.trim, Js.trimEnd.
  assert (Hfix : forall u,
             forallb (fun c => negb (Js.isSpace c)) (chars u) = true ->
             Js.trimStart u = u).
  { intros u Hu. apply trimStart_fixed. destruct u as [|c u]; [exact I|].
    simpl in Hu. apply andb_true_iff in Hu. destruct Hu as [Hc _].
    now apply negb_true_iff in Hc. }
  rewrite (Hfix s H), Hfix, rev_involutive; [reflexivity|].
  rewrite chars_rev, forallb_rev. exact H.
Qed.

End InvocationFacts.

Module InvocationLines.
Import Re ReFacts LineFacts ReMore ReplaceFacts Normalizer NormFacts Texts
  Tokens StringFacts InvocationFacts.

Lemma line_in_context (indent kw ws name more after : string) :
  (indent ++ kw ++ ws ++ name ++ more) ++ after
  = indent ++ kw ++ ws ++ name ++ more ++ after.
Proof. rewrite !append_assoc. reflexivity. Qed.

Lemma line_not_empty (indent kw x : string) :
  kw <> "" -> indent ++ kw ++ x <> "".
Proof.
  intros Hkw H. destruct indent; [|discriminate H].
  destruct kw; [contradiction|discriminate H].
Qed.

Lemma agent_head (tail : string) :
  headRejected true tabOrSpace ("agent" ++ tail) = true.
Proof. reflexivity. Qed.

Lemma skill_head (tail : string) :
  headRejected true tabOrSpace ("skill" ++ tail) = true.
Proof. reflexivity. Qed.

Lemma name_of_line (indent ws name more : string) :
  invocationLine indent ws name more = true -> Js.trim name = name.
Proof.
  unfold invocationLine. intro H.
  repeat (apply andb_true_iff in H; destruct H as [H ?]).
  apply trim_fixed. assumption.
Qed.

Lemma phrase_in_context (phrase before tail : string) :
  (forall p, exists st,
     matchHere (mkRegExp (str phrase) false false) p (phrase ++ tail) = Some st) ->
  test (mkRegExp (str phrase) false false) (before ++ phrase ++ tail) = true.
Proof. intro H. apply test_in_context, H. Qed.

Lemma task_phrase_is_noted (before indent tail : string) :
  test (mkRegExp (str "Use Task tool with subagent_type") false false)
    (before ++ (indent ++ "Use Task tool with subagent_type `" ++ tail))
  = true.
Proof.
  rewrite <- append_assoc.
  apply (@test_in_context _ (before ++ indent)
           ("Use Task tool with subagent_type `" ++ tail)).
  intro p. eexists. vm_compute. reflexivity.
Qed.

Lemma skill_phrase_is_noted (before indent tail : string) :
  test (mkRegExp (str "Use Skill tool:") false false)
    (before ++ (indent ++ "Use Skill tool: `" ++ tail))
  = true.
Proof.
  rewrite <- append_assoc.
  apply (@test_in_context _ (before ++ indent) ("Use Skill tool: `" ++ tail)).
  intro p. eexists. vm_compute. reflexivity.
Qed.

(** A line [<indent>agent <name><rest>] that stands alone in a text
    without other legacy patterns becomes [<indent>Use Task tool with
    subagent_type `<name>`<mark><rest>], where the name has lost the quotes
    around it and the mark says whether it is known: none for an available
    droid, [(if available)] for a likely droid name, [(legacy name; may not
    exist)] otherwise. The text around the line is kept, the name is the one
    referenced droid, and it is unresolved unless it is available. *)
Theorem agent_invocation_is_rewritten :
  forall (before indent ws name more after : string)
         (droids skills : option (list string))
         (kind : FileKind) (addHeaderNote : option bool),
    let line := indent ++ "agent" ++ ws ++ name ++ more in
    let n := stripQuotes name in
    let mark := if has droids n then ""
                else if isLikelyDroidName n then " (if available)"
                     else " (legacy name; may not exist)" in
    let out := indent ++ "Use Task tool with subagent_type `" ++ n ++ "`"
                 ++ mark ++ more in
    let rewritten := before ++ out ++ after in
    invocationLine indent ws name more = true ->
    onlyInvocation "agent" before line after = true ->
    matchesNowhereIn (invocation "skill") None rewritten "" = true ->
    let r := normalizeText (before ++ line ++ after)
               (mkOptions droids skills kind addHeaderNote) in
    let noted :=
      "converted agent invocations"
      :: (if test (mkRegExp (str "Use Skill tool:") false false) rewritten
          then ["converted skill invocations"] else []) in
    text r = (if wantsHeader addHeaderNote && negb (alreadyHasHeaderNote rewritten)
              then headerNote kind noted else "") ++ rewritten
    /\ changed r = true
    /\ notes r = noted
    /\ referencedDroids r = [n]
    /\ unresolvedDroids r = (if has droids n then [] else [n])
    /\ referencedSkills r = [] /\ unresolvedSkills r = [].
Proof.
  intros before indent ws name more after droids skills kind hdr
    line n mark out rewritten Hline Honly Hskill r noted.
  unfold onlyInvocation in Honly.
  repeat (apply andb_true_iff in Honly; destruct Honly as [Honly ?]).
  match goal with H : negb _ = true |- _ => apply negb_true_iff in H end.
  subst r. unfold normalizeText, replaceAskUserQuestion.
  match goal with H : test _ _ = false |- _ => rewrite H end.
  cbn [availableDroids availableSkills fileKind Normalizer.addHeaderNote].
  rewrite (@replaceAllWith_single _ (invocation "agent") (agentCallback droids)
             NormLine.agent_pattern_never_empty
             before line after
             (mkState (lastChar (lastChar None before) line) after
                [(3, more); (2, name); (1, indent)]));
    [ | assumption
      | subst line; rewrite line_in_context;
        apply (@invocation_matches "agent" agent_run agent_head); assumption
      | reflexivity
      | subst line; apply line_not_empty; discriminate
      | cbn [prev]; rewrite <- lastChar_app; assumption ].
  assert (Hcb : agentCallback droids line [(3, more); (2, name); (1, indent)]
                  ([], [])
                = (out, ([n], if has droids n then [] else [n]))).
  { unfold agentCallback.
    change (captured 1 [(3, more); (2, name); (1, indent)]) with indent.
    change (captured 2 [(3, more); (2, name); (1, indent)]) with name.
    change (captured 3 [(3, more); (2, name); (1, indent)]) with more.
    rewrite (name_of_line _ _ _ _ Hline). fold n. subst out mark.
    destruct (has droids n); [|destruct (isLikelyDroidName n)]; reflexivity. }
  cbn [caps]. rewrite Hcb. cbn [fst snd]. fold rewritten.
  rewrite (@replaceAllWith_none _ (invocation "skill") (skillCallback skills)
             NormLine.skill_pattern_never_empty) by exact Hskill.
  assert (Hchanged : String.eqb rewritten (before ++ line ++ after) = false).
  { subst rewritten out line. rewrite eqb_common_prefix, !append_assoc.
    rewrite eqb_common_prefix. reflexivity. }
  rewrite Hchanged.
  assert (Hnote : test (mkRegExp (str "Use Task tool with subagent_type")
                          false false) rewritten = true).
  { subst rewritten out. rewrite !append_assoc. apply task_phrase_is_noted. }
  rewrite Hnote.
  cbn [negb andb app text changed notes referencedDroids unresolvedDroids
       referencedSkills unresolvedSkills].
  subst noted. unfold wantsHeader.
  destruct (test (mkRegExp (str "Use Skill tool:") false false) rewritten);
    destruct hdr as [[|]|];
    destruct (alreadyHasHeaderNote rewritten);
    destruct (has droids n);
    repeat split.
Qed.

Lemma agent_invocation_is_rewritten_witness :
  let r := normalizeText "Steps:
  agent 'code-reviewer' on the diff
Done.
" (mkOptions (Some ["code-reviewer"]) None command (Some false)) in
  text r = "Steps:
  Use Task tool with subagent_type `code-reviewer` on the diff
Done.
"
  /\ changed r = true
  /\ referencedDroids r = ["code-reviewer"]
  /\ unresolvedDroids r = [].
Proof.
  destruct (@agent_invocation_is_rewritten
              "Steps:
" "  " " " "'code-reviewer'" " on the diff" "
Done.
" (Some ["code-reviewer"]) None command (Some false) eq_refl eq_refl eq_refl)
    as (Htext & Hchanged & _ & Href & Hunres & _).
  repeat split; assumption.
Defined.

(** The same for a line [<indent>skill <name><rest>]: it becomes
    [<indent>Use Skill tool: `<name>`<mark><rest>], with the mark
    [(if available)] unless the skill is available. *)
Theorem skill_invocation_is_rewritten :
  forall (before indent ws name more after : string)
         (droids skills : option (list string))
         (kind : FileKind) (addHeaderNote : option bool),
    let line := indent ++ "skill" ++ ws ++ name ++ more in
    let n := stripQuotes name in
    let mark := if has skills n then "" else " (if available)" in
    let out := indent ++ "Use Skill tool: `" ++ n ++ "`" ++ mark ++ more in
    let rewritten := before ++ out ++ after in
    invocationLine indent ws name more = true ->
    onlyInvocation "skill" before line after = true ->
    matchesNowhereIn (invocation "agent") None (before ++ line ++ after) ""
    = true ->
    let r := normalizeText (before ++ line ++ after)
               (mkOptions droids skills kind addHeaderNote) in
    let noted :=
      ((if test (mkRegExp (str "Use Task tool with subagent_type") false false)
             rewritten
        then ["converted agent invocations"] else [])
       ++ ["converted skill invocations"])%list in
    text r = (if wantsHeader addHeaderNote && negb (alreadyHasHeaderNote rewritten)
              then headerNote kind noted else "") ++ rewritten
    /\ changed r = true
    /\ notes r = noted
    /\ referencedSkills r = [n]
    /\ unresolvedSkills r = (if has skills n then [] else [n])
    /\ referencedDroids r = [] /\ unresolvedDroids r = [].
Proof.
  intros before indent ws name more after droids skills kind hdr
    line n mark out rewritten Hline Honly Hagent r noted.
  unfold onlyInvocation in Honly.
  repeat (apply andb_true_iff in Honly; destruct Honly as [Honly ?]).
  match goal with H : negb _ = true |- _ => apply negb_true_iff in H end.
  subst r. unfold normalizeText, replaceAskUserQuestion.
  match goal with H : test _ _ = false |- _ => rewrite H end.
  cbn [availableDroids availableSkills fileKind Normalizer.addHeaderNote].
  rewrite (@replaceAllWith_none _ (invocation "agent") (agentCallback droids)
             NormLine.agent_pattern_never_empty) by exact Hagent.
  rewrite (@replaceAllWith_single _ (invocation "skill") (skillCallback skills)
             NormLine.skill_pattern_never_empty
             before line after
             (mkState (lastChar (lastChar None before) line) after
                [(3, more); (2, name); (1, indent)]));
    [ | assumption
      | subst line; rewrite line_in_context;
        apply (@invocation_matches "skill" skill_run skill_head); assumption
      | reflexivity
      | subst line; apply line_not_empty; discriminate
      | cbn [prev]; rewrite <- lastChar_app; assumption ].
  assert (Hcb : skillCallback skills line [(3, more); (2, name); (1, indent)]
                  ([], [])
                = (out, ([n], if has skills n then [] else [n]))).
  { unfold skillCallback.
    change (captured 1 [(3, more); (2, name); (1, indent)]) with indent.
    change (captured 2 [(3, more); (2, name); (1, indent)]) with name.
    change (captured 3 [(3, more); (2, name); (1, indent)]) with more.
    rewrite (name_of_line _ _ _ _ Hline). fold n. subst out mark.
    destruct (has skills n); reflexivity. }
  cbn [caps]. rewrite Hcb. cbn [fst snd]. fold rewritten.
  assert (Hchanged : String.eqb rewritten (before ++ line ++ after) = false).
  { subst rewritten out line. rewrite eqb_common_prefix, !append_assoc.
    rewrite eqb_common_prefix. reflexivity. }
  rewrite Hchanged.
  assert (Hnote : test (mkRegExp (str "Use Skill tool:") false false)
                    rewritten = true).
  { subst rewritten out. rewrite !append_assoc. apply skill_phrase_is_noted. }
  rewrite Hnote.
  cbn [negb andb app text changed notes referencedDroids unresolvedDroids
       referencedSkills unresolvedSkills].
  subst noted. unfold wantsHeader.
  destruct (test (mkRegExp (str "Use Task tool with subagent_type") false false)
              rewritten);
    destruct hdr as [[|]|];
    destruct (alreadyHasHeaderNote rewritten);
    destruct (has skills n);
    repeat split.
Qed.

Lemma skill_invocation_is_rewritten_witness :
  let r := normalizeText "Before you start:
	skill pdf-tools
" (mkOptions None None droid None) in
  text r = "<!-- Factory Import Normalizer (droid): converted skill invocations -->

Before you start:
	Use Skill tool: `pdf-tools` (if available)
"
  /\ changed r = true
  /\ referencedSkills r = ["pdf-tools"]
  /\ unresolvedSkills r = ["pdf-tools"].
Proof.
  destruct (@skill_invocation_is_rewritten
              "Before you start:
" "	" " " "pdf-tools" "" "
" None None droid None eq_refl eq_refl eq_refl)
    as (Htext & Hchanged & _ & Href & Hunres & _).
  repeat split; assumption.
Defined.

End InvocationLines.

(* ================================================================= *)
(** ** The replacement scan, part by part *)

Module ScanFacts.
Import Re ReFacts ReplaceFacts StringFacts.


Section Scanning.
Variable St : Type.
Variable re : RegExp.
Variable f : string -> Captures -> St -> string * St.





Hypothesis ends_line : forall p s st,
  matchHere re p s = Some st -> endsLine (rest st) = true.


End Scanning.
End ScanFacts.

(* ================================================================= *)
(** ** Where an invocation can match *)

Module MatchEnds.
Import Re ReFacts LineFacts ReplaceFacts Tokens ScanFacts Normalizer.











End MatchEnds.

(* ================================================================= *)
(** ** The line of scenario B *)

Module AgentLine.
Import Re ReFacts LineFacts ReplaceFacts ScanFacts MatchEnds Normalizer.


(** A text without [AskUserQuestion] goes to the [agent] rewrite as it
    is. *)
Lemma text_without_mention_is_passed_on (input : string) :
  test (mkRegExp (str "AskUserQuestion") false false) input = false ->
  fst (replaceAskUserQuestion input) = input.
Proof. intro H. unfold replaceAskUserQuestion. rewrite H. reflexivity. Qed.





(** Outside the statement above: the white space after the keyword may hold
    line breaks, so a line that is the keyword alone takes the next line
    into its match. After [agent] the line is not rewritten and the droid
    referenced is [agent]; after [skill] the rewritten line is taken by the
    [skill] rewrite. *)
Example keyword_alone_takes_the_next_line :
  let o := mkOptions None None command (Some false) in
  let afterAgent := normalizeText "agent
agent reviewer --strict" o in
  let afterSkill := normalizeText "skill
agent reviewer --strict" o in
  text afterAgent
  = "Use Task tool with subagent_type `agent` (if available) reviewer --strict"
  /\ referencedDroids afterAgent = ["agent"]
  /\ text afterSkill
     = "Use Skill tool: `Use` (if available) Task tool with subagent_type `reviewer` (if available) --strict"
  /\ referencedDroids afterSkill = ["reviewer"].
Proof. vm_compute. repeat split. Qed.

End AgentLine.

(* ================================================================= *)
(** ** Quotes around a name *)

Module Quotes.
Import Re ReFacts LineFacts ReMore ReplaceFacts Normalizer Tokens Texts
  StringFacts InvocationFacts.

Lemma quotes_never_empty (p : option ascii) : matchHere quotesAtEnds p "" = None.
Proof. destruct p; reflexivity. Qed.

Lemma quotes_skip (p : option ascii) (c : ascii) (t : string) :
  quoteChar c = false -> matchHere quotesAtEnds p (String c t) = None.
Proof.
  intro Hc. unfold matchHere, quotesAtEnds.
  cbn [pattern ignoreCase multiline]. unfold Plus.
  rewrite run_alt, run_seq, run_bol.
  destruct (atBol false _);
    repeat (rewrite ?run_seq, ?run_chr;
            change (accepts false quoteChar c) with (quoteChar c);
            rewrite ?Hc); reflexivity.
Qed.

Lemma quotes_nowhere (m suffix : string) : forall p,
  forallb (fun c => negb (quoteChar c)) (list_ascii_of_string m) = true ->
  matchesNowhereIn quotesAtEnds p m suffix = true.
Proof.
  induction m as [|c m IH]; intros p H; [reflexivity|].
  cbn [list_ascii_of_string forallb] in H.
  apply andb_true_iff in H. destruct H as [Hc Hm].
  apply negb_true_iff in Hc.
  cbn [matchesNowhereIn append]. rewrite (quotes_skip p c _ Hc).
  apply IH, Hm.
Qed.

(** A run of quotes at the start of the text is one match. *)
Lemma leading_quotes_match (d : ascii) (q tail : string) :
  quoteChar d = true ->
  forallb quoteChar (list_ascii_of_string q) = true ->
  headRejected false quoteChar tail = true ->
  matchHere quotesAtEnds None (String d q ++ tail)
  = Some (mkState (lastChar (Some d) q) tail []).
Proof.
  intros Hd Hq Htail. unfold matchHere, quotesAtEnds.
  cbn [pattern ignoreCase multiline append]. unfold Plus.
  rewrite run_alt, run_seq, run_bol. cbn [atBol prev].
  rewrite run_seq, run_chr.
  change (accepts false quoteChar d) with (quoteChar d). rewrite Hd.
  rewrite run_star. cbn [rest].
  rewrite (@iterate_chr false false quoteChar Some tail []
             (mkState (lastChar (Some d) q) tail []) Htail q (Some d));
    [reflexivity|apply allAccepted_members, Hq|rewrite length_append; lia
    |reflexivity].
Qed.

(** A run of quotes at the end of the text, after some other character,
    is one match. *)
Lemma trailing_quotes_match (c d : ascii) (q : string) :
  quoteChar d = true ->
  forallb quoteChar (list_ascii_of_string q) = true ->
  matchHere quotesAtEnds (Some c) (String d q ++ "")
  = Some (mkState (lastChar (Some d) q) "" []).
Proof.
  intros Hd Hq. unfold matchHere, quotesAtEnds.
  cbn [pattern ignoreCase multiline append]. unfold Plus.
  rewrite run_alt, run_seq, run_bol. cbn [atBol prev andb].
  rewrite !run_seq, run_chr.
  change (accepts false quoteChar d) with (quoteChar d). rewrite Hd.
  rewrite run_star. cbn [rest].
  rewrite (@iterate_chr false false quoteChar
             (fun st1 => run false false Eol st1 Some) "" []
             (mkState (lastChar (Some d) q) "" []) eq_refl q (Some d));
    [reflexivity|apply allAccepted_members, Hq|rewrite length_append; lia
    |reflexivity].
Qed.

Section Strip.
Variable f : string -> Captures -> unit -> string * unit.
Hypothesis f_drops : forall m g u, f m g u = ("", u).

Lemma strip_tail (m q2 : string) (p : option ascii) (k : nat) :
  m <> "" ->
  forallb (fun c => negb (quoteChar c)) (list_ascii_of_string m) = true ->
  forallb quoteChar (list_ascii_of_string q2) = true ->
  replaceFrom quotesAtEnds f (String.length m + S k) p (m ++ q2) tt = (m, tt).
Proof.
  intros Hne Hm Hq2.
  rewrite replaceFrom_skip by (apply quotes_nowhere, Hm).
  assert (Hlast : exists c, lastChar p m = Some c).
  { destruct m as [|c m]; [contradiction|]. clear. simpl.
    revert c. induction m as [|c' m IH]; intro c; simpl; eauto. }
  destruct Hlast as [c ->].
  destruct q2 as [|d q2].
  - rewrite (@replaceFrom_end _ quotesAtEnds f quotes_never_empty). cbn [fst snd].
    rewrite append_nil_r. reflexivity.
  - cbn [list_ascii_of_string forallb] in Hq2.
    apply andb_true_iff in Hq2. destruct Hq2 as [Hd Hq2].
    rewrite <- (append_nil_r (String d q2)).
    rewrite (@replaceFrom_match _ quotesAtEnds f k (Some c) (String d q2) ""
               (mkState (lastChar (Some d) q2) "" []));
      [ | apply trailing_quotes_match; assumption | reflexivity | discriminate ].
    rewrite f_drops. cbn [fst snd prev caps].
    rewrite (@replaceFrom_end _ quotesAtEnds f quotes_never_empty). cbn [fst snd append].
    rewrite append_nil_r. reflexivity.
Qed.

Lemma strip_all (q1 m q2 : string) :
  forallb quoteChar (list_ascii_of_string q1) = true ->
  m <> "" ->
  forallb (fun c => negb (quoteChar c)) (list_ascii_of_string m) = true ->
  forallb quoteChar (list_ascii_of_string q2) = true ->
  replaceAllWith quotesAtEnds f (q1 ++ m ++ q2) tt = (m, tt).
Proof.
  intros Hq1 Hne Hm Hq2. unfold replaceAllWith.
  destruct q1 as [|d q1].
  - cbn [append].
    replace (S (String.length (m ++ q2)))
      with (String.length m + S (String.length q2))
      by (rewrite length_append; lia).
    apply strip_tail; assumption.
  - cbn [list_ascii_of_string forallb] in Hq1.
    apply andb_true_iff in Hq1. destruct Hq1 as [Hd Hq1].
    assert (Hhead : headRejected false quoteChar (m ++ q2) = true).
    { destruct m as [|c m]; [contradiction|].
      cbn [list_ascii_of_string forallb] in Hm.
      apply andb_true_iff in Hm. destruct Hm as [Hc _]. exact Hc. }
    rewrite (@replaceFrom_match _ quotesAtEnds f _ None (String d q1) (m ++ q2)
               (mkState (lastChar (Some d) q1) (m ++ q2) []));
      [ | apply leading_quotes_match; assumption | reflexivity | discriminate ].
    rewrite f_drops. cbn [fst snd prev caps].
    replace (String.length (String d q1 ++ m ++ q2))
      with (String.length m + S (String.length q1 + String.length q2))
      by (rewrite !length_append; cbn [String.length]; lia).
    rewrite strip_tail by assumption. reflexivity.
Qed.
End Strip.

(** [stripQuotes] takes the quotes off both ends of a name: a text made of
    a run of quotes, a non-empty part without quotes and a run of quotes
    (either run may be empty) is reduced to the part in the middle. *)
Theorem stripQuotes_takes_the_quotes_off :
  forall q1 m q2 : string,
    forallb quoteChar (list_ascii_of_string q1) = true ->
    forallb quoteChar (list_ascii_of_string q2) = true ->
    m <> "" ->
    forallb (fun c => negb (quoteChar c)) (list_ascii_of_string m) = true ->
    stripQuotes (q1 ++ m ++ q2) = m.
Proof.
  intros q1 m q2 Hq1 Hq2 Hne Hm.
  change (stripQuotes (q1 ++ m ++ q2))
    with (fst (replaceAllWith quotesAtEnds
                 (fun _ _ (u : unit) => ("", u)) (q1 ++ m ++ q2) tt)).
  rewrite strip_all; auto.
Qed.

Lemma stripQuotes_takes_the_quotes_off_witness :
  stripQuotes "'code-reviewer'" = "code-reviewer".
Proof.
  apply (@stripQuotes_takes_the_quotes_off "'" "code-reviewer" "'");
    [reflexivity|reflexivity|discriminate|reflexivity].
Defined.

End Quotes.

(* ================================================================= *)
(** ** Scalars of the metadata block *)

Module Scalars.
Import Re ReFacts LineFacts ReMore ReplaceFacts Tokens Yaml StringFacts
  Converters.

(** *** Collapsing white space *)

Lemma trimStart_length (s : string) :
  String.length (Js.trimStart s) <= String.length s.
Proof.
  induction s as [|c s IH]; simpl; [lia|].
  destruct (Js.isSpace c); simpl; lia.
Qed.

Lemma spaces_run (cs : Captures) : forall (t : string) (pv : option ascii) (fuel : nat),
  String.length t <= fuel ->
  exists pv',
    iterate (run false false (Chr Js.isSpace)) Some fuel (mkState pv t cs)
    = Some (mkState pv' (Js.trimStart t) cs).
Proof.
  set (m := run false false (Chr Js.isSpace)).
  assert (Hm : forall st k0,
             m st k0 = match rest st with
                       | EmptyString => None
                       | String c t =>
                           if accepts false Js.isSpace c
                           then k0 (mkState (Some c) t (caps st)) else None
                       end) by reflexivity.
  clearbody m.
  induction t as [|c t IH]; intros pv fuel Hfuel.
  - exists pv. destruct fuel; simpl; [reflexivity|]. rewrite Hm. reflexivity.
  - destruct fuel as [|fuel]; [simpl in Hfuel; lia|].
    cbn [iterate Js.trimStart]. rewrite Hm. cbn [rest caps].
    change (accepts false Js.isSpace c) with (Js.isSpace c).
    destruct (Js.isSpace c); [|exists pv; reflexivity].
    assert (Hlt : (String.length t <? String.length (String c t)) = true)
      by (apply Nat.ltb_lt; simpl; lia).
    rewrite Hlt.
    destruct (IH (Some c) fuel) as [pv' E]; [simpl in Hfuel; lia|].
    rewrite E. exists pv'. reflexivity.
Qed.

Lemma spaces_match (pv : option ascii) (c : ascii) (t : string) :
  matchHere (mkRegExp (Plus space) false false) pv (String c t)
  = if Js.isSpace c
    then matchHere (mkRegExp (Plus space) false false) pv (String c t)
    else None.
Proof.
  destruct (Js.isSpace c) eqn:E; [reflexivity|].
  unfold matchHere. cbn [pattern ignoreCase multiline]. unfold Plus, space.
  rewrite run_seq, run_chr.
  change (accepts false Js.isSpace c) with (Js.isSpace c). rewrite E.
  reflexivity.
Qed.

Lemma spaces_match_rest (pv : option ascii) (c : ascii) (t : string) :
  Js.isSpace c = true ->
  exists pv',
    matchHere (mkRegExp (Plus space) false false) pv (String c t)
    = Some (mkState pv' (Js.trimStart t) []).
Proof.
  intro E. unfold matchHere. cbn [pattern ignoreCase multiline].
  unfold Plus, space. rewrite run_seq, run_chr.
  change (accepts false Js.isSpace c) with (Js.isSpace c). rewrite E.
  rewrite run_star. cbn [rest]. apply spaces_run. lia.
Qed.

Lemma spacedWithBlanks_app (a b : string) :
  spacedWithBlanks (a ++ b) = spacedWithBlanks a && spacedWithBlanks b.
Proof.
  unfold spacedWithBlanks. fold chars. rewrite chars_app, forallb_app.
  reflexivity.
Qed.

Lemma not_space_not_other (c : ascii) :
  Js.isSpace c = false -> negb (otherSpace c) = true.
Proof. intro H. unfold otherSpace. rewrite H. reflexivity. Qed.

Lemma collapse_spaces (fuel : nat) : forall (s : string) (p : option ascii),
  String.length s < fuel ->
  spacedWithBlanks
    (fst (replaceFrom (mkRegExp (Plus space) false false)
            (fun _ _ (u : unit) => (" ", u)) fuel p s tt)) = true.
Proof.
  induction fuel as [|fuel IH]; intros s p Hfuel; [lia|].
  destruct s as [|c t].
  - reflexivity.
  - cbn [replaceFrom]. destruct (Js.isSpace c) eqn:E.
    + destruct (spaces_match_rest p c t E) as [pv' ->]. cbn [rest prev caps].
      pose proof (trimStart_length t) as Hlen.
      destruct (String.length (String c t) - String.length (Js.trimStart t))
        as [|n] eqn:En; [cbn [String.length] in En; lia|].
      specialize (IH (Js.trimStart t) pv').
      destruct (replaceFrom _ _ fuel pv' (Js.trimStart t) tt) as [more u].
      cbn [fst] in *. rewrite spacedWithBlanks_app, IH by (simpl in Hfuel; lia).
      reflexivity.
    + rewrite spaces_match, E.
      specialize (IH t (Some c)).
      destruct (replaceFrom _ _ fuel (Some c) t tt) as [more u].
      cbn [fst] in *. unfold spacedWithBlanks in *.
      cbn [list_ascii_of_string forallb].
      rewrite (not_space_not_other c E), IH by (simpl in Hfuel; lia).
      reflexivity.
Qed.

Lemma sanitized_parts (s v : string) :
  sanitizeValue (JStr s) = Some v ->
  v <> "" /\ Js.trim v = v /\ spacedWithBlanks v = true.
Proof.
  unfold sanitizeValue.
  set (s2 := replaceAll _ " " (replaceAll _ " " s)).
  destruct (String.eqb_spec (Js.trim (replaceAll (mkRegExp (Plus space) false false) " " s2)) "")
    as [|Hne]; [discriminate|].
  intro H. injection H as <-.
  split; [exact Hne|]. split; [apply trim_idem|].
  apply trim_keeps. unfold replaceAll, replaceAllWith.
  apply collapse_spaces. lia.
Qed.

Lemma blanks_are_one_line (v : string) :
  spacedWithBlanks v = true -> oneLine v = true.
Proof.
  unfold spacedWithBlanks, oneLine.
  induction (list_ascii_of_string v) as [|c l IH]; simpl; [reflexivity|].
  intro H. apply andb_true_iff in H. destruct H as [Hc Hl].
  rewrite IH by exact Hl. rewrite andb_true_r.
  destruct (Js.isLineTerminator c) eqn:E; [|reflexivity].
  destruct (lineTerminator_cases c E) as [-> | ->]; discriminate Hc.
Qed.

End Scalars.

Module Escaping.
Import Re ReFacts LineFacts ReMore ReplaceFacts Tokens Yaml StringFacts
  Converters Scalars.

Lemma replace_char (c : ascii) (by_ : string) (fuel : nat) :
  forall (s : string) (p : option ascii),
    String.length s < fuel ->
    fst (replaceFrom (mkRegExp (lit c) false false)
           (fun _ _ (u : unit) => (by_, u)) fuel p s tt)
    = substChar c by_ s.
Proof.
  induction fuel as [|fuel IH]; intros s p Hfuel; [lia|].
  destruct s as [|x t]; [reflexivity|].
  cbn [replaceFrom substChar]. unfold matchHere.
  cbn [pattern ignoreCase multiline]. unfold lit. rewrite run_chr.
  change (accepts false (Ascii.eqb c) x) with (Ascii.eqb c x).
  specialize (IH t (Some x)).
  destruct (Ascii.eqb c x); cbn [rest prev caps].
  - destruct (String.length (String x t) - String.length t) as [|n] eqn:En;
      [cbn [String.length] in En; lia|].
    destruct (replaceFrom _ _ fuel (Some x) t tt) as [more u].
    cbn [fst] in *. rewrite IH by (simpl in Hfuel; lia). reflexivity.
  - destruct (replaceFrom _ _ fuel (Some x) t tt) as [more u].
    cbn [fst] in *. rewrite IH by (simpl in Hfuel; lia). reflexivity.
Qed.

Lemma replaceAll_char (c : ascii) (by_ s : string) :
  replaceAll (mkRegExp (lit c) false false) by_ s = substChar c by_ s.
Proof. unfold replaceAll, replaceAllWith. apply replace_char. lia. Qed.

Lemma escYaml_step (x : ascii) (t : string) :
  escYaml (String x t)
  = (if Ascii.eqb Js.backslash x
     then String Js.backslash (String Js.backslash "")
     else if Ascii.eqb Js.dquote x
          then String Js.backslash (String Js.dquote "")
          else String x "") ++ escYaml t.
Proof.
  unfold escYaml. rewrite !replaceAll_char. cbn [substChar].
  destruct (Ascii.eqb_spec Js.backslash x) as [<-|Hb]; [reflexivity|].
  cbn [substChar].
  destruct (Ascii.eqb Js.dquote x); reflexivity.
Qed.

Lemma escYaml_empty : escYaml "" = "".
Proof. reflexivity. Qed.

Lemma escYaml_injective (a : string) : forall b,
  escYaml a = escYaml b -> a = b.
Proof.
  induction a as [|x a IH]; intros [|y b] H.
  - reflexivity.
  - rewrite escYaml_step, escYaml_empty in H.
    destruct (Ascii.eqb Js.backslash y); [discriminate H|].
    destruct (Ascii.eqb Js.dquote y); discriminate H.
  - rewrite escYaml_step, escYaml_empty in H.
    destruct (Ascii.eqb Js.backslash x); [discriminate H|].
    destruct (Ascii.eqb Js.dquote x); discriminate H.
  - rewrite !escYaml_step in H.
    destruct (Ascii.eqb_spec Js.backslash x) as [<-|Hbx];
      destruct (Ascii.eqb_spec Js.backslash y) as [<-|Hby].
    + injection H as H. f_equal. apply IH, H.
    + destruct (Ascii.eqb_spec Js.dquote y) as [<-|Hqy].
      * discriminate H.
      * injection H as Hy _. congruence.
    + destruct (Ascii.eqb_spec Js.dquote x) as [<-|Hqx].
      * discriminate H.
      * injection H as Hx _. congruence.
    + destruct (Ascii.eqb_spec Js.dquote x) as [<-|Hqx];
        destruct (Ascii.eqb_spec Js.dquote y) as [<-|Hqy].
      * injection H as H. f_equal. apply IH, H.
      * injection H as Hy _. congruence.
      * injection H as Hx _. congruence.
      * injection H as Hxy H. f_equal; [exact Hxy|apply IH, H].
Qed.

Lemma escYaml_one_line (v : string) :
  oneLine v = true -> oneLine (escYaml v) = true.
Proof.
  unfold oneLine. induction v as [|x v IH]; [reflexivity|].
  cbn [list_ascii_of_string forallb]. intro H.
  apply andb_true_iff in H. destruct H as [Hx Hv].
  rewrite escYaml_step. fold chars. rewrite chars_app, forallb_app.
  unfold chars. rewrite IH by exact Hv. rewrite andb_true_r.
  destruct (Ascii.eqb Js.backslash x); [reflexivity|].
  destruct (Ascii.eqb Js.dquote x); [reflexivity|].
  cbn [list_ascii_of_string forallb]. rewrite Hx. reflexivity.
Qed.

(** [escYaml] loses nothing: two values with the same escaped text are the
    same value; and it adds no line break. *)
Theorem escYaml_is_injective :
  forall a b : string,
    (escYaml a = escYaml b -> a = b)
    /\ (oneLine a = true -> oneLine (escYaml a) = true).
Proof.
  intros a b. split; [apply escYaml_injective|apply escYaml_one_line].
Qed.

Lemma oneLine_app (a b : string) :
  oneLine (a ++ b) = oneLine a && oneLine b.
Proof. unfold oneLine. fold chars. rewrite chars_app, forallb_app. reflexivity. Qed.

(** The line that [convertCommand] writes for [description] and for
    [argument-hint] ([scalarLine], in both revisions) takes one line,
    whatever the value in the source: the value written is the one
    [sanitizeValue] returns, which is not empty, has no white space at
    either end and none but the space character inside; it stands as it is,
    or escaped between double quotes. *)
Theorem scalar_field_takes_one_line :
  forall (key : string) (val : JsValue) (line : string),
    oneLine key = true ->
    In line (scalarLine key val) ->
    oneLine line = true
    /\ exists v,
         sanitizeValue val = Some v
         /\ v <> "" /\ Js.trim v = v /\ spacedWithBlanks v = true
         /\ (line = key ++ ": " ++ v
             \/ line = key ++ ": " ++ Js.chr Js.dquote ++ escYaml v
                         ++ Js.chr Js.dquote).
Proof.
  intros key val line Hkey Hin. unfold scalarLine in Hin.
  destruct (Value.truthy val); [|destruct Hin].
  destruct (sanitizeValue val) as [v|] eqn:Ev; [|destruct Hin].
  assert (Hv : v <> "" /\ Js.trim v = v /\ spacedWithBlanks v = true).
  { destruct val; try discriminate Ev. apply (sanitized_parts s), Ev. }
  destruct Hv as (Hne & Htrim & Hblank).
  pose proof (blanks_are_one_line v Hblank) as Hline.
  destruct (isPlainYamlSafe v); destruct Hin as [<-|[]].
  - split.
    + rewrite !oneLine_app, Hkey, Hline. reflexivity.
    + exists v. auto 10.
  - split.
    + rewrite !oneLine_app, Hkey, (escYaml_one_line v Hline). reflexivity.
    + exists v. auto 10.
Qed.

Lemma scalar_field_takes_one_line_witness :
  oneLine "description: Reviews a change, line by line" = true.
Proof.
  apply (@scalar_field_takes_one_line "description"
           (JStr ("Reviews a change," ++ Js.chr Js.LF ++ "	line by line  "))
           "description: Reviews a change, line by line");
    [reflexivity|left; reflexivity].
Defined.

End Escaping.

(* ================================================================= *)
(** ** The converted files *)

Module ConvertedFiles.
Import Re Tokens Yaml StringFacts Converters SkillConverter.

Lemma join_cons (sep x : string) (rest : list string) :
  rest <> [] -> Js.join sep (x :: rest) = x ++ sep ++ Js.join sep rest.
Proof. destruct rest; [contradiction|reflexivity]. Qed.

Lemma closed_lines (mid : list string) :
  exists front,
    Js.join (Js.chr Js.LF) (mid ++ ["---"]) = front ++ "---"
    /\ (mid = [] -> front = "").
Proof.
  induction mid as [|l mid (front & IH & _)].
  - exists "". split; reflexivity.
  - cbn [app]. rewrite join_cons by (destruct mid; discriminate).
    exists (l ++ Js.chr Js.LF ++ front). rewrite IH, !append_assoc.
    split; [reflexivity|discriminate].
Qed.

Lemma framed_lines (mid : list string) :
  exists front,
    Js.join (Js.chr Js.LF) (["---"] ++ mid ++ ["---"])
    = "---" ++ Js.chr Js.LF ++ front ++ "---"
    /\ (mid = [] -> front = "").
Proof.
  cbn [app]. rewrite join_cons by (destruct mid; discriminate).
  destruct (closed_lines mid) as (front & -> & Hnil).
  exists front. split; [reflexivity|exact Hnil].
Qed.

Lemma framed_lines_head (l : string) (mid : list string) :
  exists front,
    Js.join (Js.chr Js.LF) (["---"] ++ (l :: mid) ++ ["---"])
    = "---" ++ Js.chr Js.LF ++ l ++ Js.chr Js.LF ++ front ++ "---".
Proof.
  cbn [app]. rewrite !join_cons by (try destruct mid; discriminate).
  destruct (closed_lines mid) as (front & -> & _).
  exists front. reflexivity.
Qed.

(** *** The command converter *)

Lemma assoc_filter (A : Type) (keep : string -> bool) (k : string)
    (fields : list (string * A)) :
  keep k = true ->
  Value.assoc k (filter (fun kv => keep (fst kv)) fields) = Value.assoc k fields.
Proof.
  intro Hk. induction fields as [|[k' v] fields IH]; [reflexivity|].
  cbn [filter fst]. destruct (keep k') eqn:E; cbn [Value.assoc].
  - rewrite IH. reflexivity.
  - destruct (String.eqb_spec k k') as [->|]; [congruence|exact IH].
Qed.

Lemma kept_entries (A B : Type) (keep : string -> bool) (g1 g2 : string -> B)
    (fields : list (string * A)) :
  (forall k, keep k = true -> g1 k = g2 k) ->
  flat_map (fun key => if keep key then [(key, g1 key)] else [])
    (map fst (filter (fun kv => keep (fst kv)) fields))
  = flat_map (fun key => if keep key then [(key, g2 key)] else [])
      (map fst fields).
Proof.
  intro Hg. induction fields as [|[k v] fields IH]; [reflexivity|].
  cbn [filter fst map flat_map]. destruct (keep k) eqn:E.
  - cbn [map flat_map fst]. rewrite E, IH, (Hg k E). reflexivity.
  - exact IH.
Qed.

Lemma filterKeys_filter (fields : list (string * JsValue)) :
  filterKeys
    (JObj (filter (fun kv => Js.includes Converters.ALLOWED_FRONTMATTER_KEYS (fst kv))
             fields))
  = filterKeys (JObj fields).
Proof.
  unfold filterKeys. f_equal. cbn [Value.keys].
  apply (@kept_entries JsValue JsValue (Js.includes Converters.ALLOWED_FRONTMATTER_KEYS)).
  intros k Hk. cbn [Value.get]. rewrite assoc_filter by exact Hk.
  reflexivity.
Qed.

(** Only [description], [argument-hint] and [allowed-tools] reach a
    converted command: taking every other key out of the parsed metadata
    gives the same text. *)
Theorem command_keeps_the_allowed_keys_only :
  forall (fields : list (string * JsValue)) (body : string)
         (nativeSource : string -> string) (mdText : string),
    let kept :=
      filter (fun kv => Js.includes Converters.ALLOWED_FRONTMATTER_KEYS (fst kv)) fields in
    convertCommand (fun _ => Returned (mkGrayMatterFile (JObj fields) body))
      nativeSource mdText
    = convertCommand (fun _ => Returned (mkGrayMatterFile (JObj kept) body))
        nativeSource mdText.
Proof.
  intros fields body ns md kept. subst kept. unfold convertCommand.
  cbn [Value.truthy gm_data gm_content]. rewrite filterKeys_filter.
  reflexivity.
Qed.

Lemma not_blank_with_dash (t : string) : Js.trim (String "-" t) <> "".
Proof.
  intro H. apply trim_empty in H. discriminate H.
Qed.

(** A command never turns blank: when the converted text is empty or white
    space only, it is the input itself. *)
Theorem command_never_turns_blank :
  forall (matter : string -> Outcome GrayMatterFile)
         (nativeSource : string -> string) (mdText : string),
    Js.trim (convertCommand matter nativeSource mdText) = "" ->
    convertCommand matter nativeSource mdText = mdText.
Proof.
  intros matter ns md. unfold convertCommand.
  destruct (matter md) as [parsed|]; [|reflexivity].
  set (src := if Value.truthy (gm_data parsed) then gm_data parsed else JObj []).
  set (nb := Normalizer.text _).
  destruct (List.length (Value.keys (filterKeys src)) =? 0).
  - destruct (String.eqb_spec (Js.trim nb) "") as [E|E]; cbn [negb];
      [reflexivity|contradiction].
  - match goal with
    | |- context [Js.join _ (["---"] ++ ?a ++ ?b ++ ?c ++ ["---"])%list] =>
        replace (["---"] ++ a ++ b ++ c ++ ["---"])%list
          with (["---"] ++ (a ++ b ++ c) ++ ["---"])%list
          by (rewrite <- !app_assoc; reflexivity);
        destruct (framed_lines (a ++ b ++ c)) as (front & -> & _)
    end.
    cbn [append]. intro H. exfalso. exact (not_blank_with_dash _ H).
Qed.

Lemma command_never_turns_blank_witness :
  convertCommand (fun _ => Returned (mkGrayMatterFile (JObj [("name", JStr "x")]) " "))
    (fun key => key) "  " = "  ".
Proof.
  apply command_never_turns_blank. reflexivity.
Defined.

(** *** The skill converter *)

(** A skill file whose metadata parses keeps its body as it is, behind a
    metadata block; with a fallback name (the installer passes the name of
    the skill) the block opens with a name line, for the sanitized name of
    the metadata or else the fallback. A file that does not parse is
    returned unchanged. *)
Theorem skill_file_gets_a_name_and_keeps_its_body :
  forall (matter : string -> Outcome GrayMatterFile)
         (nativeSource : string -> string)
         (mdText fallback : string),
    fallback <> "" ->
    match matter mdText with
    | Threw _ =>
        convertSkillFile matter nativeSource mdText (Some fallback) = mdText
    | Returned parsed =>
        exists n front,
          convertSkillFile matter nativeSource mdText (Some fallback)
          = "---" ++ Js.chr Js.LF ++ plainOrQuoted "name" n ++ Js.chr Js.LF
              ++ front ++ "---" ++ Js.chr Js.LF ++ Js.chr Js.LF
              ++ gm_content parsed
          /\ n <> ""
          /\ match sanitizeValue
                     (Value.get "name"
                        (if Value.truthy (gm_data parsed)
                         then gm_data parsed else JObj [])) with
             | Some s => n = s
             | None => n = fallback
             end
    end.
Proof.
  intros matter ns md fb Hfb. unfold convertSkillFile.
  destruct (matter md) as [parsed|]; [|reflexivity].
  set (src := if Value.truthy (gm_data parsed) then gm_data parsed else JObj []).
  assert (Hname : exists n,
             match sanitizeValue (Value.get "name" src) with
             | Some s => Some s
             | None => Some fb
             end = Some n
             /\ String.eqb n "" = false
             /\ match sanitizeValue (Value.get "name" src) with
                | Some s => n = s
                | None => n = fb
                end).
  { destruct (sanitizeValue (Value.get "name" src)) as [s|] eqn:E.
    - exists s. split; [reflexivity|]. split; [|reflexivity].
      destruct (Value.get "name" src); try discriminate E.
      apply Scalars.sanitized_parts in E. destruct E as [E _].
      now apply String.eqb_neq.
    - exists fb. split; [reflexivity|]. split; [|reflexivity].
      now apply String.eqb_neq. }
  destruct Hname as (n & -> & Hne & Hn). rewrite Hne. cbn [negb app].
  match goal with
  | |- context [Js.join _ ("---" :: ?l :: (?a ++ ?b ++ ["---"])%list)] =>
      destruct (framed_lines_head l (a ++ b)) as [front E];
      cbn [app] in E; rewrite <- app_assoc in E; rewrite E
  end.
  exists n, front. rewrite !append_assoc.
  split; [reflexivity|]. split; [now apply String.eqb_neq|exact Hn].
Qed.

Lemma skill_file_gets_a_name_and_keeps_its_body_witness :
  exists n front,
    convertSkillFile (fun _ => Returned SampleWorld.pdfSkill) (fun key => key)
      "unparsed text" (Some "pdf-tools")
    = "---" ++ Js.chr Js.LF ++ plainOrQuoted "name" n ++ Js.chr Js.LF
        ++ front ++ "---" ++ Js.chr Js.LF ++ Js.chr Js.LF ++ "Use pdftotext."
    /\ n <> "" /\ n = "pdf-tools".
Proof.
  exact (@skill_file_gets_a_name_and_keeps_its_body
           (fun _ => Returned SampleWorld.pdfSkill) (fun key => key)
           "unparsed text" "pdf-tools" ltac:(discriminate)).
Defined.

End ConvertedFiles.

(* ================================================================= *)
(** ** Repeated and already mapped tokens *)

Module Remapping.
Import Analyzer ToolLoop Tokens UniqFacts.

Lemma toolMapped_short (t : string) :
  toolMapped t = [] \/ exists r, toolMapped t = [r].
Proof.
  pose proof (TokenFacts.toolMapped_hasNoTarget t) as H.
  destruct (toolMapped t) as [|r [|r' l]]; eauto.
  destruct (hasNoTarget t); discriminate H.
Qed.

Lemma uniq_of_repeats (l : list string) : forall seenT seen,
  (forall t r, In t seenT -> In r (toolMapped t) -> In r seen) ->
  Js.uniqFrom ToolRef_eqb seen
    (flat_map toolMapped (Js.uniqFrom String.eqb seenT l))
  = Js.uniqFrom ToolRef_eqb seen (flat_map toolMapped l).
Proof.
  induction l as [|x l IH]; intros seenT seen Hseen; [reflexivity|].
  cbn [Js.uniqFrom flat_map].
  destruct (existsb (String.eqb x) seenT) eqn:Ex.
  - apply (proj1 (includes_In seenT x)) in Ex.
    rewrite IH by exact Hseen.
    destruct (toolMapped_short x) as [E|[r E]]; rewrite E; [reflexivity|].
    cbn [app Js.uniqFrom].
    assert (Hr : In r seen) by (apply (Hseen x); [exact Ex|rewrite E; left; reflexivity]).
    apply FactoryMappingFacts.seen_spec in Hr. rewrite Hr. reflexivity.
  - cbn [flat_map].
    destruct (toolMapped_short x) as [E|[r E]]; rewrite E; cbn [app Js.uniqFrom].
    + apply IH. intros t r [<-|Ht] Hr; [rewrite E in Hr; destruct Hr|].
      apply (Hseen t); assumption.
    + destruct (existsb (ToolRef_eqb r) seen) eqn:Er.
      * apply IH. intros t r' [<-|Ht] Hr.
        -- rewrite E in Hr. destruct Hr as [<-|[]].
           apply FactoryMappingFacts.seen_spec, Er.
        -- apply (Hseen t); assumption.
      * f_equal. apply IH. intros t r' [<-|Ht] Hr.
        -- rewrite E in Hr. destruct Hr as [<-|[]]. left. reflexivity.
        -- right. apply (Hseen t); assumption.
Qed.

Lemma mapping_ignores_repeats (l : list string) :
  mapToolsForFactory (Js.uniqStrings l) = mapToolsForFactory l.
Proof.
  unfold mapToolsForFactory.
  rewrite !Agreement.fold_mapToolForFactory_toolMapped. cbn [app].
  apply (uniq_of_repeats l [] []). intros t r [].
Qed.

(** The agent converter reads the tool list as the analyzer does: on a
    comma-separated text and on an array [toArray] gives the tokens of
    [parseTools] with the repetitions taken out (or nothing when there is no
    token), and repetitions make no difference to the mapped tools. *)
Theorem toArray_reads_the_tokens_of_parseTools :
  (forall s : string,
     AgentConverter.toArray (JStr s)
     = match parseTools (JStr s) with
       | [] => None
       | tokens => Some (Js.uniqStrings tokens)
       end)
  /\ (forall items : list JsValue,
        AgentConverter.toArray (JArr items)
        = Some (Js.uniqStrings (parseTools (JArr items))))
  /\ (forall tokens : list string,
        mapToolsForFactory (Js.uniqStrings tokens) = mapToolsForFactory tokens).
Proof.
  split; [|split].
  - intro s. unfold AgentConverter.toArray, parseTools.
    cbn [Value.truthy Value.toStr andb].
    destruct (String.eqb s ""); cbn [negb andb]; [reflexivity|].
    destruct (filter _ (map Js.trim (Js.split "," s))); reflexivity.
  - intro items. reflexivity.
  - apply mapping_ignores_repeats.
Qed.

Lemma uniq_of_NoDup (l : list ToolRef) : forall seen,
  NoDup l -> (forall r, In r l -> ~ In r seen) ->
  Js.uniqFrom ToolRef_eqb seen l = l.
Proof.
  induction l as [|r l IH]; intros seen Hnd Hdis; [reflexivity|].
  cbn [Js.uniqFrom]. inversion Hnd as [|? ? Hr Hl]. subst.
  destruct (existsb (ToolRef_eqb r) seen) eqn:E.
  - apply FactoryMappingFacts.seen_spec in E.
    exfalso. apply (Hdis r); [left; reflexivity|exact E].
  - f_equal. apply IH; [exact Hl|].
    intros r' Hr' [<-|Hs]; [contradiction|].
    apply (Hdis r'); [right; exact Hr'|exact Hs].
Qed.

Lemma mapped_name_maps_to_itself (name : string) :
  isFactoryOrMcp (Named name) = true -> toolMapped name = [Named name].
Proof.
  cbn [isFactoryOrMcp]. unfold toolMapped, analyzeTool.
  destruct (Js.includes FACTORY_TOOLS name); [reflexivity|].
  cbn [orb]. rewrite test_exec.
  destruct (Re.exec MCP_TOOL_PATTERN name); [reflexivity|discriminate].
Qed.

Lemma mapped_names_map_to_themselves nativeSource (l : list ToolRef) :
  forallb isFactoryOrMcp l = true ->
  flat_map toolMapped (map (Converters.showTool nativeSource) l) = l.
Proof.
  induction l as [|r l IH]; [reflexivity|].
  cbn [forallb map flat_map]. intro H.
  apply andb_true_iff in H. destruct H as [Hr Hl].
  destruct r as [name|key]; [|discriminate Hr].
  cbn [Converters.showTool]. rewrite (mapped_name_maps_to_itself name Hr).
  rewrite IH by exact Hl. reflexivity.
Qed.
Lemma mapped_output_shape (tools : list string) :
  (forall t, In t tools -> Js.includes OBJECT_PROTOTYPE_KEYS t = false) ->
  NoDup (mapToolsForFactory tools)
  /\ forallb isFactoryOrMcp (mapToolsForFactory tools) = true.
Proof.
  intro Hkeys. unfold mapToolsForFactory, Js.uniq.
  destruct (FactoryMappingFacts.uniqFrom_spec
              (fold_left mapToolForFactory tools []) []) as [Hnd Hin].
  split; [exact Hnd|].
  pose proof (FactoryMappingFacts.fold_mapToolForFactory tools [] Hkeys eq_refl)
    as Hall.
  apply forallb_forall. intros x Hx. destruct (Hin x Hx) as [Hx' _].
  rewrite forallb_forall in Hall. apply Hall, Hx'.
Qed.

(** Mapping is idempotent: the tool list a converter writes, read back and
    mapped again, is the same list (for tokens that are no keys of
    [Object.prototype]); converting a converted file does not change its
    tools. *)
Theorem mapping_a_mapped_list_changes_nothing :
  forall (tools : list string) (nativeSource : string -> string),
    (forall t, In t tools -> Js.includes OBJECT_PROTOTYPE_KEYS t = false) ->
    mapToolsForFactory
      (map (Converters.showTool nativeSource) (mapToolsForFactory tools))
    = mapToolsForFactory tools.
Proof.
  intros tools ns Hkeys.
  destruct (mapped_output_shape tools Hkeys) as [Hnd Hall].
  set (out := mapToolsForFactory tools) in *.
  unfold mapToolsForFactory at 1.
  rewrite Agreement.fold_mapToolForFactory_toolMapped. cbn [app].
  rewrite (mapped_names_map_to_themselves ns out Hall).
  apply uniq_of_NoDup; [exact Hnd|]. intros r _ [].
Qed.

Lemma mapping_a_mapped_list_changes_nothing_witness :
  mapToolsForFactory
    (map (Converters.showTool (fun key => key))
       (mapToolsForFactory
          ["Bash"; "Write"; "Bash(git *)"; "mcp__github__create_issue";
           "AskUserQuestion"]))
  = mapToolsForFactory
      ["Bash"; "Write"; "Bash(git *)"; "mcp__github__create_issue";
       "AskUserQuestion"].
Proof.
  apply mapping_a_mapped_list_changes_nothing.
  intros t Hin. simpl in Hin.
  repeat (destruct Hin as [<-|Hin]; [reflexivity|]). destruct Hin.
Defined.

End Remapping.

(* ================================================================= *)
(** ** The analyzer reports what the normalizer rewrites *)

Module Reported.
Import Re ReFacts LineFacts ReMore Normalizer NormFacts Texts Tokens
  StringFacts InvocationFacts Analyzer.

Lemma tab_or_space_is_space (c : ascii) :
  tabOrSpace c = true -> Js.isSpace c = true.
Proof.
  destruct c as [[] [] [] [] [] [] [] []]; intro H;
    try reflexivity; discriminate H.
Qed.

Lemma tabs_are_spaces (s : string) :
  forallb tabOrSpace (list_ascii_of_string s) = true ->
  forallb Js.isSpace (list_ascii_of_string s) = true.
Proof.
  induction (list_ascii_of_string s) as [|c l IH]; simpl; [reflexivity|].
  intro H. apply andb_true_iff in H. destruct H as [Hc Hl].
  rewrite (tab_or_space_is_space c Hc), IH by exact Hl. reflexivity.
Qed.

Lemma search_reaches (re : RegExp) (s : string) (before : string) :
  forall p,
    (exists st, matchHere re (lastChar p before) s = Some st) ->
    exists r, search re p (before ++ s) = Some r.
Proof.
  induction before as [|c before IH]; intros p [st Hst].
  - cbn [append lastChar] in *. rewrite (search_here _ _ _ Hst). eauto.
  - cbn [append search].
    destruct (matchHere re p (String c (before ++ s))); [eauto|].
    destruct (IH (Some c)) as [[skipped st'] ->]; [exists st; exact Hst|].
    eauto.
Qed.

Section Keyword.
Variable kw : string.
Hypothesis kw_run : forall pv tail cs k,
  run false true (str kw) (mkState pv (kw ++ tail) cs) k
  = k (mkState (lastChar pv kw) tail cs).
Hypothesis kw_head : forall tail,
  headRejected false Js.isSpace (kw ++ tail) = true.

Lemma legacy_rule_matches (p : option ascii)
    (indent ws name tail : string) :
  match p with None => true | Some c => Js.isLineTerminator c end = true ->
  forallb tabOrSpace (list_ascii_of_string indent) = true ->
  forallb Js.isSpace (list_ascii_of_string ws) = true -> ws <> "" ->
  forallb (fun c => negb (Js.isSpace c)) (list_ascii_of_string name) = true ->
  name <> "" ->
  exists st,
    matchHere
      (mkRegExp (seqs [Bol; Star space; str kw; Plus space; Plus nonSpace])
         false true)
      p (indent ++ kw ++ ws ++ name ++ tail)
    = Some st.
Proof.
  intros Hp Hindent Hws Hwne Hname Hnne.
  destruct ws as [|s1 ws]; [contradiction|].
  destruct name as [|n1 name]; [contradiction|].
  cbn [list_ascii_of_string forallb] in Hws, Hname.
  apply andb_true_iff in Hws. destruct Hws as [Hs1 Hws].
  apply andb_true_iff in Hname. destruct Hname as [Hn1 Hname].
  destruct (iterate (run false true (Chr (fun c => negb (Js.isSpace c)))) Some
              (String.length (name ++ tail))
              (mkState (Some n1) (name ++ tail) [])) as [res|] eqn:Hres;
    [|exfalso; exact (iterate_total _ _ _ Hres)].
  exists res.
  unfold matchHere. cbn [pattern ignoreCase multiline seqs].
  unfold Plus, space, nonSpace.
  rewrite run_seq, run_bol.
  replace (atBol true _) with true
    by (unfold atBol; cbn [prev]; destruct p; [symmetry; exact Hp|reflexivity]).
  rewrite run_seq, run_star. cbn [rest].
  eapply iterate_chr with (w := indent);
    [ apply kw_head | apply allAccepted_members, tabs_are_spaces, Hindent
    | rewrite length_append; lia | ].
  rewrite run_seq, kw_run. cbn [append].
  rewrite !run_seq, run_chr.
  change (accepts false Js.isSpace s1) with (Js.isSpace s1). rewrite Hs1.
  rewrite run_star. cbn [rest].
  eapply iterate_chr with (w := ws) (tail := String n1 (name ++ tail));
    [ cbn [headRejected]; exact Hn1
    | apply allAccepted_members, Hws
    | rewrite length_append; lia | ].
  rewrite run_seq, run_chr.
  change (accepts false (fun c => negb (Js.isSpace c)) n1)
    with (negb (Js.isSpace n1)).
  rewrite Hn1. rewrite run_star. cbn [rest]. exact Hres.
Qed.
End Keyword.

Lemma agent_run_exact pv tail cs k :
  run false true (str "agent") (mkState pv ("agent" ++ tail) cs) k
  = k (mkState (lastChar pv "agent") tail cs).
Proof. cbn [str append]. unfold lit. chars. reflexivity. Qed.

Lemma skill_run_exact pv tail cs k :
  run false true (str "skill") (mkState pv ("skill" ++ tail) cs) k
  = k (mkState (lastChar pv "skill") tail cs).
Proof. cbn [str append]. unfold lit. chars. reflexivity. Qed.

Lemma rule_hit (rule : LegacyPatternRule) (content : string) :
  In rule LEGACY_RUNTIME_PATTERNS -> test (re rule) content = true ->
  In (warning rule) (fst (checkLegacyRuntimeContent content)).
Proof.
  intros Hin Htest. unfold checkLegacyRuntimeContent. cbn [fst].
  apply UniqFacts.uniqStrings_NoDup, in_map, filter_In. auto.
Qed.

Lemma line_parts (indent ws name more : string) :
  invocationLine indent ws name more = true ->
  forallb tabOrSpace (list_ascii_of_string indent) = true
  /\ forallb Js.isSpace (list_ascii_of_string ws) = true /\ ws <> ""
  /\ forallb (fun c => negb (Js.isSpace c)) (list_ascii_of_string name) = true
  /\ name <> "".
Proof.
  unfold invocationLine. intro H.
  repeat (apply andb_true_iff in H; destruct H as [H ?]).
  repeat match goal with
         | H : negb (String.eqb _ "") = true |- _ =>
             apply negb_true_iff, String.eqb_neq in H
         end.
  auto.
Qed.

(** A line that the normalizer rewrites as an [agent] or a [skill]
    invocation is also reported by the analyses: the check for legacy
    runtime patterns raises the warning of the matching rule on any text
    that has such a line. *)
Theorem invocation_lines_are_reported :
  forall before indent ws name more after : string,
    invocationLine indent ws name more = true ->
    startsLine before = true ->
    In "Contains 'agent <name>' invocations - Factory uses the Task tool + subagent_type"
      (fst (checkLegacyRuntimeContent
              (before ++ (indent ++ "agent" ++ ws ++ name ++ more) ++ after)))
    /\ In "Contains 'skill <name>' invocations - Factory uses the Skill tool"
         (fst (checkLegacyRuntimeContent
                 (before ++ (indent ++ "skill" ++ ws ++ name ++ more) ++ after))).
Proof.
  intros before indent ws name more after Hline Hstart.
  destruct (line_parts _ _ _ _ Hline) as (Hindent & Hws & Hwne & Hname & Hnne).
  split.
  - apply (@rule_hit
             (mkRule (mkRegExp (seqs [Bol; Star space; str "agent"; Plus space;
                                      Plus nonSpace]) false true)
                "Contains 'agent <name>' invocations - Factory uses the Task tool + subagent_type"
                (Some "Replace 'agent <name>' with guidance to use the Task tool (subagent_type: <name>)")));
      [right; left; reflexivity|].
    cbn [Analyzer.re]. unfold test.
    rewrite InvocationLines.line_in_context.
    destruct (@search_reaches
                (mkRegExp (seqs [Bol; Star space; str "agent"; Plus space;
                                 Plus nonSpace]) false true)
                (indent ++ "agent" ++ ws ++ name ++ more ++ after) before None)
      as [r ->]; [|reflexivity].
    apply (@legacy_rule_matches "agent" agent_run_exact
             (fun tail => eq_refl)); assumption.
  - apply (@rule_hit
             (mkRule (mkRegExp (seqs [Bol; Star space; str "skill"; Plus space;
                                      Plus nonSpace]) false true)
                "Contains 'skill <name>' invocations - Factory uses the Skill tool"
                (Some "Replace 'skill <name>' with guidance to use the Skill tool")));
      [right; right; left; reflexivity|].
    cbn [Analyzer.re]. unfold test.
    rewrite InvocationLines.line_in_context.
    destruct (@search_reaches
                (mkRegExp (seqs [Bol; Star space; str "skill"; Plus space;
                                 Plus nonSpace]) false true)
                (indent ++ "skill" ++ ws ++ name ++ more ++ after) before None)
      as [r ->]; [|reflexivity].
    apply (@legacy_rule_matches "skill" skill_run_exact
             (fun tail => eq_refl)); assumption.
Qed.

Lemma invocation_lines_are_reported_witness :
  In "Contains 'agent <name>' invocations - Factory uses the Task tool + subagent_type"
    (fst (checkLegacyRuntimeContent "Steps:
  agent 'code-reviewer' on the diff
Done.
"))
  /\ In "Contains 'skill <name>' invocations - Factory uses the Skill tool"
       (fst (checkLegacyRuntimeContent "Steps:
  skill 'code-reviewer' on the diff
Done.
")).
Proof.
  apply (@invocation_lines_are_reported "Steps:
" "  " " " "'code-reviewer'" " on the diff" "
Done.
"); reflexivity.
Defined.

End Reported.

(* ================================================================= *)
(** ** The installer *)

Module InstallFacts.
Import Installer.

Section Loop.
Variable World : Type.
Variable Item : Type.
Variable existed : Item -> bool.
Variable options : InstallOptions.
Variable step : Run World -> Item -> Run World.

(** What one turn of a loop does to the counters. *)
Hypothesis step_counts : forall st item,
  let r := result st in
  let r' := result (step st item) in
  tally r' = S (tally r)
  /\ List.length (errors r') + skipped r <= List.length (errors r) + skipped r'
  /\ skipped r <= skipped r'
  /\ overwritten r'
     <= overwritten r + (if existed item && force options then 1 else 0)
  /\ created r' <= created r + (if existed item then 0 else 1).

Lemma loop_counts (l : list Item) : forall st,
  let r := result st in
  let r' := result (fold_left step l st) in
  tally r' = tally r + List.length l
  /\ List.length (errors r') + skipped r <= List.length (errors r) + skipped r'
  /\ skipped r <= skipped r'
  /\ overwritten r'
     <= overwritten r
        + (if force options then List.length (filter existed l) else 0)
  /\ created r'
     <= created r + List.length (filter (fun i => negb (existed i)) l).
Proof.
  induction l as [|item l IH]; intro st; cbn [fold_left filter List.length].
  - cbn zeta. destruct (force options); lia.
  - specialize (IH (step st item)). cbn zeta in IH.
    pose proof (step_counts st item) as Hs. cbn zeta in Hs.
    cbn zeta. destruct (existed item), (force options);
      cbn [andb negb List.length] in *; lia.
Qed.
End Loop.

Section Steps.
Variable World : Type.
Variable existsSync : string -> World -> bool.
Variable mkdirSync : string -> Effect.M World unit.
Variable writeFileSync : string -> string -> Effect.M World unit.
Variable readFileSync : string -> World -> Outcome string.
Variable httpGet : string -> Outcome string.
Variable dirname : string -> string.
Variable basename : string -> string.
Variable matter : string -> Outcome GrayMatterFile.
Variable nativeSource : string -> string.
Variable options : InstallOptions.

Lemma installItem_counts label convert (st : Run World) (item : InstallItem) :
  let r := result st in
  let r' := result (installItem existsSync mkdirSync writeFileSync readFileSync
                      httpGet dirname label convert options st item) in
  tally r' = S (tally r)
  /\ List.length (errors r') + skipped r <= List.length (errors r) + skipped r'
  /\ skipped r <= skipped r'
  /\ overwritten r'
     <= overwritten r + (if item_exists item && force options then 1 else 0)
  /\ created r' <= created r + (if item_exists item then 0 else 1).
Proof.
  cbn zeta. unfold installItem, tally.
  destruct (item_exists item) eqn:Ex, (force options) eqn:Ef;
    cbn [andb negb];
    try (destruct (dryRun options); [cbn; lia|]);
    try (cbn; lia);
    match goal with
    | |- context [match ?m (world st) with _ => _ end] =>
        destruct (m (world st)) as [w [u|message]]
    end; cbn; rewrite ?length_app; cbn; lia.
Qed.

Lemma installSkill_counts (st : Run World) (skill : InstallSkillItem) :
  let r := result st in
  let r' := result (installSkill existsSync mkdirSync writeFileSync readFileSync
                      httpGet dirname basename matter nativeSource
                      options st skill) in
  tally r' = S (tally r)
  /\ List.length (errors r') + skipped r <= List.length (errors r) + skipped r'
  /\ skipped r <= skipped r'
  /\ overwritten r'
     <= overwritten r + (if sitem_exists skill && force options then 1 else 0)
  /\ created r' <= created r + (if sitem_exists skill then 0 else 1).
Proof.
  cbn zeta. unfold installSkill, tally.
  destruct (sitem_exists skill) eqn:Ex, (force options) eqn:Ef;
    cbn [andb negb];
    try (destruct (dryRun options); [cbn; lia|]);
    try (cbn; lia);
    match goal with
    | |- context [match ?m (world st) with _ => _ end] =>
        destruct (m (world st)) as [w [u|message]]
    end; cbn; rewrite ?length_app; cbn; lia.
Qed.
End Steps.

(** Every item of the plan is counted once, as created, overwritten or
    skipped; every error goes with a skipped item; only items whose
    destination existed are counted as overwritten, and none without
    [force]; only the others are counted as created. This holds whatever the
    file system and the network do. *)
Theorem every_item_is_counted_once :
  forall (World : Type)
         (existsSync : string -> World -> bool)
         (mkdirSync : string -> Effect.M World unit)
         (writeFileSync : string -> string -> Effect.M World unit)
         (readFileSync : string -> World -> Outcome string)
         (httpGet : string -> Outcome string)
         (dirname basename : string -> string)
         (matter : string -> Outcome GrayMatterFile)
         (nativeSource : string -> string)
         (convertAgentToDroid : string -> string -> string)
         (plan : InstallPlan) (options : InstallOptions) (w : World),
    let r := result (executeInstallPlan existsSync mkdirSync writeFileSync
                       readFileSync httpGet dirname basename matter
                       nativeSource convertAgentToDroid plan options w) in
    created r + overwritten r + skipped r = items plan
    /\ List.length (errors r) <= skipped r
    /\ overwritten r <= existing plan
    /\ (force options = false -> overwritten r = 0)
    /\ created r <= fresh plan.
Proof.
  intros World existsSync mkdirSync writeFileSync readFileSync httpGet dirname
    basename matter nativeSource convertAgentToDroid plan options w r.
  subst r. unfold executeInstallPlan, items, existing, fresh.
  set (st0 := mkRun w (mkInstallResult 0 0 0 []) []).
  set (stepD := installItem existsSync mkdirSync writeFileSync readFileSync
                  httpGet dirname "droid" _ options).
  set (stepC := installItem existsSync mkdirSync writeFileSync readFileSync
                  httpGet dirname "command" _ options).
  set (stepS := installSkill existsSync mkdirSync writeFileSync readFileSync
                  httpGet dirname basename matter nativeSource options).
  pose proof (@loop_counts World InstallItem item_exists options stepD
                (fun st item => installItem_counts existsSync mkdirSync
                   writeFileSync readFileSync httpGet dirname options
                   "droid" _ st item)
                (droids plan) st0) as HD.
  set (st1 := fold_left stepD (droids plan) st0) in *.
  pose proof (@loop_counts World InstallItem item_exists options stepC
                (fun st item => installItem_counts existsSync mkdirSync
                   writeFileSync readFileSync httpGet dirname options
                   "command" _ st item)
                (commands plan) st1) as HC.
  set (st2 := fold_left stepC (commands plan) st1) in *.
  pose proof (@loop_counts World InstallSkillItem sitem_exists options stepS
                (fun st skill => installSkill_counts existsSync mkdirSync
                   writeFileSync readFileSync httpGet dirname basename matter
                   nativeSource options st skill)
                (skills plan) st2) as HS.
  set (st3 := fold_left stepS (skills plan) st2) in *.
  cbn zeta in HD, HC, HS. unfold tally in *. subst st0. cbn in HD.
  destruct (force options); repeat split; try lia; discriminate.
Qed.

End InstallFacts.

Module InstallRuns.
Import Installer.

Section DryLoop.
Variable World : Type.
Variable Item : Type.
Variable existed : Item -> bool.
Variable forced : bool.
Variable step : Run World -> Item -> Run World.

Hypothesis step_dry : forall st item,
  let r := result st in
  let r' := result (step st item) in
  world (step st item) = world st
  /\ errors r' = errors r
  /\ created r' = created r + (if existed item then 0 else 1)
  /\ overwritten r' = overwritten r + (if existed item && forced then 1 else 0)
  /\ skipped r' = skipped r + (if existed item && negb forced then 1 else 0).

Lemma loop_dry (l : list Item) : forall st,
  let r := result st in
  let r' := result (fold_left step l st) in
  world (fold_left step l st) = world st
  /\ errors r' = errors r
  /\ created r' = created r + List.length (filter (fun i => negb (existed i)) l)
  /\ overwritten r'
     = overwritten r + (if forced then List.length (filter existed l) else 0)
  /\ skipped r'
     = skipped r + (if forced then 0 else List.length (filter existed l)).
Proof.
  induction l as [|item l IH]; intro st; cbn [fold_left filter List.length].
  - cbn zeta. destruct forced; repeat split; lia.
  - destruct (IH (step st item)) as (Hw & He & Hc & Ho & Hs).
    destruct (step_dry st item) as (Hw1 & He1 & Hc1 & Ho1 & Hs1).
    cbn zeta. rewrite Hw, He, Hc, Ho, Hs, Hw1, He1, Hc1, Ho1, Hs1.
    destruct (existed item), forced; cbn [andb negb List.length];
      repeat split; lia.
Qed.
End DryLoop.

Section AgreeLoop.
Variable World : Type.
Variable Item : Type.
Variable existed : Item -> bool.
Variable step : Run World -> Item -> Run World.

Hypothesis step_skips : forall st item,
  existed item = true -> agree 1 (step st item) st.
Hypothesis step_agrees : forall k st st' item,
  existed item = false -> agree k st st' ->
  agree k (step st item) (step st' item).

Lemma loop_agrees (l : list Item) : forall k st st',
  agree k st st' ->
  agree (k + List.length (filter existed l))
    (fold_left step l st)
    (fold_left step (filter (fun i => negb (existed i)) l) st').
Proof.
  induction l as [|item l IH]; intros k st st' H;
    cbn [fold_left filter List.length].
  - rewrite Nat.add_0_r. exact H.
  - destruct (existed item) eqn:E; cbn [negb fold_left List.length].
    + replace (k + S (List.length (filter existed l)))
        with (S k + List.length (filter existed l)) by lia.
      apply IH. destruct (step_skips st E) as (Hw & He & Hc & Ho & Hs).
      destruct H as (Hw' & He' & Hc' & Ho' & Hs').
      unfold agree. rewrite Hw, He, Hc, Ho, Hs, Hw', He', Hc', Ho', Hs'.
      repeat split; lia.
    + apply IH, step_agrees; assumption.
Qed.
End AgreeLoop.

Section Steps.
Variable World : Type.
Variable existsSync : string -> World -> bool.
Variable mkdirSync : string -> Effect.M World unit.
Variable writeFileSync : string -> string -> Effect.M World unit.
Variable readFileSync : string -> World -> Outcome string.
Variable httpGet : string -> Outcome string.
Variable dirname : string -> string.
Variable basename : string -> string.
Variable matter : string -> Outcome GrayMatterFile.
Variable nativeSource : string -> string.

Lemma installItem_dry label convert (forced talk : bool) (st : Run World)
    (item : InstallItem) :
  let st' := installItem existsSync mkdirSync writeFileSync readFileSync
               httpGet dirname label convert
               (mkInstallOptions forced true talk) st item in
  let r := result st in
  let r' := result st' in
  world st' = world st
  /\ errors r' = errors r
  /\ created r' = created r + (if item_exists item then 0 else 1)
  /\ overwritten r'
     = overwritten r + (if item_exists item && forced then 1 else 0)
  /\ skipped r'
     = skipped r + (if item_exists item && negb forced then 1 else 0).
Proof.
  cbn zeta. unfold installItem. cbn [force dryRun].
  destruct (item_exists item), forced; cbn; repeat split; lia.
Qed.

Lemma installSkill_dry (forced talk : bool) (st : Run World)
    (skill : InstallSkillItem) :
  let st' := installSkill existsSync mkdirSync writeFileSync readFileSync
               httpGet dirname basename matter nativeSource
               (mkInstallOptions forced true talk) st skill in
  let r := result st in
  let r' := result st' in
  world st' = world st
  /\ errors r' = errors r
  /\ created r' = created r + (if sitem_exists skill then 0 else 1)
  /\ overwritten r'
     = overwritten r + (if sitem_exists skill && forced then 1 else 0)
  /\ skipped r'
     = skipped r + (if sitem_exists skill && negb forced then 1 else 0).
Proof.
  cbn zeta. unfold installSkill. cbn [force dryRun].
  destruct (sitem_exists skill), forced; cbn; repeat split; lia.
Qed.

Lemma installItem_skips label convert (dry talk : bool) (st : Run World)
    (item : InstallItem) :
  item_exists item = true ->
  agree 1
    (installItem existsSync mkdirSync writeFileSync readFileSync httpGet
       dirname label convert (mkInstallOptions false dry talk) st item)
    st.
Proof.
  intro E. unfold installItem, agree. rewrite E. cbn. repeat split; lia.
Qed.

Lemma installSkill_skips (dry talk : bool) (st : Run World)
    (skill : InstallSkillItem) :
  sitem_exists skill = true ->
  agree 1
    (installSkill existsSync mkdirSync writeFileSync readFileSync httpGet
       dirname basename matter nativeSource (mkInstallOptions false dry talk)
       st skill)
    st.
Proof.
  intro E. unfold installSkill, agree. rewrite E. cbn. repeat split; lia.
Qed.

Lemma installItem_agrees label convert (options : InstallOptions) (k : nat)
    (st st' : Run World) (item : InstallItem) :
  item_exists item = false -> agree k st st' ->
  agree k
    (installItem existsSync mkdirSync writeFileSync readFileSync httpGet
       dirname label convert options st item)
    (installItem existsSync mkdirSync writeFileSync readFileSync httpGet
       dirname label convert options st' item).
Proof.
  intros E (Hw & He & Hc & Ho & Hs). unfold installItem, agree.
  rewrite E, Hw. cbn [andb].
  destruct (dryRun options);
    [cbn; rewrite He, Hc, Ho, Hs; repeat split; try assumption; try reflexivity; lia|].
  match goal with
  | |- context [match ?m (world st') with _ => _ end] =>
      destruct (m (world st')) as [w [u|message]]
  end; cbn; rewrite He, Hc, Ho, Hs; repeat split; try assumption; try reflexivity; lia.
Qed.

Lemma installSkill_agrees (options : InstallOptions) (k : nat)
    (st st' : Run World) (skill : InstallSkillItem) :
  sitem_exists skill = false -> agree k st st' ->
  agree k
    (installSkill existsSync mkdirSync writeFileSync readFileSync httpGet
       dirname basename matter nativeSource options st skill)
    (installSkill existsSync mkdirSync writeFileSync readFileSync httpGet
       dirname basename matter nativeSource options st' skill).
Proof.
  intros E (Hw & He & Hc & Ho & Hs). unfold installSkill, agree.
  rewrite E, Hw. cbn [andb].
  destruct (dryRun options); [cbn; rewrite He, Hc, Ho, Hs; repeat split; try assumption; try reflexivity; lia|].
  match goal with
  | |- context [match ?m (world st') with _ => _ end] =>
      destruct (m (world st')) as [w [u|message]]
  end; cbn; rewrite He, Hc, Ho, Hs; repeat split; try assumption; try reflexivity; lia.
Qed.
End Steps.

(** A dry run touches nothing: the world is the one it started in, no
    error is recorded, and the counters say what a real run would attempt:
    the new items as created, the existing ones as overwritten with [force]
    and as skipped without. *)
Theorem dry_run_touches_nothing :
  forall (World : Type)
         (existsSync : string -> World -> bool)
         (mkdirSync : string -> Effect.M World unit)
         (writeFileSync : string -> string -> Effect.M World unit)
         (readFileSync : string -> World -> Outcome string)
         (httpGet : string -> Outcome string)
         (dirname basename : string -> string)
         (matter : string -> Outcome GrayMatterFile)
         (nativeSource : string -> string)
         (convertAgentToDroid : string -> string -> string)
         (plan : InstallPlan) (force verbose : bool) (w : World),
    let st := executeInstallPlan existsSync mkdirSync writeFileSync
                readFileSync httpGet dirname basename matter nativeSource
                convertAgentToDroid plan
                (mkInstallOptions force true verbose) w in
    world st = w
    /\ errors (result st) = []
    /\ created (result st) = fresh plan
    /\ overwritten (result st) = (if force then existing plan else 0)
    /\ skipped (result st) = (if force then 0 else existing plan).
Proof.
  intros World existsSync mkdirSync writeFileSync readFileSync httpGet dirname
    basename matter nativeSource convertAgentToDroid plan forced talk w st.
  subst st. unfold executeInstallPlan, existing, fresh.
  set (st0 := mkRun w (mkInstallResult 0 0 0 []) []).
  set (stepD := installItem existsSync mkdirSync writeFileSync readFileSync
                  httpGet dirname "droid" _ _).
  set (stepC := installItem existsSync mkdirSync writeFileSync readFileSync
                  httpGet dirname "command" _ _).
  set (stepS := installSkill existsSync mkdirSync writeFileSync readFileSync
                  httpGet dirname basename matter nativeSource _).
  destruct (@loop_dry World InstallItem item_exists forced stepD
              (fun st item => installItem_dry existsSync mkdirSync
                 writeFileSync readFileSync httpGet dirname
                 "droid" _ forced talk st item)
              (droids plan) st0) as (Hw1 & He1 & Hc1 & Ho1 & Hs1).
  set (st1 := fold_left stepD (droids plan) st0) in *.
  destruct (@loop_dry World InstallItem item_exists forced stepC
              (fun st item => installItem_dry existsSync mkdirSync
                 writeFileSync readFileSync httpGet dirname
                 "command" _ forced talk st item)
              (commands plan) st1) as (Hw2 & He2 & Hc2 & Ho2 & Hs2).
  set (st2 := fold_left stepC (commands plan) st1) in *.
  destruct (@loop_dry World InstallSkillItem sitem_exists forced stepS
              (fun st skill => installSkill_dry existsSync mkdirSync
                 writeFileSync readFileSync httpGet dirname basename matter
                 nativeSource forced talk st skill)
              (skills plan) st2) as (Hw3 & He3 & Hc3 & Ho3 & Hs3).
  rewrite Hw3, Hw2, Hw1, He3, He2, He1, Hc3, Hc2, Hc1, Ho3, Ho2, Ho1,
    Hs3, Hs2, Hs1.
  subst st0. cbn [world result errors created overwritten skipped].
  destruct forced; repeat split; lia.
Qed.

(** Without [force] an item whose destination exists is left alone: the
    run ends in the world, with the errors and with the count of created
    items of a run over the plan without those items; nothing is counted as
    overwritten, and each of them is counted as skipped. *)
Theorem existing_items_are_left_alone_without_force :
  forall (World : Type)
         (existsSync : string -> World -> bool)
         (mkdirSync : string -> Effect.M World unit)
         (writeFileSync : string -> string -> Effect.M World unit)
         (readFileSync : string -> World -> Outcome string)
         (httpGet : string -> Outcome string)
         (dirname basename : string -> string)
         (matter : string -> Outcome GrayMatterFile)
         (nativeSource : string -> string)
         (convertAgentToDroid : string -> string -> string)
         (plan : InstallPlan) (dryRun verbose : bool) (w : World),
    let run := executeInstallPlan existsSync mkdirSync writeFileSync
                 readFileSync httpGet dirname basename matter nativeSource
                 convertAgentToDroid in
    let options := mkInstallOptions false dryRun verbose in
    let st := run plan options w in
    let st' := run (freshOnly plan) options w in
    world st = world st'
    /\ errors (result st) = errors (result st')
    /\ created (result st) = created (result st')
    /\ overwritten (result st) = 0
    /\ skipped (result st) = skipped (result st') + existing plan.
Proof.
  intros World existsSync mkdirSync writeFileSync readFileSync httpGet dirname
    basename matter nativeSource convertAgentToDroid plan dry talk w
    run options st st'.
  assert (Hagree : agree (existing plan) st st').
  { subst st st' run. unfold executeInstallPlan, existing, freshOnly.
    cbn [droids commands skills].
    apply (@loop_agrees World InstallSkillItem sitem_exists);
      [ intros; apply installSkill_skips; assumption
      | intros; apply installSkill_agrees; assumption | ].
    apply (@loop_agrees World InstallItem item_exists);
      [ intros; apply installItem_skips; assumption
      | intros; apply installItem_agrees; assumption | ].
    apply (@loop_agrees World InstallItem item_exists) with (k := 0);
      [ intros; apply installItem_skips; assumption
      | intros; apply installItem_agrees; assumption | ].
    unfold agree. repeat split. }
  destruct Hagree as (Hw & He & Hc & Ho & Hs).
  split; [exact Hw|]. split; [exact He|]. split; [exact Hc|].
  split; [|exact Hs].
  destruct (@InstallFacts.loop_counts World InstallItem item_exists options
              _ (fun st0 item => InstallFacts.installItem_counts existsSync
                   mkdirSync writeFileSync readFileSync httpGet dirname
                   options "droid"
                   (fun item content => convertAgentToDroid content (item_name item))
                   st0 item)
              (droids plan) (mkRun w (mkInstallResult 0 0 0 []) []))
    as (_ & _ & _ & HoD & _).
  set (st1 := fold_left _ (droids plan) _) in HoD.
  destruct (@InstallFacts.loop_counts World InstallItem item_exists options
              _ (fun st0 item => InstallFacts.installItem_counts existsSync
                   mkdirSync writeFileSync readFileSync httpGet dirname
                   options "command"
                   (fun _ content => Converters.convertCommand matter nativeSource content)
                   st0 item)
              (commands plan) st1)
    as (_ & _ & _ & HoC & _).
  set (st2 := fold_left _ (commands plan) st1) in HoC.
  destruct (@InstallFacts.loop_counts World InstallSkillItem sitem_exists
              options _
              (fun st0 skill => InstallFacts.installSkill_counts existsSync
                   mkdirSync writeFileSync readFileSync httpGet dirname
                   basename matter nativeSource options st0 skill)
              (skills plan) st2)
    as (_ & _ & _ & HoS & _).
  subst st run. unfold executeInstallPlan. fold st1. fold st2.
  cbn [force options] in HoD, HoC, HoS. cbn in HoD. lia.
Qed.

End InstallRuns.

(* ================================================================= *)
(** ** Normalizing an installation *)

Module InstalledFacts.
Import NormalizeInstalled Texts.

Section Loop.
Variable World : Type.
Variable readFileSync : string -> World -> Outcome string.
Variable writeFileSync : string -> string -> Effect.M World unit.
Variable options : NormalizeInstalledOptions.

Lemma normalizeFile_counts (st : Run World) (file : Normalizer.FileKind * string) :
  let st' := normalizeFile readFileSync writeFileSync options st file in
  scanned (result st') = S (scanned (result st))
  /\ changed (result st) <= changed (result st')
  /\ changed (result st') <= S (changed (result st))
  /\ List.length (errors (result st)) <= List.length (errors (result st'))
  /\ List.length (errors (result st')) <= S (List.length (errors (result st)))
  /\ (dryRun options = true -> world st' = world st).
Proof.
  cbn zeta. unfold normalizeFile. destruct file as [kind path].
  destruct (readFileSync path (world st)) as [content|message].
  - destruct (Normalizer.changed (Normalizer.normalizeText content _));
      cbn [negb].
    + destruct (verbose options), (dryRun options); cbn [negb];
        try (cbn; repeat split; (lia || reflexivity || discriminate));
        match goal with
        | |- context [writeFileSync ?p ?t ?w] =>
            destruct (writeFileSync p t w) as [w' [u|message]]
        end; cbn; rewrite ?length_app; cbn;
        repeat split; (lia || discriminate).
    + destruct (verbose options); cbn; repeat split; (lia || reflexivity).
  - cbn. rewrite length_app. cbn. repeat split; (lia || reflexivity).
Qed.

Lemma scan_counts (all : list (Normalizer.FileKind * string)) : forall st,
  let st' := fold_left (normalizeFile readFileSync writeFileSync options) all st in
  scanned (result st') = scanned (result st) + List.length all
  /\ changed (result st) <= changed (result st')
  /\ changed (result st') <= changed (result st) + List.length all
  /\ List.length (errors (result st')) <= List.length (errors (result st))
                                          + List.length all
  /\ (dryRun options = true -> world st' = world st).
Proof.
  induction all as [|file all IH]; intro st; cbn [fold_left List.length].
  - cbn zeta. repeat split; (lia || reflexivity).
  - destruct (IH (normalizeFile readFileSync writeFileSync options st file))
      as (Hs & Hc1 & Hc2 & He & Hw).
    destruct (normalizeFile_counts st file) as (Hs' & Hc1' & Hc2' & He1' & He2' & Hw').
    cbn zeta. repeat split; try lia.
    intro Hdry. rewrite (Hw Hdry). apply Hw', Hdry.
Qed.

(** A file whose text is free of legacy patterns is read and left
    alone. *)
Hypothesis clean : forall path w content,
  readFileSync path w = Returned content -> noLegacyPattern content = true.

Lemma normalizeFile_clean (st : Run World) (file : Normalizer.FileKind * string) :
  let st' := normalizeFile readFileSync writeFileSync options st file in
  world st' = world st /\ changed (result st') = changed (result st).
Proof.
  cbn zeta. unfold normalizeFile. destruct file as [kind path].
  destruct (readFileSync path (world st)) as [content|message] eqn:E.
  - rewrite NormWhole.clean_text_is_kept by (eapply clean; exact E).
    cbn [Normalizer.changed negb]. destruct (verbose options); split; reflexivity.
  - split; reflexivity.
Qed.

Lemma loop_clean (all : list (Normalizer.FileKind * string)) : forall st,
  let st' := fold_left (normalizeFile readFileSync writeFileSync options) all st in
  world st' = world st /\ changed (result st') = changed (result st).
Proof.
  induction all as [|file all IH]; intro st; cbn [fold_left].
  - split; reflexivity.
  - destruct (IH (normalizeFile readFileSync writeFileSync options st file))
      as [Hw Hc].
    destruct (normalizeFile_clean st file) as [Hw' Hc'].
    cbn zeta. rewrite Hw, Hc. split; assumption.
Qed.
End Loop.

Lemma listed (World : Type) existsSync readFileSync writeFileSync join
    listMarkdownFiles baseDir options (w : World) (st : Run World) :
  normalizeInstalled existsSync readFileSync writeFileSync join
    listMarkdownFiles baseDir options w = Returned st ->
  exists all,
    st = fold_left (normalizeFile readFileSync writeFileSync options) all
           (mkRun w (mkNormalizeInstalledResult 0 0 []) []).
Proof.
  unfold normalizeInstalled.
  destruct (markdownFilesOf _ _ _ w) as [commandFiles|]; [|discriminate].
  destruct (markdownFilesOf _ _ _ w) as [droidFiles|]; [|discriminate].
  destruct (markdownFilesOf _ _ _ w) as [skillFiles|]; [|discriminate].
  intro H. injection H as <-. eexists. reflexivity.
Qed.

(** The counters of a run over an installation: no more files are counted
    as changed, and no more errors recorded, than files were scanned; and a
    dry run leaves the world as it found it. *)
Theorem normalizing_counts_and_dry_run :
  forall (World : Type)
         (existsSync : string -> World -> bool)
         (readFileSync : string -> World -> Outcome string)
         (writeFileSync : string -> string -> Effect.M World unit)
         (join : string -> string -> string)
         (listMarkdownFiles : string -> bool -> World -> Outcome (list string))
         (baseDir : string) (options : NormalizeInstalledOptions)
         (w : World) (st : Run World),
    normalizeInstalled existsSync readFileSync writeFileSync join
      listMarkdownFiles baseDir options w = Returned st ->
    changed (result st) <= scanned (result st)
    /\ List.length (errors (result st)) <= scanned (result st)
    /\ (dryRun options = true -> world st = w).
Proof.
  intros World existsSync readFileSync writeFileSync join listMarkdownFiles
    baseDir options w st H.
  destruct (listed _ _ _ _ _ _ _ _ H) as [all ->].
  destruct (scan_counts readFileSync writeFileSync options all
              (mkRun w (mkNormalizeInstalledResult 0 0 []) []))
    as (Hs & _ & Hc & He & Hw).
  cbn in Hs, Hc, He, Hw. repeat split; try lia. exact Hw.
Qed.

Lemma normalizing_counts_and_dry_run_witness :
  let st :=
    NormalizeInstalled.mkRun ([] : SampleWorld.World)
      (mkNormalizeInstalledResult 3 3 []) [] in
  changed (result st) <= scanned (result st)
  /\ List.length (errors (result st)) <= scanned (result st)
  /\ (dryRun (mkNormalizeInstalledOptions true false) = true -> world st = []).
Proof.
  apply (@normalizing_counts_and_dry_run SampleWorld.World
           SampleWorld.existsSync (SampleWorld.readFileSync "agent reviewer")
           SampleWorld.writeFileSync SampleWorld.join
           SampleWorld.listMarkdownFiles ".factory"
           (mkNormalizeInstalledOptions true false) []).
  reflexivity.
Defined.

(** An installation whose files are all free of legacy patterns is left
    alone, dry run or not: nothing is written and no file is counted as
    changed. *)
Theorem clean_installation_is_left_alone :
  forall (World : Type)
         (existsSync : string -> World -> bool)
         (readFileSync : string -> World -> Outcome string)
         (writeFileSync : string -> string -> Effect.M World unit)
         (join : string -> string -> string)
         (listMarkdownFiles : string -> bool -> World -> Outcome (list string))
         (baseDir : string) (options : NormalizeInstalledOptions)
         (w : World) (st : Run World),
    (forall path w' content,
       readFileSync path w' = Returned content ->
       noLegacyPattern content = true) ->
    normalizeInstalled existsSync readFileSync writeFileSync join
      listMarkdownFiles baseDir options w = Returned st ->
    world st = w /\ changed (result st) = 0.
Proof.
  intros World existsSync readFileSync writeFileSync join listMarkdownFiles
    baseDir options w st Hclean H.
  destruct (listed _ _ _ _ _ _ _ _ H) as [all ->].
  apply (loop_clean readFileSync writeFileSync options Hclean all
           (mkRun w (mkNormalizeInstalledResult 0 0 []) [])).
Qed.

Lemma clean_installation_is_left_alone_witness :
  let st :=
    NormalizeInstalled.mkRun ([] : SampleWorld.World)
      (mkNormalizeInstalledResult 3 0 [])
      ["ok      .factory/commands/a.md"; "ok      .factory/droids/a.md";
       "ok      .factory/skills/a.md"] in
  world st = [] /\ changed (result st) = 0.
Proof.
  apply (@clean_installation_is_left_alone SampleWorld.World
           SampleWorld.existsSync (SampleWorld.readFileSync "Run the checks.")
           SampleWorld.writeFileSync SampleWorld.join
           SampleWorld.listMarkdownFiles ".factory"
           (mkNormalizeInstalledOptions false true) []).
  - intros path w' content H. injection H as <-. reflexivity.
  - reflexivity.
Defined.

End InstalledFacts.
